(** * The Auth0 broker of mcp-auth0-oidc: authorize, consent, callback, token exchange

    A shallow embedding of [src/src/auth.ts].  The four exported functions
    [authorize], [confirmConsent], [callback] and [tokenExchangeCallback] are
    written as programs over the calls they make: the Hono context ([setCookie],
    [c.text], [c.html], [c.redirect]), the downstream OAuth provider
    ([parseAuthRequest], [lookupClient], [completeAuthorization]) and the
    [oauth4webapi] client (random values, discovery, code and refresh grants).
    A run of a program threads the headers accumulated on the context and the
    state of the outside world, and records every call with its answer. *)

From Stdlib Require Import String Ascii ZArith List Bool.
From stdpp Require Import base option strings gmap countable.
Import ListNotations.

Local Open Scope string_scope.
Local Open Scope Z_scope.

(** ** JavaScript values *)

(** [!s] on a string-or-absent value: [undefined], [null] and [""] are falsy.
    [truthy] returns the string exactly when a JavaScript [if (x)] would pass. *)
Definition truthy (o : option string) : option string :=
  match o with
  | Some (String a s) => Some (String a s)
  | _ => None
  end.

(** [a || b] on string-or-absent values. *)
Definition js_or (a b : option string) : option string :=
  match truthy a with
  | Some s => Some s
  | None => b
  end.

(** [a || d] with a string default. *)
Definition js_or_default (a : option string) (d : string) : string :=
  match truthy a with
  | Some s => s
  | None => d
  end.

(** [s.split(" ")]: always at least one piece, empty pieces are kept. *)
Fixpoint split_space_aux (cur : string) (s : string) : list string :=
  match s with
  | EmptyString => [cur]
  | String a r =>
      if Ascii.eqb a " "%char then cur :: split_space_aux "" r
      else split_space_aux (cur ++ String a "") r
  end.

Definition split_space (s : string) : list string := split_space_aux "" s.

(** ** URLs and their search parameters *)

Record URL := mkURL {
  url_base : string;                         (* everything before the query *)
  searchParams : list (string * string)
}.

Definition key_is (k : string) (p : string * string) : bool := String.eqb (fst p) k.

(** [URLSearchParams.get]: the first value of the name. *)
Fixpoint sp_get (k : string) (l : list (string * string)) : option string :=
  match l with
  | [] => None
  | p :: r => if key_is k p then Some (snd p) else sp_get k r
  end.

Definition sp_delete (k : string) (l : list (string * string)) : list (string * string) :=
  List.filter (fun p => negb (key_is k p)) l.

(** [URLSearchParams.set]: overwrite the first pair of that name and drop the
    others, or append when there is none. *)
Fixpoint sp_set (k v : string) (l : list (string * string)) : list (string * string) :=
  match l with
  | [] => [(k, v)]
  | p :: r => if key_is k p then (k, v) :: sp_delete k r else p :: sp_set k v r
  end.

Definition url_set (k v : string) (u : URL) : URL :=
  {| url_base := url_base u; searchParams := sp_set k v (searchParams u) |}.

Definition url_get (k : string) (u : URL) : option string := sp_get k (searchParams u).

(** ** Data of the flow *)

(** [AuthRequest] of the downstream OAuth provider library. *)
Record AuthRequest := mkAuthRequest {
  responseType : string;
  clientId : string;
  redirectUri : string;
  scope : list string;
  state : string;
  downstreamCodeChallenge : option string;
  downstreamCodeChallengeMethod : option string
}.

(** [type Auth0AuthRequest]: the bundle kept in the transaction cookie. *)
Record Auth0AuthRequest := mkAuth0AuthRequest {
  mcpAuthRequest : AuthRequest;
  codeVerifier : string;
  codeChallenge : string;
  nonce : string;
  transactionState : string;
  consentToken : string
}.

(** The client metadata [lookupClient] returns, as far as [authorize] reads it. *)
Module ClientInfo.
Record t := mk {
  clientId : string;
  clientName : option string;
  logoUri : option string;
  clientUri : option string
}.
End ClientInfo.

(** [JWTPayload]: the claims of an ID token. *)
Record JWTPayload := mkJWTPayload {
  sub : option string;
  name : option string;
  email : option string;
  iss : option string;
  aud : option string;
  nonce_claim : option string
}.

(** [UserProps.tokenSet]; [accessTokenTTL] is what [callback] stores there. *)
Record TokenSet := mkTokenSet {
  accessToken : string;
  accessTokenTTL : option Z;
  idToken : option string;
  refreshToken : option string
}.

Record UserProps := mkUserProps {
  claims : JWTPayload;
  tokenSet : TokenSet
}.

Record Env := mkEnv {
  AUTH0_DOMAIN : string;
  AUTH0_CLIENT_ID : string;
  AUTH0_CLIENT_SECRET : string;
  AUTH0_AUDIENCE : string;
  AUTH0_SCOPE : string;
  NODE_ENV : string
}.

(** A request as the handlers read it: [c.req.url], [c.req.query(k)],
    [c.req.formData()] (absent when the body is not a form) and the cookies
    [getCookie] finds. *)
Record Request := mkRequest {
  url : string;
  query : gmap string string;
  formData : option (gmap string string);
  cookies : gmap string string
}.

Record Context := mkContext {
  env : Env;
  req : Request
}.

Definition getCookie (c : Context) (name : string) : option string :=
  cookies (req c) !! name.

(** ** Responses *)

Inductive SameSite := SameSiteNone | SameSiteLax.

Record CookieOptions := mkCookieOptions {
  httpOnly : bool;
  maxAge : option Z;
  path : option string;
  sameSite : option SameSite;
  secure : bool
}.

Record SetCookieHeader := mkSetCookie {
  cookie_name : string;
  cookie_value : string;
  cookie_options : CookieOptions
}.

(** What [renderConsentScreen] interpolates into its fixed markup. *)
Record ConsentScreen := mkConsentScreen {
  clientLogo : string;
  screen_clientName : string;
  screen_clientUri : string;
  screen_redirectUri : string;
  requestedScopes : list string;
  hidden_transaction_state : string;
  hidden_consent_token : string
}.

Inductive Body :=
| TextBody (s : string)
| HtmlBody (page : ConsentScreen)
| NoBody.

Record Response := mkResponse {
  status : Z;
  body : Body;
  location : option string;
  set_cookie : list SetCookieHeader
}.

(** ** The upstream provider's answers *)

Record AuthorizationServer := mkAS {
  issuer : string;
  authorization_endpoint : option string;
  token_endpoint : option string
}.

Record Client := mkClient { client_id : string }.

Inductive ClientAuth := ClientSecretPost (client_secret : string).

Record OidcConfig := mkOidcConfig {
  as_ : AuthorizationServer;
  client : Client;
  clientAuth : ClientAuth
}.

(** The validated callback parameters of [validateAuthResponse]. *)
Record CallbackParams := mkCallbackParams { code : string }.

(** An ID token as the token endpoint sends it: its compact form, its claims,
    and whether its signature, issuer and audience are the expected ones. *)
Record IdToken := mkIdToken {
  jwt : string;
  payload : JWTPayload;
  signature_ok : bool;
  issuer_ok : bool;
  audience_ok : bool
}.

Record TokenEndpointBody := mkTokenEndpointBody {
  body_access_token : string;
  body_expires_in : option Z;
  body_refresh_token : option string;
  body_id_token : option IdToken
}.

Inductive HttpResponse :=
| TokenResponse (b : TokenEndpointBody)
| ErrorResponse (error : string).

(** A processed token endpoint response.  [id_token] pairs the compact token
    with its validated claims, so [getValidatedIdTokenClaims] is absent
    exactly when the response has no ID token. *)
Record TokenEndpointResponse := mkTokenEndpointResponse {
  access_token : string;
  expires_in : option Z;
  refresh_token : option string;
  id_token : option (string * JWTPayload)
}.

Definition getValidatedIdTokenClaims (r : TokenEndpointResponse) : option JWTPayload :=
  snd <$> id_token r.

Definition raw_id_token (r : TokenEndpointResponse) : option string :=
  fst <$> id_token r.

(** The argument of [completeAuthorization]. *)
Record CompleteAuthorizationOptions := mkCompleteAuthorization {
  metadata_label : option string;
  props : UserProps;
  request : AuthRequest;
  grant_scope : list string;
  userId : option string
}.

(** ** Token exchange callback: arguments and result *)

Record TokenExchangeCallbackOptions := mkTokenExchangeOptions {
  grantType : string;
  options_props : UserProps
}.

Record TokenExchangeCallbackResult := mkTokenExchangeResult {
  result_accessTokenTTL : option Z;
  newProps : UserProps
}.

(** ** The platform functions the handlers call as pure functions

    [btoa(JSON.stringify(x))] and [JSON.parse(atob(s))] on the cookie bundle
    (parsing fails on a value that is not such an encoding, and the cast
    [as Auth0AuthRequest] is taken at its word), the PKCE S256 transform,
    and the WHATWG URL parser and serialiser. *)
Class Platform := {
  btoa_JSON_stringify : Auth0AuthRequest -> string;
  JSON_parse_atob : string -> option Auth0AuthRequest;
  JSON_roundtrip : forall b, JSON_parse_atob (btoa_JSON_stringify b) = Some b;
  btoa_nonempty : forall b, btoa_JSON_stringify b <> "";
  calculatePKCECodeChallenge : string -> string;
  URL_parse : string -> option URL;          (* new URL(s); absent when it throws *)
  URL_href : URL -> string;                  (* u.href, u.toString() *)
  URL_resolve_href : string -> string -> string  (* new URL(path, base).href *)
}.

(** ** Calls and programs *)

Inductive action :=
(* the Hono context *)
| SetCookie (name value : string) (o : CookieOptions)
| NewResponse (st : Z) (b : Body) (loc : option string)
(* c.env.OAUTH_PROVIDER *)
| ParseAuthRequest (r : Request)
| LookupClient (id : string)
| CompleteAuthorization (o : CompleteAuthorizationOptions)
(* oauth4webapi *)
| GenerateRandomCodeVerifier
| GenerateRandomState
| GenerateRandomNonce
| DiscoveryRequest (issuer_url : string)
| ValidateAuthResponse (a : AuthorizationServer) (cl : Client) (current_url expectedState : string)
| AuthorizationCodeGrantRequest (a : AuthorizationServer) (cl : Client) (ca : ClientAuth)
    (params : CallbackParams) (redirect_uri code_verifier : string)
| ProcessAuthorizationCodeResponse (a : AuthorizationServer) (cl : Client) (r : HttpResponse)
    (expectedNonce : string) (requireIdToken : bool)
| RefreshTokenGrantRequest (a : AuthorizationServer) (cl : Client) (ca : ClientAuth)
    (refresh_token : string)
| ProcessRefreshTokenResponse (a : AuthorizationServer) (cl : Client) (r : HttpResponse).

Definition answer (a : action) : Type :=
  match a with
  | SetCookie _ _ _ => unit
  | NewResponse _ _ _ => Response
  | ParseAuthRequest _ => AuthRequest
  | LookupClient _ => option ClientInfo.t
  | CompleteAuthorization _ => string
  | GenerateRandomCodeVerifier | GenerateRandomState | GenerateRandomNonce => string
  | DiscoveryRequest _ => AuthorizationServer
  | ValidateAuthResponse _ _ _ _ => CallbackParams
  | AuthorizationCodeGrantRequest _ _ _ _ _ _ => HttpResponse
  | ProcessAuthorizationCodeResponse _ _ _ _ _ => TokenEndpointResponse
  | RefreshTokenGrantRequest _ _ _ _ => HttpResponse
  | ProcessRefreshTokenResponse _ _ _ => TokenEndpointResponse
  end.

(** The calls that go over the network to the identity provider. *)
Definition is_network (a : action) : bool :=
  match a with
  | DiscoveryRequest _
  | AuthorizationCodeGrantRequest _ _ _ _ _ _
  | RefreshTokenGrantRequest _ _ _ _ => true
  | _ => false
  end.

Definition is_setCookie (a : action) : bool :=
  match a with SetCookie _ _ _ => true | _ => false end.

Definition is_completeAuthorization (a : action) : bool :=
  match a with CompleteAuthorization _ => true | _ => false end.

Definition is_random (a : action) : bool :=
  match a with
  | GenerateRandomCodeVerifier | GenerateRandomState | GenerateRandomNonce => true
  | _ => false
  end.

(** A handler body: it returns, throws, or makes a call and goes on with the
    answer.  A call that fails throws at the call. *)
Inductive prog (A : Type) : Type :=
| Ret (x : A)
| Throw (e : string)
| Call (a : action) (k : answer a -> prog A).

Arguments Ret {A} x.
Arguments Throw {A} e.
Arguments Call {A} a k.

Fixpoint bind {A B} (p : prog A) (f : A -> prog B) : prog B :=
  match p with
  | Ret x => f x
  | Throw e => Throw e
  | Call a k => Call a (fun x => bind (k x) f)
  end.

#[global] Instance prog_ret : MRet prog := fun _ x => Ret x.
#[global] Instance prog_bind : MBind prog := fun _ _ f p => bind p f.

Definition call (a : action) : prog (answer a) := Call a Ret.

(** [c.text(s, status)], [c.html(page)], [c.redirect(loc)]: responses built
    from the context, which carry the headers set on it so far. *)
Definition c_text (s : string) (st : Z) : prog Response :=
  call (NewResponse st (TextBody s) None).
Definition c_html (page : ConsentScreen) : prog Response :=
  call (NewResponse 200 (HtmlBody page) None).
Definition c_redirect (loc : string) : prog Response :=
  call (NewResponse 302 NoBody (Some loc)).

(** [Response.redirect(loc)]: the platform's constructor, not the context's. *)
Definition Response_redirect (loc : string) : Response :=
  {| status := 302; body := NoBody; location := Some loc; set_cookie := [] |}.

Definition setCookie (name value : string) (o : CookieOptions) : prog unit :=
  call (SetCookie name value o).

(** ** ID-token validation *)

(** Modelled from the spec: [validateIdToken(response, expectedNonce)] of the
    Upstream OIDC Client, which the source calls as oauth4webapi's
    [processAuthorizationCodeResponse] (the library is not part of the
    sources).  It fails if the provider answered with an error, if
    the ID token is absent although required, if the signature, issuer or
    audience check fails, or if the nonce is not the expected one. *)
Definition processAuthorizationCodeResponse (r : HttpResponse) (expectedNonce : string)
    (requireIdToken : bool) : string + TokenEndpointResponse :=
  match r with
  | ErrorResponse e => inl e
  | TokenResponse b =>
      match body_id_token b with
      | None =>
          if requireIdToken then inl "InvalidIdToken: no id_token"
          else inr (mkTokenEndpointResponse (body_access_token b) (body_expires_in b)
                      (body_refresh_token b) None)
      | Some t =>
          if negb (signature_ok t && issuer_ok t && audience_ok t)
          then inl "InvalidIdToken: signature, issuer or audience"
          else if bool_decide (nonce_claim (payload t) = Some expectedNonce)
          then inr (mkTokenEndpointResponse (body_access_token b) (body_expires_in b)
                      (body_refresh_token b) (Some (jwt t, payload t)))
          else inl "InvalidIdToken: unexpected nonce"
      end
  end.

(** ** Running a program *)

Inductive event := Ev (a : action) (r : string + answer a).

Definition event_action (e : event) : action := match e with Ev a _ => a end.

Record Outcome (W A : Type) := mkOutcome {
  result : string + A;                 (* thrown error, or returned value *)
  headers : list SetCookieHeader;      (* Set-Cookie headers on the context *)
  world : W;
  trace : list event
}.

Arguments mkOutcome {W A}.
Arguments result {W A}.
Arguments headers {W A}.
Arguments world {W A}.
Arguments trace {W A}.

Section Run.
Context {W : Type}.
(** How the outside world answers a call: an error or a value, and its
    next state. *)
Variable oracle : forall a : action, W -> (string + answer a) * W.

(** The context answers its own calls, ID-token validation is the function
    above, everything else is asked of the world. *)
Definition step (a : action) (h : list SetCookieHeader) (w : W)
  : (string + answer a) * list SetCookieHeader * W :=
  match a as a0 return (string + answer a0) * list SetCookieHeader * W with
  | SetCookie n v o => (inr tt, (h ++ [mkSetCookie n v o])%list, w)
  | NewResponse st b loc => (inr (mkResponse st b loc h), h, w)
  | ProcessAuthorizationCodeResponse _ _ r n q =>
      (processAuthorizationCodeResponse r n q, h, w)
  | a0 => let '(r, w') := oracle a0 w in (r, h, w')
  end.

Fixpoint run {A} (p : prog A) (h : list SetCookieHeader) (w : W) : Outcome W A :=
  match p with
  | Ret x => mkOutcome (inr x) h w []
  | Throw e => mkOutcome (inl e) h w []
  | Call a k =>
      match step a h w with
      | (inl e, h', w') => mkOutcome (inl e) h' w' [Ev a (inl e)]
      | (inr x, h', w') =>
          let o := run (k x) h' w' in
          mkOutcome (result o) (headers o) (world o) (Ev a (inr x) :: trace o)
      end
  end.
End Run.

(** ** The handlers of [auth.ts] *)

Section Handlers.
Context `{Platform}.

Definition getOidcConfig (issuer_url client_id client_secret : string) : prog OidcConfig :=
  a ← call (DiscoveryRequest issuer_url);
  Ret (mkOidcConfig a (mkClient client_id) (ClientSecretPost client_secret)).

(** [`https://${AUTH0_DOMAIN}/`] *)
Definition issuer_of (e : Env) : string := "https://" ++ AUTH0_DOMAIN e ++ "/".

(** [`auth0_req_${transactionState}`] *)
Definition cookieName_of (transactionState : string) : string :=
  "auth0_req_" ++ transactionState.

Definition production (e : Env) : bool := negb (String.eqb (NODE_ENV e) "development").

(** The options of the transaction cookie, one hour. *)
Definition transaction_cookie_options (e : Env) : CookieOptions :=
  {| httpOnly := true;
     maxAge := Some (60 * 60 * 1);
     path := Some "/";
     sameSite := Some (if production e then SameSiteNone else SameSiteLax);
     secure := production e |}.

(** [{ maxAge: 0, path: "/" }] *)
Definition clear_cookie_options : CookieOptions :=
  {| httpOnly := false; maxAge := Some 0; path := Some "/";
     sameSite := None; secure := false |}.

Definition renderConsentScreen (clientLogo clientName clientUri consentToken redirectUri : string)
    (requestedScopes : list string) (transactionState : string) : ConsentScreen :=
  {| clientLogo := clientLogo;
     screen_clientName := clientName;
     screen_clientUri := clientUri;
     screen_redirectUri := redirectUri;
     requestedScopes := requestedScopes;
     hidden_transaction_state := transactionState;
     hidden_consent_token := consentToken |}.

Definition authorize (c : Context) : prog Response :=
  mcpClientAuthRequest ← call (ParseAuthRequest (req c));
  match truthy (Some (clientId mcpClientAuthRequest)) with
  | None => c_text "Invalid request" 400
  | Some cid =>
      found ← call (LookupClient cid);
      match found with
      | None => c_text "Invalid client" 400
      | Some client =>
          codeVerifier ← call GenerateRandomCodeVerifier;
          transactionState ← call GenerateRandomState;
          consentToken ← call GenerateRandomState;
          let codeChallenge := calculatePKCECodeChallenge codeVerifier in
          nonce ← call GenerateRandomNonce;
          let auth0AuthRequest :=
            {| codeChallenge := codeChallenge;
               codeVerifier := codeVerifier;
               consentToken := consentToken;
               mcpAuthRequest := mcpClientAuthRequest;
               nonce := nonce;
               transactionState := transactionState |} in
          let cookieName := cookieName_of transactionState in
          _ ← setCookie cookieName (btoa_JSON_stringify auth0AuthRequest)
                (transaction_cookie_options (env c));
          let clientName :=
            js_or_default (ClientInfo.clientName client) (ClientInfo.clientId client) in
          let clientLogo := js_or_default (ClientInfo.logoUri client) "" in
          let clientUri := js_or_default (ClientInfo.clientUri client) "#" in
          let requestedScopes := split_space (AUTH0_SCOPE (env c)) in
          c_html (renderConsentScreen clientLogo clientName clientUri consentToken
                    (redirectUri mcpClientAuthRequest) requestedScopes transactionState)
      end
  end.

(** The redirect back to the downstream client on denial. *)
Definition denial_url (redirectUri : URL) (downstream_state : string) : URL :=
  let u1 := url_set "error" "access_denied" redirectUri in
  let u2 := url_set "error_description" "User denied the request" u1 in
  match truthy (Some downstream_state) with
  | Some s => url_set "state" s u2
  | None => u2
  end.

(** The redirect to the identity provider on approval. *)
Definition authorization_url (endpoint : URL) (c : Context) (b : Auth0AuthRequest)
    (transactionState : string) : URL :=
  let u1 := url_set "client_id" (AUTH0_CLIENT_ID (env c)) endpoint in
  let u2 := url_set "redirect_uri" (URL_resolve_href "/callback" (url (req c))) u1 in
  let u3 := url_set "response_type" "code" u2 in
  let u4 := url_set "audience" (AUTH0_AUDIENCE (env c)) u3 in
  let u5 := url_set "scope" (AUTH0_SCOPE (env c)) u4 in
  let u6 := url_set "code_challenge" (codeChallenge b) u5 in
  let u7 := url_set "code_challenge_method" "S256" u6 in
  let u8 := url_set "nonce" (nonce b) u7 in
  url_set "state" transactionState u8.

Definition confirmConsent (c : Context) : prog Response :=
  match formData (req c) with
  | None => Throw "TypeError: the body is not form data"
  | Some formData =>
      let submittedToken := formData !! "consent_token" in
      let consentAction := formData !! "consent_action" in
      match truthy (formData !! "transaction_state") with
      | None => c_text "Invalid transaction state" 400
      | Some transactionState =>
          let cookieName := cookieName_of transactionState in
          match truthy (getCookie c cookieName) with
          | None => c_text "Invalid or expired transaction" 400
          | Some auth0AuthRequestCookie =>
              match JSON_parse_atob auth0AuthRequestCookie with
              | None => Throw "SyntaxError: the cookie is not an encoded bundle"
              | Some auth0AuthRequest =>
                  if negb (bool_decide (Some (consentToken auth0AuthRequest) = submittedToken))
                  then c_text "Invalid consent token" 403
                  else if negb (bool_decide (consentAction = Some "approve"))
                  then
                    match URL_parse (redirectUri (mcpAuthRequest auth0AuthRequest)) with
                    | None => Throw "TypeError: Invalid URL"
                    | Some redirectUrl =>
                        let target :=
                          denial_url redirectUrl (state (mcpAuthRequest auth0AuthRequest)) in
                        _ ← setCookie cookieName "" clear_cookie_options;
                        c_redirect (URL_href target)
                    end
                  else
                    cfg ← getOidcConfig (issuer_of (env c)) (AUTH0_CLIENT_ID (env c))
                            (AUTH0_CLIENT_SECRET (env c));
                    match authorization_endpoint (as_ cfg) ≫= URL_parse with
                    | None => Throw "TypeError: Invalid URL"
                    | Some endpoint =>
                        c_redirect
                          (URL_href (authorization_url endpoint c auth0AuthRequest
                                       transactionState))
                    end
              end
          end
      end
  end.

Definition callback (c : Context) : prog Response :=
  match truthy (query (req c) !! "state") with
  | None => c_text "Invalid state parameter" 400
  | Some stateParam =>
      let cookieName := cookieName_of stateParam in
      match truthy (getCookie c cookieName) with
      | None => c_text "Invalid transaction state or session expired" 400
      | Some auth0AuthRequestCookie =>
          match JSON_parse_atob auth0AuthRequestCookie with
          | None => Throw "SyntaxError: the cookie is not an encoded bundle"
          | Some auth0AuthRequest =>
              _ ← setCookie cookieName "" clear_cookie_options;
              cfg ← getOidcConfig (issuer_of (env c)) (AUTH0_CLIENT_ID (env c))
                      (AUTH0_CLIENT_SECRET (env c));
              params ← call (ValidateAuthResponse (as_ cfg) (client cfg) (url (req c))
                               (transactionState auth0AuthRequest));
              response ← call (AuthorizationCodeGrantRequest (as_ cfg) (client cfg)
                                 (clientAuth cfg) params
                                 (URL_resolve_href "/callback" (url (req c)))
                                 (codeVerifier auth0AuthRequest));
              result ← call (ProcessAuthorizationCodeResponse (as_ cfg) (client cfg) response
                               (nonce auth0AuthRequest) true);
              match getValidatedIdTokenClaims result with
              | None => c_text "Received invalid id_token from Auth0" 400
              | Some claims =>
                  redirectTo ← call (CompleteAuthorization
                    {| metadata_label := js_or (js_or (name claims) (email claims)) (sub claims);
                       props :=
                         {| claims := claims;
                            tokenSet :=
                              {| accessToken := access_token result;
                                 accessTokenTTL := expires_in result;
                                 idToken := raw_id_token result;
                                 refreshToken := refresh_token result |} |};
                       request := mcpAuthRequest auth0AuthRequest;
                       grant_scope := scope (mcpAuthRequest auth0AuthRequest);
                       userId := sub claims |});
                  Ret (Response_redirect redirectTo)
              end
          end
      end
  end.

(** [env] is the module-level binding of the worker; the result is absent
    when the grant type is neither of the two. *)
Definition tokenExchangeCallback (e : Env) (options : TokenExchangeCallbackOptions)
  : prog (option TokenExchangeCallbackResult) :=
  if String.eqb (grantType options) "authorization_code" then
    Ret (Some {| result_accessTokenTTL := accessTokenTTL (tokenSet (options_props options));
                 newProps := options_props options |})
  else if String.eqb (grantType options) "refresh_token" then
    match truthy (refreshToken (tokenSet (options_props options))) with
    | None => Throw "No Auth0 refresh token found"
    | Some auth0RefreshToken =>
        cfg ← getOidcConfig (issuer_of e) (AUTH0_CLIENT_ID e) (AUTH0_CLIENT_SECRET e);
        response ← call (RefreshTokenGrantRequest (as_ cfg) (client cfg) (clientAuth cfg)
                           auth0RefreshToken);
        refreshTokenResponse ← call (ProcessRefreshTokenResponse (as_ cfg) (client cfg)
                                       response);
        match getValidatedIdTokenClaims refreshTokenResponse with
        | None => Throw "Received invalid id_token from Auth0"
        | Some claims =>
            (* the spread of [options.props] is overridden in both of its fields *)
            Ret (Some
              {| result_accessTokenTTL := expires_in refreshTokenResponse;
                 newProps :=
                   {| claims := claims;
                      tokenSet :=
                        {| accessToken := access_token refreshTokenResponse;
                           accessTokenTTL := expires_in refreshTokenResponse;
                           idToken := raw_id_token refreshTokenResponse;
                           refreshToken :=
                             js_or (refresh_token refreshTokenResponse)
                                   (Some auth0RefreshToken) |} |} |})
        end
    end
  else Ret None.
End Handlers.

(** ** The user agent's side of the transaction cookie *)

(** A user agent applies the [Set-Cookie] headers of a response in order:
    [Max-Age] zero or less evicts the cookie, anything else stores it. *)
Definition jar_apply_one (jar : gmap string string) (h : SetCookieHeader) : gmap string string :=
  match maxAge (cookie_options h) with
  | Some n => if n <=? 0 then delete (cookie_name h) jar
              else <[cookie_name h := cookie_value h]> jar
  | None => <[cookie_name h := cookie_value h]> jar
  end.

Definition jar_apply (jar : gmap string string) (hs : list SetCookieHeader) : gmap string string :=
  fold_left jar_apply_one hs jar.

(** The same request sent with another cookie jar. *)
Definition with_cookies (c : Context) (jar : gmap string string) : Context :=
  {| env := env c;
     req := {| url := url (req c); query := query (req c);
               formData := formData (req c); cookies := jar |} |}.

(** ** What a trace shows *)

(** The token endpoint's answers to the authorization-code grants of a run. *)
Definition code_grant_answer (e : event) : list HttpResponse :=
  match e with
  | Ev a r =>
      match a as a0 return string + answer a0 -> list HttpResponse with
      | AuthorizationCodeGrantRequest _ _ _ _ _ _ =>
          fun r => match r with inr x => [x] | inl _ => [] end
      | _ => fun _ => []
      end r
  end.

Definition code_grant_answers (tr : list event) : list HttpResponse :=
  flat_map code_grant_answer tr.

(** The nonces ID-token validation was asked to expect. *)
Definition expected_nonce (e : event) : list string :=
  match event_action e with
  | ProcessAuthorizationCodeResponse _ _ _ n _ => [n]
  | _ => []
  end.

Definition expected_nonces (tr : list event) : list string := flat_map expected_nonce tr.

(** The processed refresh responses of a run. *)
Definition refresh_answer (e : event) : list TokenEndpointResponse :=
  match e with
  | Ev a r =>
      match a as a0 return string + answer a0 -> list TokenEndpointResponse with
      | ProcessRefreshTokenResponse _ _ _ =>
          fun r => match r with inr x => [x] | inl _ => [] end
      | _ => fun _ => []
      end r
  end.

Definition refresh_answers (tr : list event) : list TokenEndpointResponse :=
  flat_map refresh_answer tr.

Definition no_call (P : action -> bool) (tr : list event) : bool :=
  forallb (fun e => negb (P (event_action e))) tr.

(** The nonce claim of the ID token in a token endpoint answer, if any. *)
Definition id_token_nonce (r : HttpResponse) : option string :=
  match r with
  | TokenResponse b => body_id_token b ≫= (fun t => nonce_claim (payload t))
  | ErrorResponse _ => None
  end.

(** ** What a request submits and carries *)

Section Requests.
Context `{Platform}.

(** The transaction id of a consent submission (a non-empty
    [transaction_state] field). *)
Definition submitted_transaction (c : Context) : option string :=
  formData (req c) ≫= (fun f => truthy (f !! "transaction_state")).

Definition submitted_token (c : Context) : option string :=
  formData (req c) ≫= (fun f => f !! "consent_token").

Definition submitted_action (c : Context) : option string :=
  formData (req c) ≫= (fun f => f !! "consent_action").

(** The transaction id of a callback (a non-empty [state] parameter). *)
Definition callback_transaction (c : Context) : option string :=
  truthy (query (req c) !! "state").

(** The bundle the request carries for transaction id [T]: the decoded
    value of a non-empty cookie [auth0_req_T]. *)
Definition stored_bundle (c : Context) (T : string) : option Auth0AuthRequest :=
  truthy (getCookie c (cookieName_of T)) ≫= JSON_parse_atob.

(** The transaction cookie is there (decodable or not). *)
Definition carries_cookie (c : Context) (T : string) : bool :=
  bool_decide (is_Some (truthy (getCookie c (cookieName_of T)))).

(** The bundle [authorize] persists: the challenge is derived from the
    verifier that is stored next to it. *)
Definition issued_bundle (r : AuthRequest) (verifier nonce T token : string)
  : Auth0AuthRequest :=
  {| mcpAuthRequest := r;
     codeVerifier := verifier;
     codeChallenge := calculatePKCECodeChallenge verifier;
     nonce := nonce;
     transactionState := T;
     consentToken := token |}.

(** The header that evicts the transaction cookie. *)
Definition clearing (T : string) : SetCookieHeader :=
  mkSetCookie (cookieName_of T) "" clear_cookie_options.
End Requests.

(** ** Basic facts *)

Lemma truthy_Some o s : truthy o = Some s <-> o = Some s /\ s <> "".
Proof.
  destruct o as [[|a r]|]; simpl; split; intros Hs; try discriminate.
  - destruct Hs as [Hs Hn]. by inversion Hs; subst.
  - inversion Hs; subst. done.
  - destruct Hs as [Hs _]. done.
  - by destruct Hs.
Qed.

Lemma truthy_None o : truthy o = None <-> o = None \/ o = Some "".
Proof.
  destruct o as [[|a r]|]; simpl; split; intros Hs; try done; auto.
  by destruct Hs.
Qed.

Lemma truthy_intro s : s <> "" -> truthy (Some s) = Some s.
Proof. intros Hs. by apply truthy_Some. Qed.

Lemma key_is_refl k v : key_is k (k, v) = true.
Proof. unfold key_is. simpl. apply String.eqb_refl. Qed.

Lemma sp_get_delete_ne k k' l : k <> k' -> sp_get k' (sp_delete k l) = sp_get k' l.
Proof.
  intros Hne. induction l as [|[a v] l IH]; [done|].
  cbn [sp_delete List.filter sp_get]. unfold key_is; cbn [fst snd].
  destruct (String.eqb_spec a k) as [->|Hak]; cbn [negb].
  - destruct (String.eqb_spec k k') as [?|_]; [done|]. apply IH.
  - cbn [sp_get]. unfold key_is; cbn [fst snd].
    destruct (String.eqb a k'); [done|]. apply IH.
Qed.

Lemma sp_get_set_eq k v l : sp_get k (sp_set k v l) = Some v.
Proof.
  induction l as [|[a x] l IH]; cbn [sp_set sp_get].
  - by rewrite key_is_refl.
  - unfold key_is; cbn [fst snd].
    destruct (String.eqb_spec a k) as [->|Hak]; cbn [sp_get]; unfold key_is; cbn [fst snd].
    + by rewrite String.eqb_refl.
    + destruct (String.eqb_spec a k); [done|]. apply IH.
Qed.

Lemma sp_get_set_ne k k' v l : k <> k' -> sp_get k' (sp_set k v l) = sp_get k' l.
Proof.
  intros Hne. induction l as [|[a x] l IH]; cbn [sp_set sp_get].
  - unfold key_is; cbn [fst snd]. by destruct (String.eqb_spec k k').
  - unfold key_is; cbn [fst snd].
    destruct (String.eqb_spec a k) as [->|Hak]; cbn [sp_get]; unfold key_is; cbn [fst snd].
    + destruct (String.eqb_spec k k') as [?|_]; [done|]. by apply sp_get_delete_ne.
    + destruct (String.eqb a k'); [done|]. apply IH.
Qed.

Lemma url_get_set_eq k v u : url_get k (url_set k v u) = Some v.
Proof. apply sp_get_set_eq. Qed.

Lemma url_get_set_ne k k' v u : k <> k' -> url_get k' (url_set k v u) = url_get k' u.
Proof. apply sp_get_set_ne. Qed.

Lemma url_base_set k v u : url_base (url_set k v u) = url_base u.
Proof. reflexivity. Qed.

(** Evicting a cookie from any jar: the clearing header wins. *)
Lemma jar_apply_clear (jar : gmap string string) (n : string) :
  jar_apply jar [mkSetCookie n "" {| httpOnly := false; maxAge := Some 0; path := Some "/";
                                     sameSite := None; secure := false |}] !! n = None.
Proof. unfold jar_apply, jar_apply_one. simpl. apply lookup_delete_eq. Qed.

(** ** The token exchange callback *)

Section TokenExchange.
Context {W : Type}.
Variable oracle : forall a : action, W -> (string + answer a) * W.

(** C5.  On the [authorization_code] grant the callback returns at once,
    calling nobody, and the lifetime it returns for the downstream access
    token is the lifetime stored in the upstream token set of the property
    bag, which it hands back unchanged. *)
Theorem authorization_code_grant_keeps_upstream_lifetime
    (e : Env) (options : TokenExchangeCallbackOptions) (h : list SetCookieHeader) (w : W) :
  grantType options = "authorization_code" ->
  run oracle (tokenExchangeCallback e options) h w =
    mkOutcome
      (inr (Some {| result_accessTokenTTL :=
                      accessTokenTTL (tokenSet (options_props options));
                    newProps := options_props options |}))
      h w [].
Proof.
  intros Hg. unfold tokenExchangeCallback. rewrite Hg. reflexivity.
Qed.

(** C6.  On the [refresh_token] grant with no upstream refresh token in
    the property bag (absent or empty), the callback throws before any
    call: the trace is empty, so neither discovery nor a refresh grant
    goes to the identity provider. *)
Theorem refresh_without_upstream_token_throws
    (e : Env) (options : TokenExchangeCallbackOptions) (h : list SetCookieHeader) (w : W) :
  grantType options = "refresh_token" ->
  refreshToken (tokenSet (options_props options)) = None \/
  refreshToken (tokenSet (options_props options)) = Some "" ->
  let o := run oracle (tokenExchangeCallback e options) h w in
  result o = inl "No Auth0 refresh token found" /\
  trace o = [] /\
  no_call is_network (trace o) = true /\
  world o = w.
Proof.
  intros Hg Hno. apply truthy_None in Hno.
  unfold tokenExchangeCallback. rewrite Hg, Hno. simpl. done.
Qed.

End TokenExchange.

Ltac open_consent HT Hb :=
  unfold submitted_transaction, submitted_token, submitted_action, stored_bundle in *;
  unfold confirmConsent;
  let form := fresh "form" in
  let ck := fresh "ck" in
  destruct (formData (req _)) as [form|]; [|discriminate];
  cbn [mbind option_bind] in *;
  rewrite HT;
  destruct (truthy (getCookie _ _)) as [ck|]; [|discriminate];
  cbn [mbind option_bind] in Hb;
  rewrite Hb.

(** ** The consent step *)

Section Consent.
Context `{Platform} {W : Type}.
Variable oracle : forall a : action, W -> (string + answer a) * W.

(** C2.  A consent submission whose token is not the one in the bundle
    stored for its transaction id is answered 403 "Invalid consent
    token", whatever its action: nothing is called besides building that
    response, so the identity provider is not contacted, no cookie is
    touched and no redirect is produced. *)
Theorem consent_with_wrong_token_is_forbidden
    (c : Context) (w : W) (T : string) (b : Auth0AuthRequest) :
  submitted_transaction c = Some T ->
  stored_bundle c T = Some b ->
  submitted_token c <> Some (consentToken b) ->
  let o := run oracle (confirmConsent c) [] w in
  result o = inr (mkResponse 403 (TextBody "Invalid consent token") None []) /\
  headers o = [] /\
  world o = w /\
  map event_action (trace o) = [NewResponse 403 (TextBody "Invalid consent token") None].
Proof.
  intros HT Hb Htok. open_consent HT Hb.
  rewrite bool_decide_eq_false_2 by congruence.
  simpl. done.
Qed.

Lemma clearing_evicts (jar : gmap string string) (T : string) :
  jar_apply jar [clearing T] !! cookieName_of T = None.
Proof. apply jar_apply_clear. Qed.

(** A submission with the right token and any action but ["approve"]:
    the cookie is cleared on the context and the response is the context's
    redirect to the denial URL. *)
Lemma confirmConsent_denied
    (c : Context) (w : W) (T : string) (b : Auth0AuthRequest) (u : URL) :
  submitted_transaction c = Some T ->
  stored_bundle c T = Some b ->
  submitted_token c = Some (consentToken b) ->
  submitted_action c <> Some "approve" ->
  URL_parse (redirectUri (mcpAuthRequest b)) = Some u ->
  let target := denial_url u (state (mcpAuthRequest b)) in
  let resp := mkResponse 302 NoBody (Some (URL_href target)) [clearing T] in
  run oracle (confirmConsent c) [] w =
    mkOutcome (inr resp) [clearing T] w
      [Ev (SetCookie (cookieName_of T) "" clear_cookie_options) (inr tt);
       Ev (NewResponse 302 NoBody (Some (URL_href target))) (inr resp)].
Proof.
  intros HT Hb Htok Hact Hu. open_consent HT Hb.
  rewrite bool_decide_eq_true_2 by congruence.
  rewrite bool_decide_eq_false_2 by congruence.
  cbn [negb]. rewrite Hu. reflexivity.
Qed.

(** The same submission when the redirect URI of the bundle is no URL:
    [new URL] throws before the cookie is touched, and nothing is called. *)
Lemma confirmConsent_denied_without_url
    (c : Context) (w : W) (T : string) (b : Auth0AuthRequest) :
  submitted_transaction c = Some T ->
  stored_bundle c T = Some b ->
  submitted_token c = Some (consentToken b) ->
  submitted_action c <> Some "approve" ->
  URL_parse (redirectUri (mcpAuthRequest b)) = None ->
  run oracle (confirmConsent c) [] w = mkOutcome (inl "TypeError: Invalid URL") [] w [].
Proof.
  intros HT Hb Htok Hact Hu. open_consent HT Hb.
  rewrite bool_decide_eq_true_2 by congruence.
  rewrite bool_decide_eq_false_2 by congruence.
  cbn [negb]. rewrite Hu. reflexivity.
Qed.

(** A submission that does not carry the cookie of its transaction is
    answered 400, whatever its token and action. *)
Lemma confirmConsent_without_cookie (c : Context) (w : W) (T : string) :
  submitted_transaction c = Some T ->
  carries_cookie c T = false ->
  result (run oracle (confirmConsent c) [] w) =
    inr (mkResponse 400 (TextBody "Invalid or expired transaction") None []).
Proof.
  unfold submitted_transaction, carries_cookie, confirmConsent. intros HT Hc.
  destruct (formData (req c)) as [form|]; [|discriminate].
  cbn [mbind option_bind] in HT. rewrite HT.
  apply bool_decide_eq_false in Hc.
  destruct (truthy (getCookie c (cookieName_of T))) as [ck|]; [|reflexivity].
  exfalso. apply Hc. by eexists.
Qed.

(** A user agent that has applied the evicting header sends the request
    without the cookie. *)
Lemma evicted_cookie_is_not_carried (c : Context) (T : string) :
  carries_cookie (with_cookies c (jar_apply (cookies (req c)) [clearing T])) T = false.
Proof.
  unfold carries_cookie, getCookie, with_cookies. cbn [req cookies].
  rewrite clearing_evicts. apply bool_decide_eq_false_2.
  cbn. by intros [? ?].
Qed.

(** Approval: discovery, then the context's redirect to the provider. *)
Lemma confirmConsent_approved
    (c : Context) (w w' : W) (T : string) (b : Auth0AuthRequest)
    (a : AuthorizationServer) (ep : URL) :
  submitted_transaction c = Some T ->
  stored_bundle c T = Some b ->
  submitted_token c = Some (consentToken b) ->
  submitted_action c = Some "approve" ->
  oracle (DiscoveryRequest (issuer_of (env c))) w = (inr a, w') ->
  (authorization_endpoint a ≫= URL_parse) = Some ep ->
  let resp := mkResponse 302 NoBody (Some (URL_href (authorization_url ep c b T))) [] in
  run oracle (confirmConsent c) [] w =
    mkOutcome (inr resp) [] w'
      [Ev (DiscoveryRequest (issuer_of (env c))) (inr a);
       Ev (NewResponse 302 NoBody (Some (URL_href (authorization_url ep c b T))))
          (inr resp)].
Proof.
  intros HT Hb Htok Hact Hd Hep. open_consent HT Hb.
  rewrite bool_decide_eq_true_2 by congruence.
  rewrite bool_decide_eq_true_2 by congruence.
  cbn [negb]. cbn. rewrite Hd. cbn. rewrite Hep. reflexivity.
Qed.

(** Approval never touches the cookie, and its first call is discovery. *)
Lemma confirmConsent_approved_starts_discovery
    (c : Context) (w : W) (T : string) (b : Auth0AuthRequest) :
  submitted_transaction c = Some T ->
  stored_bundle c T = Some b ->
  submitted_token c = Some (consentToken b) ->
  submitted_action c = Some "approve" ->
  let o := run oracle (confirmConsent c) [] w in
  headers o = [] /\
  no_call is_setCookie (trace o) = true /\
  hd_error (map event_action (trace o)) = Some (DiscoveryRequest (issuer_of (env c))).
Proof.
  intros HT Hb Htok Hact. open_consent HT Hb.
  rewrite bool_decide_eq_true_2 by congruence.
  rewrite bool_decide_eq_true_2 by congruence.
  cbn [negb]. cbn.
  destruct (oracle (DiscoveryRequest (issuer_of (env c))) w) as [[err|a] w1]; cbn; [done|].
  destruct (authorization_endpoint a ≫= URL_parse); cbn; done.
Qed.

Lemma denial_url_base u st : url_base (denial_url u st) = url_base u.
Proof. unfold denial_url. by destruct (truthy (Some st)). Qed.

Lemma denial_url_error u st : url_get "error" (denial_url u st) = Some "access_denied".
Proof.
  unfold denial_url. destruct (truthy (Some st)).
  - rewrite !url_get_set_ne by done. apply url_get_set_eq.
  - rewrite url_get_set_ne by done. apply url_get_set_eq.
Qed.

Lemma denial_url_state u st :
  st <> "" -> url_get "state" (denial_url u st) = Some st.
Proof.
  intros Hst. unfold denial_url. rewrite (truthy_intro st Hst). apply url_get_set_eq.
Qed.

Lemma denial_url_no_state u :
  url_get "state" (denial_url u "") = url_get "state" u.
Proof. unfold denial_url. simpl. by rewrite !url_get_set_ne. Qed.

Lemma denial_url_other u st k :
  k <> "error" -> k <> "error_description" -> k <> "state" ->
  url_get k (denial_url u st) = url_get k u.
Proof.
  intros H1 H2 H3. unfold denial_url.
  destruct (truthy (Some st)); by rewrite !url_get_set_ne.
Qed.
End Consent.

Section ConsentClaims.
Context `{Platform} {W : Type}.
Variable oracle : forall a : action, W -> (string + answer a) * W.

(** C4, as the code has it.  A consent submission with the right token
    and action ["deny"] never contacts the identity provider and leaves the
    world as it was.  When the redirect URI stored in the bundle parses as
    a URL, the answer is a 302 to that URI (same base, every other
    parameter as it was) with [error=access_denied]; the downstream
    [state], when the client sent one, is set to exactly that value, and
    when it sent none no [state] is written.  The transaction is ended on
    the user agent's side only: the one header on the context and in the
    response evicts the transaction cookie, and the same submission sent by
    a user agent that has applied it carries no bundle and is answered 400.
    When the redirect URI is no URL, [new URL] throws before anything else
    happens: no response, no header, no call. *)
Theorem deny_redirects_downstream_when_the_redirect_uri_parses
    (c : Context) (w : W) (T : string) (b : Auth0AuthRequest) :
  submitted_transaction c = Some T ->
  stored_bundle c T = Some b ->
  submitted_token c = Some (consentToken b) ->
  submitted_action c = Some "deny" ->
  let o := run oracle (confirmConsent c) [] w in
  let downstream_state := state (mcpAuthRequest b) in
  no_call is_network (trace o) = true /\
  world o = w /\
  (forall u : URL,
     URL_parse (redirectUri (mcpAuthRequest b)) = Some u ->
     exists (target : URL) (resp : Response),
       result o = inr resp /\
       status resp = 302 /\
       location resp = Some (URL_href target) /\
       url_base target = url_base u /\
       url_get "error" target = Some "access_denied" /\
       (downstream_state <> "" -> url_get "state" target = Some downstream_state) /\
       (downstream_state = "" -> url_get "state" target = url_get "state" u) /\
       (forall k, k <> "error" -> k <> "error_description" -> k <> "state" ->
                  url_get k target = url_get k u) /\
       headers o = [clearing T] /\
       set_cookie resp = [clearing T] /\
       jar_apply (cookies (req c)) (set_cookie resp) !! cookieName_of T = None /\
       forall w2 : W,
         result (run oracle
                   (confirmConsent
                      (with_cookies c (jar_apply (cookies (req c)) (set_cookie resp))))
                   [] w2) =
           inr (mkResponse 400 (TextBody "Invalid or expired transaction") None [])) /\
  (URL_parse (redirectUri (mcpAuthRequest b)) = None ->
     result o = inl "TypeError: Invalid URL" /\
     headers o = [] /\
     trace o = []).
Proof.
  intros HT Hb Htok Hact o st.
  assert (Hna : submitted_action c <> Some "approve") by (rewrite Hact; discriminate).
  destruct (URL_parse (redirectUri (mcpAuthRequest b))) as [u0|] eqn:Hu.
  - pose proof (confirmConsent_denied oracle c w T b u0 HT Hb Htok Hna Hu) as Hrun.
    cbv zeta in Hrun. subst o. rewrite Hrun. cbn [result trace world headers].
    split; [reflexivity|]. split; [reflexivity|]. split; [|discriminate].
    intros u Heq. inversion Heq; subst u0.
    eexists _, _. split; [reflexivity|]. cbn [status location set_cookie].
    repeat split.
    + apply denial_url_base.
    + apply denial_url_error.
    + apply denial_url_state.
    + intros Hst. subst st. rewrite Hst. apply denial_url_no_state.
    + intros k. apply denial_url_other.
    + apply clearing_evicts.
    + intros w2. apply confirmConsent_without_cookie with (T := T); [exact HT|].
      apply evicted_cookie_is_not_carried.
  - pose proof (confirmConsent_denied_without_url oracle c w T b HT Hb Htok Hna Hu) as Hrun.
    subst o. rewrite Hrun. cbn [result trace world headers].
    split; [reflexivity|]. split; [reflexivity|]. split; [discriminate|]. done.
Qed.

(** C10, as the code has it.  With a live transaction and the right
    token, the action decides.  Anything but exactly ["approve"] (["deny"],
    any other string, no field at all) takes the denial path, which never
    contacts the identity provider and leaves the world as it was: when
    the redirect URI stored in the bundle parses as a URL, the answer is
    the [access_denied] redirect to the downstream client together with
    the one header that evicts the transaction cookie, so that the same
    submission sent by a user agent that has applied it is answered 400;
    when the redirect URI is no URL, [new URL] throws before anything is
    set or called.  Exactly ["approve"] leaves the cookie alone, starts
    with discovery and, when discovery succeeds, redirects to the
    provider's authorization endpoint. *)
Theorem only_approve_leads_upstream
    (c : Context) (w : W) (T : string) (b : Auth0AuthRequest) :
  submitted_transaction c = Some T ->
  stored_bundle c T = Some b ->
  submitted_token c = Some (consentToken b) ->
  let o := run oracle (confirmConsent c) [] w in
  (submitted_action c <> Some "approve" ->
   no_call is_network (trace o) = true /\
   world o = w /\
   (forall u : URL, URL_parse (redirectUri (mcpAuthRequest b)) = Some u ->
      exists target : URL,
        result o = inr (mkResponse 302 NoBody (Some (URL_href target)) [clearing T]) /\
        url_base target = url_base u /\
        url_get "error" target = Some "access_denied" /\
        headers o = [clearing T] /\
        jar_apply (cookies (req c)) [clearing T] !! cookieName_of T = None /\
        forall w2 : W,
          result (run oracle
                    (confirmConsent
                       (with_cookies c (jar_apply (cookies (req c)) [clearing T])))
                    [] w2) =
            inr (mkResponse 400 (TextBody "Invalid or expired transaction") None [])) /\
   (URL_parse (redirectUri (mcpAuthRequest b)) = None ->
      result o = inl "TypeError: Invalid URL" /\
      headers o = [] /\
      trace o = [])) /\
  (submitted_action c = Some "approve" ->
     headers o = [] /\
     no_call is_setCookie (trace o) = true /\
     hd_error (map event_action (trace o)) = Some (DiscoveryRequest (issuer_of (env c))) /\
     forall (a : AuthorizationServer) (w' : W) (ep : URL),
       oracle (DiscoveryRequest (issuer_of (env c))) w = (inr a, w') ->
       (authorization_endpoint a ≫= URL_parse) = Some ep ->
       result o =
         inr (mkResponse 302 NoBody (Some (URL_href (authorization_url ep c b T))) [])).
Proof.
  intros HT Hb Htok o. split.
  - intros Hna.
    destruct (URL_parse (redirectUri (mcpAuthRequest b))) as [u0|] eqn:Hu.
    + pose proof (confirmConsent_denied oracle c w T b u0 HT Hb Htok Hna Hu) as Hrun.
      cbv zeta in Hrun. subst o. rewrite Hrun. cbn [result trace world headers].
      split; [reflexivity|]. split; [reflexivity|]. split; [|discriminate].
      intros u Heq. inversion Heq; subst u0.
      eexists. split; [reflexivity|]. repeat split.
      * apply denial_url_base.
      * apply denial_url_error.
      * apply clearing_evicts.
      * intros w2. apply confirmConsent_without_cookie with (T := T); [exact HT|].
        apply evicted_cookie_is_not_carried.
    + pose proof (confirmConsent_denied_without_url oracle c w T b HT Hb Htok Hna Hu)
        as Hrun.
      subst o. rewrite Hrun. cbn [result trace world headers].
      split; [reflexivity|]. split; [reflexivity|]. split; [discriminate|]. done.
  - intros Hact.
    destruct (confirmConsent_approved_starts_discovery oracle c w T b HT Hb Htok Hact)
      as (Hh & Hs & Hd).
    repeat split; try assumption.
    intros a w' ep Ha Hep.
    pose proof (confirmConsent_approved oracle c w w' T b a ep HT Hb Htok Hact Ha Hep)
      as Hrun.
    cbv zeta in Hrun. subst o. by rewrite Hrun.
Qed.
End ConsentClaims.

(** ** The authorize step *)

Section Authorize.
Context `{Platform} {W : Type}.
Variable oracle : forall a : action, W -> (string + answer a) * W.

(** C9.  When the parsed authorization request has no client id, or its
    client id is unknown to the provider, [authorize] answers 400 in plain
    text ("Invalid request", "Invalid client") and creates no session: no
    [Set-Cookie] is on the context or in the response, [setCookie] is
    never called, and no random value (transaction id, consent token,
    verifier, nonce) is even drawn. *)
Theorem authorize_without_known_client_creates_no_session
    (c : Context) (w w1 : W) (r : AuthRequest) :
  oracle (ParseAuthRequest (req c)) w = (inr r, w1) ->
  clientId r = "" \/
  (exists w2, oracle (LookupClient (clientId r)) w1 = (inr None, w2)) ->
  let o := run oracle (authorize c) [] w in
  exists msg : string,
    result o = inr (mkResponse 400 (TextBody msg) None []) /\
    (msg = "Invalid request" \/ msg = "Invalid client") /\
    headers o = [] /\
    no_call is_setCookie (trace o) = true /\
    no_call is_random (trace o) = true.
Proof.
  intros Hp Hbad. unfold authorize. cbn -[truthy]. rewrite Hp. cbn -[truthy].
  destruct (truthy (Some (clientId r))) as [cid|] eqn:Hcid.
  - apply truthy_Some in Hcid as [Hcid Hne]. inversion Hcid; subst cid.
    destruct Hbad as [Hempty|[w2 Hl]]; [congruence|].
    cbn -[truthy]. rewrite Hl. cbn -[truthy]. exists "Invalid client". auto 10.
  - cbn -[truthy]. exists "Invalid request". auto 10.
Qed.

(** Every consent page [authorize] serves comes with exactly one cookie:
    the encoded bundle of that transaction, under the name derived from
    the transaction id shown on the page. *)
Lemma authorize_page_bundle
    (c : Context) (w : W) (page : Response) (scr : ConsentScreen) :
  result (run oracle (authorize c) [] w) = inr page ->
  body page = HtmlBody scr ->
  exists (r : AuthRequest) (verifier nonce : string),
    set_cookie page =
      [mkSetCookie (cookieName_of (hidden_transaction_state scr))
         (btoa_JSON_stringify
            (issued_bundle r verifier nonce (hidden_transaction_state scr)
               (hidden_consent_token scr)))
         (transaction_cookie_options (env c))].
Proof.
  unfold authorize. cbn -[truthy].
  destruct (oracle (ParseAuthRequest (req c)) w) as [[err|r] w1]; cbn -[truthy]; [discriminate|].
  destruct (truthy (Some (clientId r))) as [cid|]; cbn -[truthy].
  2: { intros Hr Hb. inversion Hr; subst page. discriminate. }
  destruct (oracle (LookupClient cid) w1) as [[err|[cl|]] w2]; cbn -[truthy]; [discriminate| |].
  2: { intros Hr Hb. inversion Hr; subst page. discriminate. }
  destruct (oracle GenerateRandomCodeVerifier w2) as [[err|v] w3]; cbn -[truthy]; [discriminate|].
  destruct (oracle GenerateRandomState w3) as [[err|T] w4]; cbn -[truthy]; [discriminate|].
  destruct (oracle GenerateRandomState w4) as [[err|tok] w5]; cbn -[truthy]; [discriminate|].
  destruct (oracle GenerateRandomNonce w5) as [[err|n] w6]; cbn -[truthy]; [discriminate|].
  intros Hr Hb. inversion Hr; subst page. cbn in Hb. inversion Hb; subst scr.
  exists r, v, n. reflexivity.
Qed.
End Authorize.

(** ** From the consent page to the identity provider *)

Section UpstreamRedirect.
Context `{Platform} {W : Type}.
Variable oracle : forall a : action, W -> (string + answer a) * W.

Lemma authorization_url_parameters
    (ep : URL) (c : Context) (b : Auth0AuthRequest) (T : string) :
  let target := authorization_url ep c b T in
  url_base target = url_base ep /\
  url_get "client_id" target = Some (AUTH0_CLIENT_ID (env c)) /\
  url_get "redirect_uri" target = Some (URL_resolve_href "/callback" (url (req c))) /\
  url_get "response_type" target = Some "code" /\
  url_get "audience" target = Some (AUTH0_AUDIENCE (env c)) /\
  url_get "scope" target = Some (AUTH0_SCOPE (env c)) /\
  url_get "code_challenge" target = Some (codeChallenge b) /\
  url_get "code_challenge_method" target = Some "S256" /\
  url_get "nonce" target = Some (nonce b) /\
  url_get "state" target = Some T.
Proof.
  unfold authorization_url. cbv zeta.
  repeat split; rewrite ?url_get_set_ne by done; try apply url_get_set_eq.
Qed.

(** The user agent that stored the cookie of a consent page sends the
    bundle of that page back. *)
Lemma returned_cookie_is_the_issued_bundle
    (c0 c : Context) (w0 : W) (page : Response) (scr : ConsentScreen)
    (jar : gmap string string) :
  result (run oracle (authorize c0) [] w0) = inr page ->
  body page = HtmlBody scr ->
  cookies (req c) = jar_apply jar (set_cookie page) ->
  exists (r : AuthRequest) (verifier nonce : string),
    stored_bundle c (hidden_transaction_state scr) =
      Some (issued_bundle r verifier nonce (hidden_transaction_state scr)
              (hidden_consent_token scr)).
Proof.
  intros Hrun Hbody Hjar.
  destruct (authorize_page_bundle oracle c0 w0 page scr Hrun Hbody) as (r & v & n & Hset).
  exists r, v, n. unfold stored_bundle, getCookie. rewrite Hjar, Hset.
  unfold jar_apply, jar_apply_one. cbn [fold_left cookie_options maxAge
    transaction_cookie_options cookie_name cookie_value].
  change (60 * 60 * 1 <=? 0) with false. cbv iota.
  rewrite lookup_insert_eq.
  rewrite truthy_intro by apply btoa_nonempty.
  cbn [mbind option_bind]. apply JSON_roundtrip.
Qed.

(** C8.  Take any consent page [authorize] served and a submission that
    returns its cookie and its two hidden fields with action ["approve"].
    When discovery succeeds, the response is the 302 to the provider's
    authorization endpoint whose query carries [response_type=code], the
    broker's own [/callback] as [redirect_uri], the configured audience
    and scope, [code_challenge] equal to the S256 challenge of the code
    verifier stored in the bundle, [code_challenge_method=S256], the
    stored nonce, and [state] equal to the transaction id. *)
Theorem approved_consent_builds_authorization_url
    (c0 c : Context) (w0 w w' : W) (page : Response) (scr : ConsentScreen)
    (jar : gmap string string) (a : AuthorizationServer) (ep : URL) :
  result (run oracle (authorize c0) [] w0) = inr page ->
  body page = HtmlBody scr ->
  cookies (req c) = jar_apply jar (set_cookie page) ->
  submitted_transaction c = Some (hidden_transaction_state scr) ->
  submitted_token c = Some (hidden_consent_token scr) ->
  submitted_action c = Some "approve" ->
  oracle (DiscoveryRequest (issuer_of (env c))) w = (inr a, w') ->
  (authorization_endpoint a ≫= URL_parse) = Some ep ->
  exists (b : Auth0AuthRequest) (target : URL),
    stored_bundle c (hidden_transaction_state scr) = Some b /\
    transactionState b = hidden_transaction_state scr /\
    result (run oracle (confirmConsent c) [] w) =
      inr (mkResponse 302 NoBody (Some (URL_href target)) []) /\
    url_base target = url_base ep /\
    url_get "response_type" target = Some "code" /\
    url_get "redirect_uri" target = Some (URL_resolve_href "/callback" (url (req c))) /\
    url_get "audience" target = Some (AUTH0_AUDIENCE (env c)) /\
    url_get "scope" target = Some (AUTH0_SCOPE (env c)) /\
    url_get "code_challenge" target = Some (calculatePKCECodeChallenge (codeVerifier b)) /\
    url_get "code_challenge_method" target = Some "S256" /\
    url_get "nonce" target = Some (nonce b) /\
    url_get "state" target = Some (transactionState b).
Proof.
  intros Hrun Hbody Hjar HT Htok Hact Hd Hep.
  destruct (returned_cookie_is_the_issued_bundle c0 c w0 page scr jar Hrun Hbody Hjar)
    as (r & v & n & Hb).
  set (T := hidden_transaction_state scr) in *.
  set (b := issued_bundle r v n T (hidden_consent_token scr)) in *.
  exists b, (authorization_url ep c b T).
  split; [exact Hb|]. split; [reflexivity|].
  split.
  { pose proof (confirmConsent_approved oracle c w w' T b a ep HT Hb Htok Hact Hd Hep)
      as Hr.
    cbv zeta in Hr. by rewrite Hr. }
  destruct (authorization_url_parameters ep c b T)
    as (Hbase & _ & Hru & Hrt & Haud & Hsc & Hcc & Hm & Hn & Hs).
  repeat split; assumption.
Qed.
End UpstreamRedirect.

(** ** The callback step *)

Ltac open_callback HT Hb :=
  unfold callback_transaction, stored_bundle in *;
  unfold callback;
  let ck := fresh "ck" in
  rewrite HT;
  destruct (truthy (getCookie _ _)) as [ck|]; [|discriminate];
  cbn [mbind option_bind] in Hb;
  rewrite Hb.

Ltac ask oracle :=
  match goal with
  | |- context [oracle ?a ?w] =>
      let err := fresh "err" in
      let x := fresh "x" in
      let w' := fresh "w" in
      destruct (oracle a w) as [[err|x] w']
  end.

Section Callback.
Context `{Platform} {W : Type}.
Variable oracle : forall a : action, W -> (string + answer a) * W.

(** Without a [state] parameter the answer is 400 and nothing is called. *)
Lemma callback_without_state (c : Context) (w : W) :
  callback_transaction c = None ->
  run oracle (callback c) [] w =
    let resp := mkResponse 400 (TextBody "Invalid state parameter") None [] in
    mkOutcome (inr resp) [] w
      [Ev (NewResponse 400 (TextBody "Invalid state parameter") None) (inr resp)].
Proof.
  unfold callback_transaction, callback. intros ->. reflexivity.
Qed.

(** Without the cookie of that transaction the answer is 400 and nothing
    is called. *)
Lemma callback_without_cookie (c : Context) (w : W) (T : string) :
  callback_transaction c = Some T ->
  carries_cookie c T = false ->
  run oracle (callback c) [] w =
    let resp :=
      mkResponse 400 (TextBody "Invalid transaction state or session expired") None [] in
    mkOutcome (inr resp) [] w
      [Ev (NewResponse 400 (TextBody "Invalid transaction state or session expired") None)
          (inr resp)].
Proof.
  unfold callback_transaction, carries_cookie, callback. intros -> Hc.
  apply bool_decide_eq_false in Hc.
  destruct (truthy (getCookie c (cookieName_of T))) as [ck|]; [|reflexivity].
  exfalso. apply Hc. by eexists.
Qed.

(** With the cookie, the first thing [callback] does is to set the header
    that evicts it, and it sets no other. *)
Lemma callback_clears_first (c : Context) (w : W) (T : string) (b : Auth0AuthRequest) :
  callback_transaction c = Some T ->
  stored_bundle c T = Some b ->
  let o := run oracle (callback c) [] w in
  headers o = [clearing T] /\
  hd_error (map event_action (trace o)) =
    Some (SetCookie (cookieName_of T) "" clear_cookie_options).
Proof.
  intros HT Hb. open_callback HT Hb.
  cbn -[truthy processAuthorizationCodeResponse].
  ask oracle; cbn -[truthy processAuthorizationCodeResponse]; [done|].
  ask oracle; cbn -[truthy processAuthorizationCodeResponse]; [done|].
  ask oracle; cbn -[truthy processAuthorizationCodeResponse]; [done|].
  destruct (processAuthorizationCodeResponse _ _ _) as [err|res];
    cbn -[truthy processAuthorizationCodeResponse]; [done|].
  destruct (getValidatedIdTokenClaims res);
    cbn -[truthy processAuthorizationCodeResponse]; [|done].
  ask oracle; cbn -[truthy processAuthorizationCodeResponse]; done.
Qed.

Lemma nonce_mismatch_is_rejected (r : HttpResponse) (n : string) :
  id_token_nonce r <> Some n ->
  exists e, processAuthorizationCodeResponse r n true = inl e.
Proof.
  intros Hn. destruct r as [body|e]; cbn; [|by eexists].
  destruct (body_id_token body) as [t|] eqn:Ht; [|by eexists].
  destruct (negb _); [by eexists|].
  rewrite bool_decide_eq_false_2; [by eexists|].
  intros Heq. apply Hn. cbn. rewrite Ht. exact Heq.
Qed.
End Callback.

Section CallbackClaims.
Context `{Platform} {W : Type}.
Variable oracle : forall a : action, W -> (string + answer a) * W.

(** C1, as the code has it.  The transaction lives in the cookie the
    request carries, and nowhere else.  A callback whose [state] is
    missing or empty, or that carries no non-empty cookie
    [auth0_req_<state>], is answered 400 in plain text and calls nobody.
    A callback that carries a decodable cookie is processed in whatever
    state the world is, earlier callbacks included: its first call sets
    the header that evicts the cookie, and that is the only header it
    sets; the same request sent by a user agent that has applied that
    header carries no cookie and is answered 400. *)
Theorem callback_needs_the_transaction_cookie (c : Context) (w : W) :
  let o := run oracle (callback c) [] w in
  ((callback_transaction c = None \/
    exists T, callback_transaction c = Some T /\ carries_cookie c T = false) ->
   exists msg : string,
     result o = inr (mkResponse 400 (TextBody msg) None []) /\
     headers o = [] /\
     world o = w /\
     map event_action (trace o) = [NewResponse 400 (TextBody msg) None]) /\
  (forall (T : string) (b : Auth0AuthRequest),
     callback_transaction c = Some T ->
     stored_bundle c T = Some b ->
     hd_error (map event_action (trace o)) =
       Some (SetCookie (cookieName_of T) "" clear_cookie_options) /\
     headers o = [clearing T] /\
     forall w2 : W,
       result (run oracle
                 (callback (with_cookies c (jar_apply (cookies (req c)) (headers o))))
                 [] w2) =
         inr (mkResponse 400 (TextBody "Invalid transaction state or session expired")
                None [])).
Proof.
  intros o. split.
  - intros [Hno|(T & HT & Hc)]; subst o.
    + rewrite (callback_without_state oracle c w Hno). cbn. eexists. done.
    + rewrite (callback_without_cookie oracle c w T HT Hc). cbn. eexists. done.
  - intros T b HT Hb.
    destruct (callback_clears_first oracle c w T b HT Hb) as [Hh Hfirst].
    fold o in Hh, Hfirst. repeat split; try assumption.
    intros w2. rewrite Hh.
    rewrite (callback_without_cookie oracle _ w2 T); [reflexivity|exact HT|].
    unfold carries_cookie, getCookie, with_cookies. cbn [req cookies].
    rewrite clearing_evicts. apply bool_decide_eq_false_2.
    cbn. by intros [? ?].
Qed.

(** C3.  In a callback that carries the bundle of its transaction, ID-token
    validation is only ever asked to expect the nonce stored in that
    bundle.  Whenever the token endpoint's answer carries an ID token with
    another nonce (or none), whatever its signature, issuer and audience,
    the callback throws and [completeAuthorization] is never called. *)
Theorem callback_rejects_id_token_with_another_nonce
    (c : Context) (w : W) (T : string) (b : Auth0AuthRequest) :
  callback_transaction c = Some T ->
  stored_bundle c T = Some b ->
  let o := run oracle (callback c) [] w in
  forall resp : HttpResponse,
    In resp (code_grant_answers (trace o)) ->
    expected_nonces (trace o) = [nonce b] /\
    (id_token_nonce resp <> Some (nonce b) ->
     (exists e, result o = inl e) /\
     no_call is_completeAuthorization (trace o) = true).
Proof.
  intros HT Hb. open_callback HT Hb.
  cbn -[truthy processAuthorizationCodeResponse].
  ask oracle; cbn -[truthy processAuthorizationCodeResponse]; [by intros ? []|].
  ask oracle; cbn -[truthy processAuthorizationCodeResponse]; [by intros ? []|].
  ask oracle; cbn -[truthy processAuthorizationCodeResponse]; [by intros ? []|].
  match goal with
  | |- context [processAuthorizationCodeResponse ?r ?n true] =>
      pose proof (nonce_mismatch_is_rejected r n) as Hrej;
      destruct (processAuthorizationCodeResponse r n true) as [err|res] eqn:Hp
  end; cbn -[truthy processAuthorizationCodeResponse].
  - intros resp [Heq|Hf]; [subst resp|done].
    split; [reflexivity|]. intros _. split; [by eexists|done].
  - destruct (getValidatedIdTokenClaims res);
      cbn -[truthy processAuthorizationCodeResponse];
      [ask oracle; cbn -[truthy processAuthorizationCodeResponse]|];
      (intros resp [Heq|Hf]; [subst resp|done]);
      (split; [reflexivity|]);
      intros Hn; destruct (Hrej Hn) as [e He]; congruence.
Qed.
End CallbackClaims.

(** * Beyond the stated claims: the rest of [auth.ts] *)

(** ** More of what a trace shows *)

(** How many pairs of a query carry the name [k]. *)
Definition sp_count (k : string) (l : list (string * string)) : nat :=
  List.length (List.filter (key_is k) l).

Definition url_count (k : string) (u : URL) : nat := sp_count k (searchParams u).







(** The discovery documents a run received. *)
Definition discovery_answer (e : event) : list AuthorizationServer :=
  match e with
  | Ev a r =>
      match a as a0 return string + answer a0 -> list AuthorizationServer with
      | DiscoveryRequest _ => fun r => match r with inr x => [x] | inl _ => [] end
      | _ => fun _ => []
      end r
  end.

Definition discovery_answers (tr : list event) : list AuthorizationServer :=
  flat_map discovery_answer tr.

(** The token endpoint's answers to the refresh grants of a run. *)
Definition refresh_grant_answer (e : event) : list HttpResponse :=
  match e with
  | Ev a r =>
      match a as a0 return string + answer a0 -> list HttpResponse with
      | RefreshTokenGrantRequest _ _ _ _ =>
          fun r => match r with inr x => [x] | inl _ => [] end
      | _ => fun _ => []
      end r
  end.

Definition refresh_grant_answers (tr : list event) : list HttpResponse :=
  flat_map refresh_grant_answer tr.

Section CallAudit.
Context `{Platform}.

(** What each call of a callback run must look like, given the request and
    the bundle it carries.  Calls the callback has no business making are
    ruled out. *)
Definition callback_call_bound (c : Context) (T : string) (b : Auth0AuthRequest)
    (a : action) : Prop :=
  match a with
  | SetCookie n v o => n = cookieName_of T /\ v = "" /\ o = clear_cookie_options
  | NewResponse st _ _ => st = 400
  | DiscoveryRequest i => i = issuer_of (env c)
  | ValidateAuthResponse _ cl u st =>
      cl = mkClient (AUTH0_CLIENT_ID (env c)) /\ u = url (req c) /\ st = transactionState b
  | AuthorizationCodeGrantRequest _ cl ca _ ru v =>
      cl = mkClient (AUTH0_CLIENT_ID (env c)) /\
      ca = ClientSecretPost (AUTH0_CLIENT_SECRET (env c)) /\
      ru = URL_resolve_href "/callback" (url (req c)) /\
      v = codeVerifier b
  | ProcessAuthorizationCodeResponse _ cl _ n q =>
      cl = mkClient (AUTH0_CLIENT_ID (env c)) /\ n = nonce b /\ q = true
  | CompleteAuthorization o =>
      request o = mcpAuthRequest b /\
      grant_scope o = scope (mcpAuthRequest b) /\
      userId o = sub (claims (props o)) /\
      metadata_label o =
        js_or (js_or (name (claims (props o))) (email (claims (props o))))
              (sub (claims (props o)))
  | _ => False
  end.

(** What a call of a refresh run must look like. *)
Definition refresh_call_bound (e : Env) (stored : string) (a : action) : Prop :=
  match a with
  | DiscoveryRequest i => i = issuer_of e
  | RefreshTokenGrantRequest _ cl ca rt =>
      cl = mkClient (AUTH0_CLIENT_ID e) /\
      ca = ClientSecretPost (AUTH0_CLIENT_SECRET e) /\
      rt = stored
  | ProcessRefreshTokenResponse _ cl _ => cl = mkClient (AUTH0_CLIENT_ID e)
  | _ => False
  end.

(** The calls of a refresh run in their order, given what discovery and
    the token endpoint answered: discovery comes first; the grant follows
    only when discovery answered, and goes to the discovered server; the
    processing follows only when the grant was answered, and is given that
    answer. *)
Definition refresh_calls (e : Env) (stored : string)
    (discovered : list AuthorizationServer) (granted : list HttpResponse) : list action :=
  DiscoveryRequest (issuer_of e) ::
  match discovered with
  | [] => []
  | a :: _ =>
      RefreshTokenGrantRequest a (mkClient (AUTH0_CLIENT_ID e))
        (ClientSecretPost (AUTH0_CLIENT_SECRET e)) stored ::
      match granted with
      | [] => []
      | r :: _ => [ProcessRefreshTokenResponse a (mkClient (AUTH0_CLIENT_ID e)) r]
      end
  end.

(** The attributes of the one cookie [authorize] sets. *)
Definition transaction_cookie_attributes (e : Env) (h : SetCookieHeader) : Prop :=
  httpOnly (cookie_options h) = true /\
  maxAge (cookie_options h) = Some 3600 /\
  path (cookie_options h) = Some "/" /\
  (NODE_ENV e = "development" ->
   secure (cookie_options h) = false /\ sameSite (cookie_options h) = Some SameSiteLax) /\
  (NODE_ENV e <> "development" ->
   secure (cookie_options h) = true /\ sameSite (cookie_options h) = Some SameSiteNone).
End CallAudit.

(** ** Query parameters after [set] *)

Lemma key_is_pair k a (v : string) : key_is k (a, v) = String.eqb a k.
Proof. reflexivity. Qed.

Lemma sp_count_delete_eq k l : sp_count k (sp_delete k l) = 0%nat.
Proof.
  unfold sp_count, sp_delete. induction l as [|p l IH]; [done|].
  cbn [List.filter]. destruct (key_is k p) eqn:Hk; cbn [negb]; [exact IH|].
  cbn [List.filter]. by rewrite Hk.
Qed.

Lemma sp_count_delete_ne k k' l : k <> k' -> sp_count k' (sp_delete k l) = sp_count k' l.
Proof.
  intros Hne. unfold sp_count, sp_delete. induction l as [|[a v] l IH]; [done|].
  cbn [List.filter]. rewrite !key_is_pair.
  destruct (String.eqb_spec a k) as [->|Hak]; cbn [negb].
  - destruct (String.eqb_spec k k') as [?|_]; [done|]. exact IH.
  - cbn [List.filter]. rewrite key_is_pair.
    destruct (String.eqb a k'); cbn [List.length]; by rewrite IH.
Qed.

Lemma sp_count_set_eq k v l : sp_count k (sp_set k v l) = 1%nat.
Proof.
  induction l as [|[a x] l IH]; cbn [sp_set].
  - unfold sp_count. cbn [List.filter]. by rewrite key_is_refl.
  - rewrite key_is_pair. destruct (String.eqb_spec a k) as [->|Hak].
    + unfold sp_count. cbn [List.filter]. rewrite key_is_refl. cbn [List.length].
      f_equal. apply sp_count_delete_eq.
    + unfold sp_count in *. cbn [List.filter]. rewrite key_is_pair.
      destruct (String.eqb_spec a k); [done|]. exact IH.
Qed.

Lemma sp_count_set_ne k k' v l : k <> k' -> sp_count k' (sp_set k v l) = sp_count k' l.
Proof.
  intros Hne. induction l as [|[a x] l IH]; cbn [sp_set].
  - unfold sp_count. cbn [List.filter]. rewrite key_is_pair.
    by destruct (String.eqb_spec k k').
  - rewrite key_is_pair. destruct (String.eqb_spec a k) as [->|Hak].
    + unfold sp_count. cbn [List.filter]. rewrite !key_is_pair.
      destruct (String.eqb_spec k k') as [?|_]; [done|].
      by apply sp_count_delete_ne.
    + unfold sp_count in *. cbn [List.filter]. rewrite !key_is_pair.
      destruct (String.eqb a k'); cbn [List.length]; by rewrite IH.
Qed.

Lemma url_count_set_eq k v u : url_count k (url_set k v u) = 1%nat.
Proof. apply sp_count_set_eq. Qed.

Lemma url_count_set_ne k k' v u : k <> k' -> url_count k' (url_set k v u) = url_count k' u.
Proof. apply sp_count_set_ne. Qed.

(** ** The authorize step, when it serves the page *)

Section AuthorizeServes.
Context `{Platform} {W : Type}.
Variable oracle : forall a : action, W -> (string + answer a) * W.

(** X1.  Every consent page [authorize] serves comes with exactly one
    cookie, named after the transaction id hidden in the page, whose value
    encodes a bundle that agrees with the page: same transaction id, same
    consent token, the redirect URI shown is the one of the parsed
    downstream request kept in the bundle, the request has a client id, and
    the stored challenge is the S256 of the stored verifier.  A user agent
    that applies the cookie then carries exactly that bundle. *)
Theorem authorize_page_matches_its_cookie
    (c : Context) (w : W) (page : Response) (scr : ConsentScreen) :
  result (run oracle (authorize c) [] w) = inr page ->
  body page = HtmlBody scr ->
  exists b : Auth0AuthRequest,
    status page = 200 /\
    set_cookie page =
      [mkSetCookie (cookieName_of (transactionState b)) (btoa_JSON_stringify b)
         (transaction_cookie_options (env c))] /\
    hidden_transaction_state scr = transactionState b /\
    hidden_consent_token scr = consentToken b /\
    screen_redirectUri scr = redirectUri (mcpAuthRequest b) /\
    clientId (mcpAuthRequest b) <> "" /\
    codeChallenge b = calculatePKCECodeChallenge (codeVerifier b) /\
    requestedScopes scr = split_space (AUTH0_SCOPE (env c)) /\
    (exists w1, oracle (ParseAuthRequest (req c)) w = (inr (mcpAuthRequest b), w1)) /\
    forall (c' : Context) (jar : gmap string string),
      cookies (req c') = jar_apply jar (set_cookie page) ->
      stored_bundle c' (transactionState b) = Some b.
Proof.
  unfold authorize. cbn -[truthy].
  destruct (oracle (ParseAuthRequest (req c)) w) as [[err|r] w1] eqn:Hp;
    cbn -[truthy]; [discriminate|].
  destruct (truthy (Some (clientId r))) as [cid|] eqn:Hcid; cbn -[truthy].
  2: { intros Hr Hb. inversion Hr; subst page. discriminate. }
  apply truthy_Some in Hcid as [Hcid Hne]. inversion Hcid; subst cid.
  ask oracle; cbn -[truthy]; [discriminate|].
  destruct x as [cl|]; cbn -[truthy].
  2: { intros Hr Hb. inversion Hr; subst page. discriminate. }
  ask oracle; cbn -[truthy]; [discriminate|].
  ask oracle; cbn -[truthy]; [discriminate|].
  ask oracle; cbn -[truthy]; [discriminate|].
  ask oracle; cbn -[truthy]; [discriminate|].
  intros Hr Hb. inversion Hr; subst page. cbn in Hb. inversion Hb; subst scr.
  eexists (mkAuth0AuthRequest r _ _ _ _ _). cbn.
  repeat split; try done.
  - by eexists.
  - intros c' jar Hjar. unfold stored_bundle, getCookie. rewrite Hjar.
    unfold jar_apply, jar_apply_one. cbn [fold_left cookie_options maxAge
      transaction_cookie_options cookie_name cookie_value].
    change (60 * 60 * 1 <=? 0) with false. cbv iota.
    rewrite lookup_insert_eq.
    rewrite truthy_intro by apply btoa_nonempty.
    cbn [mbind option_bind]. apply JSON_roundtrip.
Qed.

(** X2.  Whatever happens in a run of [authorize], it sets a cookie only
    on the path that serves the consent page, and then exactly one, which
    is in the response; every other outcome (400, or an error thrown by the
    provider or a generator) leaves the context without any header. *)
Theorem authorize_sets_a_cookie_only_with_the_page (c : Context) (w : W) :
  let o := run oracle (authorize c) [] w in
  headers o = [] \/
  exists (page : Response) (scr : ConsentScreen) (h : SetCookieHeader),
    result o = inr page /\
    body page = HtmlBody scr /\
    headers o = [h] /\
    set_cookie page = [h].
Proof.
  unfold authorize. cbn -[truthy].
  ask oracle; cbn -[truthy]; [by left|].
  destruct (truthy (Some (clientId x))) as [cid|]; cbn -[truthy]; [|by left].
  ask oracle; cbn -[truthy]; [by left|].
  destruct x0 as [cl|]; cbn -[truthy]; [|by left].
  ask oracle; cbn -[truthy]; [by left|].
  ask oracle; cbn -[truthy]; [by left|].
  ask oracle; cbn -[truthy]; [by left|].
  ask oracle; cbn -[truthy]; [by left|].
  right. eexists _, _, _. repeat split; reflexivity.
Qed.

(** X3.  Every cookie [authorize] sets is HttpOnly, lives one hour and has
    path ["/"]; outside development ([NODE_ENV] other than
    ["development"]) it is Secure with SameSite=None, in development it is
    not Secure and SameSite=Lax. *)
Theorem authorize_cookie_attributes (c : Context) (w : W) :
  Forall (transaction_cookie_attributes (env c)) (headers (run oracle (authorize c) [] w)).
Proof.
  unfold authorize. cbn -[truthy].
  ask oracle; cbn -[truthy]; [by constructor|].
  destruct (truthy (Some (clientId x))) as [cid|]; cbn -[truthy]; [|by constructor].
  ask oracle; cbn -[truthy]; [by constructor|].
  destruct x0 as [cl|]; cbn -[truthy]; [|by constructor].
  ask oracle; cbn -[truthy]; [by constructor|].
  ask oracle; cbn -[truthy]; [by constructor|].
  ask oracle; cbn -[truthy]; [by constructor|].
  ask oracle; cbn -[truthy]; [by constructor|].
  constructor; [|by constructor].
  unfold transaction_cookie_attributes, transaction_cookie_options, production.
  cbn [cookie_options httpOnly maxAge path secure sameSite].
  split; [done|]. split; [done|]. split; [done|].
  split; intros Hdev.
  - by rewrite Hdev.
  - apply String.eqb_neq in Hdev. by rewrite Hdev.
Qed.
End AuthorizeServes.

(** ** The consent step: bad requests, and what its redirects carry *)

Section ConsentEdges.
Context `{Platform} {W : Type}.
Variable oracle : forall a : action, W -> (string + answer a) * W.

(** X4.  A consent form without a (non-empty) [transaction_state], or one
    whose transaction has no (non-empty) cookie in the request, is answered
    400 in plain text: "Invalid transaction state" in the first case,
    "Invalid or expired transaction" in the second.  Nothing else is called
    and no header is set; the token and the action are not even looked at. *)
Theorem consent_without_transaction_is_a_bad_request
    (c : Context) (w : W) (form : gmap string string) :
  formData (req c) = Some form ->
  let o := run oracle (confirmConsent c) [] w in
  (truthy (form !! "transaction_state") = None ->
   o = let resp := mkResponse 400 (TextBody "Invalid transaction state") None [] in
       mkOutcome (inr resp) [] w
         [Ev (NewResponse 400 (TextBody "Invalid transaction state") None) (inr resp)]) /\
  (forall T : string,
     truthy (form !! "transaction_state") = Some T ->
     carries_cookie c T = false ->
     o = let resp := mkResponse 400 (TextBody "Invalid or expired transaction") None [] in
         mkOutcome (inr resp) [] w
           [Ev (NewResponse 400 (TextBody "Invalid or expired transaction") None)
               (inr resp)]).
Proof.
  intros Hf o. subst o. unfold confirmConsent. rewrite Hf. split.
  - intros ->. reflexivity.
  - intros T -> Hc. unfold carries_cookie in Hc. apply bool_decide_eq_false in Hc.
    destruct (truthy (getCookie c (cookieName_of T))) as [ck|]; [|reflexivity].
    exfalso. apply Hc. by eexists.
Qed.


(** X6.  The URL a denial redirects to carries exactly one [error] and one
    [error_description] (and, when the client sent a state, exactly one
    [state]), however many the client's redirect URI already had; the
    number of every other parameter is what it was. *)
Theorem denial_url_has_one_error (u : URL) (downstream_state : string) :
  let target := denial_url u downstream_state in
  url_count "error" target = 1%nat /\
  url_count "error_description" target = 1%nat /\
  (downstream_state <> "" -> url_count "state" target = 1%nat) /\
  forall k : string,
    k <> "error" -> k <> "error_description" -> k <> "state" ->
    url_count k target = url_count k u.
Proof.
  unfold denial_url. cbv zeta. split; [|split; [|split]].
  - destruct (truthy (Some downstream_state));
      rewrite ?url_count_set_ne by done; apply url_count_set_eq.
  - destruct (truthy (Some downstream_state));
      rewrite ?url_count_set_ne by done; apply url_count_set_eq.
  - intros Hst. rewrite (truthy_intro _ Hst). apply url_count_set_eq.
  - intros k H1 H2 H3.
    destruct (truthy (Some downstream_state)); by rewrite !url_count_set_ne.
Qed.

(** X7.  The URL an approval redirects to carries each of the nine
    parameters the broker sets exactly once, with the broker's value (see
    C8), whatever query the discovered authorization endpoint came with;
    parameters the broker does not set are kept as they were. *)
Theorem authorization_url_sets_each_parameter_once
    (ep : URL) (c : Context) (b : Auth0AuthRequest) (T : string) :
  let target := authorization_url ep c b T in
  Forall (fun k => url_count k target = 1%nat)
    ["client_id"; "redirect_uri"; "response_type"; "audience"; "scope";
     "code_challenge"; "code_challenge_method"; "nonce"; "state"] /\
  forall k : string,
    ~ In k ["client_id"; "redirect_uri"; "response_type"; "audience"; "scope";
            "code_challenge"; "code_challenge_method"; "nonce"; "state"] ->
    url_count k target = url_count k ep /\ url_get k target = url_get k ep.
Proof.
  unfold authorization_url. cbv zeta. split.
  - repeat constructor; rewrite ?url_count_set_ne by done; apply url_count_set_eq.
  - intros k Hk. cbn [In] in Hk.
    split.
    + rewrite !url_count_set_ne; [done|..]; intros Heq; apply Hk; subst k; auto 15.
    + rewrite !url_get_set_ne; [done|..]; intros Heq; apply Hk; subst k; auto 15.
Qed.

(** X8.  An approval whose discovery fails throws the provider's error.
    The transaction cookie is not touched, so the user agent still holds
    the transaction and the same form can be submitted again. *)
Theorem approval_with_failed_discovery_keeps_the_transaction
    (c : Context) (w w' : W) (T : string) (b : Auth0AuthRequest) (err : string) :
  submitted_transaction c = Some T ->
  stored_bundle c T = Some b ->
  submitted_token c = Some (consentToken b) ->
  submitted_action c = Some "approve" ->
  oracle (DiscoveryRequest (issuer_of (env c))) w = (inl err, w') ->
  let o := run oracle (confirmConsent c) [] w in
  result o = inl err /\
  headers o = [] /\
  stored_bundle (with_cookies c (jar_apply (cookies (req c)) (headers o))) T = Some b.
Proof.
  intros HT Hb Htok Hact Hd o.
  assert (Hr : result o = inl err /\ headers o = []).
  { subst o. open_consent HT Hb.
    rewrite bool_decide_eq_true_2 by congruence.
    rewrite bool_decide_eq_true_2 by congruence.
    cbn [negb]. cbn. rewrite Hd. cbn. done. }
  destruct Hr as [Hr Hh]. split; [exact Hr|]. split; [exact Hh|].
  rewrite Hh. exact Hb.
Qed.
End ConsentEdges.

(** ** The callback step: what it calls, and what success hands over *)

Section CallbackMore.
Context `{Platform} {W : Type}.
Variable oracle : forall a : action, W -> (string + answer a) * W.

Lemma callback_audit (c : Context) (w : W) (T : string) (b : Auth0AuthRequest) :
  callback_transaction c = Some T ->
  stored_bundle c T = Some b ->
  Forall (callback_call_bound c T b)
    (map event_action (trace (run oracle (callback c) [] w))).
Proof.
  intros HT Hb. open_callback HT Hb.
  cbn -[truthy processAuthorizationCodeResponse].
  ask oracle; cbn -[truthy processAuthorizationCodeResponse];
    [by repeat constructor|].
  ask oracle; cbn -[truthy processAuthorizationCodeResponse];
    [by repeat constructor|].
  ask oracle; cbn -[truthy processAuthorizationCodeResponse];
    [by repeat constructor|].
  destruct (processAuthorizationCodeResponse _ _ _) as [err|res];
    cbn -[truthy processAuthorizationCodeResponse]; [by repeat constructor|].
  destruct (getValidatedIdTokenClaims res);
    cbn -[truthy processAuthorizationCodeResponse]; [|by repeat constructor].
  ask oracle; cbn -[truthy processAuthorizationCodeResponse]; by repeat constructor.
Qed.

(** X9.  Every call of a callback that carries its bundle is tied to the
    request and the bundle: the cookie it clears is the transaction's,
    discovery goes to [https://AUTH0_DOMAIN/], the authorization response
    is validated against the stored transaction id, the code is redeemed
    with the stored code verifier, the configured client id and secret and
    the broker's own [/callback], the ID token is required and checked
    against the stored nonce, and the grant is completed for the stored
    downstream request and scope with the subject of the claims as user
    id and name, else email, else subject as label.  It never parses a new
    authorization request, looks up a client, draws a random value or
    refreshes a token, and the only response it builds from the context is
    a 400. *)
Theorem callback_calls_are_bound_to_the_bundle
    (c : Context) (w : W) (T : string) (b : Auth0AuthRequest) :
  callback_transaction c = Some T ->
  stored_bundle c T = Some b ->
  Forall (callback_call_bound c T b)
    (map event_action (trace (run oracle (callback c) [] w))).
Proof. exact (callback_audit c w T b). Qed.

End CallbackMore.

(** ** Across the steps *)

Section AcrossSteps.
Context `{Platform} {W : Type}.
Variable oracle : forall a : action, W -> (string + answer a) * W.


End AcrossSteps.

(** ** More on the token exchange callback *)

Section TokenExchangeMore.
Context {W : Type}.
Variable oracle : forall a : action, W -> (string + answer a) * W.

(** X12.  Only the [refresh_token] grant makes the callback call anybody.
    For every other grant type the run has no call at all and leaves the
    world as it was, and for a grant type that is neither of the two the
    callback returns nothing ([undefined]) rather than failing. *)
Theorem token_exchange_is_silent_unless_refreshing
    (e : Env) (options : TokenExchangeCallbackOptions) (h : list SetCookieHeader) (w : W) :
  grantType options <> "refresh_token" ->
  let o := run oracle (tokenExchangeCallback e options) h w in
  trace o = [] /\
  world o = w /\
  (exists r, result o = inr r) /\
  (grantType options <> "authorization_code" -> result o = inr None).
Proof.
  intros Hg. unfold tokenExchangeCallback.
  destruct (String.eqb_spec (grantType options) "authorization_code") as [Ha|Ha].
  - cbn. repeat split; [by eexists|done].
  - destruct (String.eqb_spec (grantType options) "refresh_token") as [Hr|Hr]; [done|].
    cbn. repeat split; by eexists.
Qed.

(** X13.  Whatever the grant type, whenever the callback returns a result,
    the lifetime it returns for the downstream access token is the lifetime
    recorded in the token set of the property bag it returns: the two are
    never out of step. *)
Theorem token_exchange_lifetime_matches_the_returned_bag
    (e : Env) (options : TokenExchangeCallbackOptions) (h : list SetCookieHeader) (w : W)
    (res : TokenExchangeCallbackResult) :
  result (run oracle (tokenExchangeCallback e options) h w) = inr (Some res) ->
  result_accessTokenTTL res = accessTokenTTL (tokenSet (newProps res)).
Proof.
  unfold tokenExchangeCallback.
  destruct (String.eqb (grantType options) "authorization_code").
  { cbn. intros Hr. by inversion Hr. }
  destruct (String.eqb (grantType options) "refresh_token"); [|discriminate].
  destruct (truthy (refreshToken (tokenSet (options_props options)))) as [stored|];
    [|discriminate].
  cbn -[truthy].
  ask oracle; cbn -[truthy]; [discriminate|].
  ask oracle; cbn -[truthy]; [discriminate|].
  ask oracle; cbn -[truthy]; [discriminate|].
  destruct (getValidatedIdTokenClaims x1); cbn -[truthy]; [|discriminate].
  intros Hr. by inversion Hr.
Qed.

(** X14.  A successful refresh returns a bag that can be refreshed again:
    its refresh token is never absent or empty, so the next [refresh_token]
    exchange on the returned bag gets past the guard on a missing refresh
    token: its first call is discovery. *)
Theorem refreshed_bag_can_be_refreshed_again
    (e : Env) (options : TokenExchangeCallbackOptions) (h : list SetCookieHeader) (w : W)
    (res : TokenExchangeCallbackResult) :
  grantType options = "refresh_token" ->
  result (run oracle (tokenExchangeCallback e options) h w) = inr (Some res) ->
  (exists rt, refreshToken (tokenSet (newProps res)) = Some rt /\ rt <> "") /\
  forall (h' : list SetCookieHeader) (w' : W),
    let next := run oracle
                  (tokenExchangeCallback e (mkTokenExchangeOptions "refresh_token" (newProps res)))
                  h' w' in
    hd_error (map event_action (trace next)) = Some (DiscoveryRequest (issuer_of e)).
Proof.
  intros Hg. unfold tokenExchangeCallback at 1. rewrite Hg. cbn -[truthy].
  destruct (truthy (refreshToken (tokenSet (options_props options)))) as [stored|] eqn:Hst;
    [|discriminate].
  apply truthy_Some in Hst as [_ Hne].
  cbn -[truthy].
  ask oracle; cbn -[truthy]; [discriminate|].
  ask oracle; cbn -[truthy]; [discriminate|].
  ask oracle; cbn -[truthy]; [discriminate|].
  destruct (getValidatedIdTokenClaims x1) as [cl|]; cbn -[truthy]; [|discriminate].
  intros Hr. inversion Hr; subst res; clear Hr. cbn -[truthy].
  assert (Hrt : exists rt, js_or (refresh_token x1) (Some stored) = Some rt /\ rt <> "").
  { unfold js_or. destruct (truthy (refresh_token x1)) as [issued|] eqn:Hi.
    - apply truthy_Some in Hi as [_ Hi]. by exists issued.
    - by exists stored. }
  split; [exact Hrt|].
  destruct Hrt as (rt & Hrt & Hrtne). intros h' w'.
  unfold tokenExchangeCallback. cbn -[truthy js_or]. rewrite Hrt.
  rewrite (truthy_intro rt Hrtne). cbn -[truthy].
  ask oracle; cbn -[truthy]; done.
Qed.

(** X15.  A refresh run makes at most three calls, in this order:
    discovery at [https://AUTH0_DOMAIN/], the refresh grant, the processing
    of its response; each is made only when the one before it answered.
    The grant is sent to the discovered server with the refresh token
    stored in the bag, under the configured client id, authenticated with
    the configured client secret, and its answer is what is processed; no
    cookie, response, code grant or downstream call is ever part of it. *)
Theorem refresh_calls_are_bound_to_the_stored_token
    (e : Env) (options : TokenExchangeCallbackOptions) (h : list SetCookieHeader) (w : W)
    (stored : string) :
  grantType options = "refresh_token" ->
  refreshToken (tokenSet (options_props options)) = Some stored ->
  stored <> "" ->
  let tr := trace (run oracle (tokenExchangeCallback e options) h w) in
  let calls := map event_action tr in
  calls = refresh_calls e stored (discovery_answers tr) (refresh_grant_answers tr) /\
  Forall (refresh_call_bound e stored) calls /\
  (List.length calls <= 3)%nat /\
  map is_network calls = firstn (List.length calls) [true; true; false].
Proof.
  intros Hg Hst Hne. unfold tokenExchangeCallback. rewrite Hg, Hst.
  rewrite (truthy_intro stored Hne). cbn -[truthy].
  ask oracle; cbn -[truthy];
    [split; [reflexivity|]; repeat split; [by repeat constructor|lia]|].
  ask oracle; cbn -[truthy];
    [split; [reflexivity|]; repeat split; [by repeat constructor|lia]|].
  ask oracle; cbn -[truthy];
    [split; [reflexivity|]; repeat split; [by repeat constructor|lia]|].
  destruct (getValidatedIdTokenClaims x1); cbn -[truthy];
    (split; [reflexivity|]; repeat split; [by repeat constructor|lia]).
Qed.

(** X16.  When the processed refresh response carries no ID token, the
    callback throws "Received invalid id_token from Auth0" and returns no
    bag at all, although the provider has already issued new tokens. *)
Theorem refresh_without_id_token_throws
    (e : Env) (options : TokenExchangeCallbackOptions) (h : list SetCookieHeader) (w : W)
    (r : TokenEndpointResponse) :
  grantType options = "refresh_token" ->
  let o := run oracle (tokenExchangeCallback e options) h w in
  In r (refresh_answers (trace o)) ->
  getValidatedIdTokenClaims r = None ->
  result o = inl "Received invalid id_token from Auth0".
Proof.
  intros Hg. unfold tokenExchangeCallback. rewrite Hg. cbn -[truthy].
  destruct (truthy (refreshToken (tokenSet (options_props options)))) as [stored|];
    cbn -[truthy]; [|by intros []].
  ask oracle; cbn -[truthy]; [by intros []|].
  ask oracle; cbn -[truthy]; [by intros []|].
  ask oracle; cbn -[truthy]; [by intros []|].
  destruct (getValidatedIdTokenClaims x1) eqn:Hcl; cbn -[truthy];
    intros [Heq|[]]; subst r; [congruence|done].
Qed.
End TokenExchangeMore.

(** * The Auth0 configuration helpers *)

(** [interface Auth0Config] of [shared/types.ts]. *)
Module Auth0Config.
Record t := mk {
  domain : string;
  clientId : string;
  clientSecret : string;
  audience : string;
  scope : string
}.
End Auth0Config.

Definition default_scope : string := "openid email profile offline_access read:todos".

Definition getAuth0Config (env : Env) : Auth0Config.t :=
  {| Auth0Config.domain := AUTH0_DOMAIN env;
     Auth0Config.clientId := AUTH0_CLIENT_ID env;
     Auth0Config.clientSecret := AUTH0_CLIENT_SECRET env;
     Auth0Config.audience := AUTH0_AUDIENCE env;
     Auth0Config.scope := js_or_default (Some (AUTH0_SCOPE env)) default_scope |}.

(** [config[key as keyof Auth0Config]] *)
Definition config_field (key : string) (config : Auth0Config.t) : option string :=
  if String.eqb key "domain" then Some (Auth0Config.domain config)
  else if String.eqb key "clientId" then Some (Auth0Config.clientId config)
  else if String.eqb key "clientSecret" then Some (Auth0Config.clientSecret config)
  else if String.eqb key "audience" then Some (Auth0Config.audience config)
  else if String.eqb key "scope" then Some (Auth0Config.scope config)
  else None.

(** [l.join(sep)] *)
Fixpoint js_join (sep : string) (l : list string) : string :=
  match l with
  | [] => ""
  | [x] => x
  | x :: r => x ++ sep ++ js_join sep r
  end.

Definition required_fields : list string := ["domain"; "clientId"; "clientSecret"; "audience"].

Definition missing_fields (config : Auth0Config.t) : list string :=
  List.filter
    (fun key => match truthy (config_field key config) with Some _ => false | None => true end)
    required_fields.

(** The thrown message, or nothing. *)
Definition validateAuth0Config (config : Auth0Config.t) : string + unit :=
  let missing := missing_fields config in
  if (0 <? List.length missing)%nat
  then inl ("Missing required Auth0 configuration: " ++ js_join ", " missing)
  else inr tt.

Definition field_is_empty (s : string) : bool := String.eqb s "".

Lemma validateAuth0Config_passes_iff (config : Auth0Config.t) :
  validateAuth0Config config = inr tt <->
  Auth0Config.domain config <> "" /\ Auth0Config.clientId config <> "" /\
  Auth0Config.clientSecret config <> "" /\ Auth0Config.audience config <> "".
Proof.
  destruct config as [d ci cs au sc].
  unfold validateAuth0Config, missing_fields, required_fields, config_field.
  cbn [List.filter String.eqb Ascii.eqb Bool.eqb Auth0Config.domain Auth0Config.clientId
       Auth0Config.clientSecret Auth0Config.audience Auth0Config.scope].
  destruct d, ci, cs, au; cbn; split; intros Hx; try done;
    destruct Hx as (? & ? & ? & ?); done.
Qed.

Lemma required_field_is_read (config : Auth0Config.t) (key : string) :
  In key required_fields -> exists v, config_field key config = Some v.
Proof.
  intros Hin. cbn in Hin.
  destruct Hin as [<-|[<-|[<-|[<-|[]]]]]; by eexists.
Qed.

Lemma list_filter_sublist {A} (f : A -> bool) (l : list A) : sublist (List.filter f l) l.
Proof.
  induction l as [|x l IH]; cbn [List.filter]; [constructor|].
  destruct (f x); by constructor.
Qed.

(** X17.  [validateAuth0Config] passes exactly when domain, client id,
    client secret and audience are all non-empty; the scope plays no part.
    When it throws, the message lists the empty ones among those four, each
    once, in that fixed order, separated by ", ". *)
Theorem validateAuth0Config_names_what_is_missing (config : Auth0Config.t) :
  let empty := fun key : string => config_field key config = Some "" in
  (validateAuth0Config config = inr tt <->
   Auth0Config.domain config <> "" /\ Auth0Config.clientId config <> "" /\
   Auth0Config.clientSecret config <> "" /\ Auth0Config.audience config <> "") /\
  (forall msg : string,
     validateAuth0Config config = inl msg ->
     msg = "Missing required Auth0 configuration: " ++ js_join ", " (missing_fields config) /\
     missing_fields config <> [] /\
     sublist (missing_fields config) required_fields /\
     (forall key, In key (missing_fields config) <-> In key required_fields /\ empty key)) /\
  (forall scope' : string,
     validateAuth0Config
       (Auth0Config.mk (Auth0Config.domain config) (Auth0Config.clientId config)
          (Auth0Config.clientSecret config) (Auth0Config.audience config) scope') =
     validateAuth0Config config).
Proof.
  cbv zeta. split; [apply validateAuth0Config_passes_iff|]. split.
  - intros msg Hm. unfold validateAuth0Config in Hm.
    destruct (missing_fields config) as [|k ks] eqn:Hmiss; [discriminate|].
    cbn [List.length Nat.ltb Nat.leb] in Hm. inversion Hm; subst msg; clear Hm.
    split; [reflexivity|]. split; [discriminate|]. rewrite <- Hmiss. split.
    + unfold missing_fields. apply list_filter_sublist.
    + intros key. unfold missing_fields. rewrite filter_In. split.
      * intros [Hin Hf]. split; [exact Hin|].
        destruct (required_field_is_read config key Hin) as [v Hv]. rewrite Hv in *.
        destruct v; [reflexivity|discriminate].
      * intros [Hin He]. split; [exact Hin|]. by rewrite He.
  - intros scope'. destruct config. reflexivity.
Qed.

(** X18.  The configuration [getAuth0Config] reads from the environment
    never has an empty scope: a missing or empty [AUTH0_SCOPE] becomes the
    default scope, anything else is kept.  It validates exactly when the
    four variables [AUTH0_DOMAIN], [AUTH0_CLIENT_ID], [AUTH0_CLIENT_SECRET]
    and [AUTH0_AUDIENCE] are non-empty. *)
Theorem getAuth0Config_defaults_the_scope_only (env : Env) :
  Auth0Config.scope (getAuth0Config env) <> "" /\
  (AUTH0_SCOPE env <> "" -> Auth0Config.scope (getAuth0Config env) = AUTH0_SCOPE env) /\
  (AUTH0_SCOPE env = "" -> Auth0Config.scope (getAuth0Config env) = default_scope) /\
  (validateAuth0Config (getAuth0Config env) = inr tt <->
   AUTH0_DOMAIN env <> "" /\ AUTH0_CLIENT_ID env <> "" /\
   AUTH0_CLIENT_SECRET env <> "" /\ AUTH0_AUDIENCE env <> "").
Proof.
  split; [|split; [|split]].
  - unfold getAuth0Config, js_or_default. cbn [Auth0Config.scope].
    destruct (truthy (Some (AUTH0_SCOPE env))) as [s|] eqn:Hs; [|discriminate].
    by apply truthy_Some in Hs as [_ Hs].
  - intros Hs. unfold getAuth0Config, js_or_default. cbn [Auth0Config.scope].
    by rewrite (truthy_intro _ Hs).
  - intros Hs. unfold getAuth0Config, js_or_default. cbn [Auth0Config.scope].
    by rewrite Hs.
  - exact (validateAuth0Config_passes_iff (getAuth0Config env)).
Qed.

(** * The tools of the authenticated MCP agent *)

(** What a tool hands back: [{ content: [{ text, type: "text" }] }]. *)
Record ToolResult := mkToolResult { content_text : string }.

(** A request as [fetch] gets it: the URL and the [Authorization] header. *)
Record ApiRequest := mkApiRequest { api_url : string; authorization : string }.

Section AgentTools.
Context {W R J : Type}.
(** [fetch], and the two ways of reading a body; each can reject, with the
    error as [`${e}`] prints it. *)
Variable fetch : ApiRequest -> W -> (string + R) * W.
Variable response_json : R -> W -> (string + J) * W.
Variable response_text : R -> W -> (string + string) * W.
Variable JSON_stringify : J -> string.
Variable JSON_stringify_claims : JWTPayload -> string.
(** [this.env.API_BASE_URL] *)
Variable API_BASE_URL : string.

(** The outcome of a tool call: what it returned or threw, the requests it
    sent, the world afterwards. *)
Record ToolOutcome := mkToolOutcome {
  tool_result : string + ToolResult;
  requests : list ApiRequest;
  tool_world : W
}.

Definition bearer (props : UserProps) : string :=
  "Bearer " ++ accessToken (tokenSet props).

Definition whoami (props : UserProps) (w : W) : ToolOutcome :=
  mkToolOutcome (inr (mkToolResult (JSON_stringify_claims (claims props)))) [] w.

Definition list_todos (props : UserProps) (w : W) : ToolOutcome :=
  let request := mkApiRequest (API_BASE_URL ++ "/api/todos") (bearer props) in
  match fetch request w with
  | (inl e, w1) =>
      mkToolOutcome (inr (mkToolResult ("The call to the Todos API failed: " ++ e)))
        [request] w1
  | (inr response, w1) =>
      match response_json response w1 with
      | (inl e, w2) =>
          mkToolOutcome (inr (mkToolResult ("The call to the Todos API failed: " ++ e)))
            [request] w2
      | (inr data, w2) =>
          mkToolOutcome (inr (mkToolResult (JSON_stringify data))) [request] w2
      end
  end.

Definition list_billing (props : UserProps) (w : W) : ToolOutcome :=
  let request := mkApiRequest (API_BASE_URL ++ "/api/billing") (bearer props) in
  match fetch request w with
  | (inl e, w1) => mkToolOutcome (inl e) [request] w1
  | (inr response, w1) =>
      match response_text response w1 with
      | (inl e, w2) => mkToolOutcome (inl e) [request] w2
      | (inr body, w2) => mkToolOutcome (inr (mkToolResult body)) [request] w2
      end
  end.

(** X19.  [list-todos] never throws: it sends exactly one request, to
    [API_BASE_URL/api/todos] with the upstream access token of the property
    bag as bearer token, and whether the request or the reading of its JSON
    body fails, the failure comes back as the text "The call to the Todos
    API failed: ..." of an ordinary result. *)
Theorem list_todos_never_throws (props : UserProps) (w : W) :
  let o := list_todos props w in
  requests o =
    [mkApiRequest (API_BASE_URL ++ "/api/todos")
       ("Bearer " ++ accessToken (tokenSet props))] /\
  exists t : string,
    tool_result o = inr (mkToolResult t) /\
    forall (e : string) (w1 : W),
      (fetch (mkApiRequest (API_BASE_URL ++ "/api/todos") (bearer props)) w = (inl e, w1) \/
       exists response w0,
         fetch (mkApiRequest (API_BASE_URL ++ "/api/todos") (bearer props)) w
           = (inr response, w0) /\
         response_json response w0 = (inl e, w1)) ->
      t = "The call to the Todos API failed: " ++ e.
Proof.
  unfold list_todos. cbv zeta. unfold bearer.
  destruct (fetch _ w) as [[e|response] w1] eqn:Hf.
  - split; [reflexivity|]. eexists. split; [reflexivity|].
    intros e' w' [Heq|(r & w0 & Heq & _)]; [|discriminate]. by inversion Heq.
  - destruct (response_json response w1) as [[e|data] w2] eqn:Hj.
    + split; [reflexivity|]. eexists. split; [reflexivity|].
      intros e' w' [Heq|(r & w0 & Heq & Hj')]; [discriminate|].
      inversion Heq; subst r w0. rewrite Hj in Hj'. by inversion Hj'.
    + split; [reflexivity|]. eexists. split; [reflexivity|].
      intros e' w' [Heq|(r & w0 & Heq & Hj')]; [discriminate|].
      inversion Heq; subst r w0. rewrite Hj in Hj'. discriminate.
Qed.

(** X20.  [list-billing] has no such guard: it sends its one request to
    [API_BASE_URL/api/billing] with the same bearer token, and it throws
    exactly when the request or the reading of the body fails, with that
    very error; otherwise it returns the body text as it is, whatever the
    status of the response. *)
Theorem list_billing_throws_what_fetch_throws (props : UserProps) (w : W) :
  let o := list_billing props w in
  let request := mkApiRequest (API_BASE_URL ++ "/api/billing")
                   ("Bearer " ++ accessToken (tokenSet props)) in
  requests o = [request] /\
  (forall e : string,
     tool_result o = inl e <->
     (exists w1, fetch request w = (inl e, w1)) \/
     (exists response w0 w1,
        fetch request w = (inr response, w0) /\
        response_text response w0 = (inl e, w1))) /\
  (forall t : string,
     tool_result o = inr (mkToolResult t) <->
     exists response w0 w1,
       fetch request w = (inr response, w0) /\
       response_text response w0 = (inr t, w1)).
Proof.
  unfold list_billing. cbv zeta. unfold bearer.
  destruct (fetch _ w) as [[e|response] w1] eqn:Hf.
  - split; [reflexivity|]. split.
    + intros e'. cbn. split.
      * intros Heq. inversion Heq; subst. left. by eexists.
      * intros [(w' & Heq)|(r & w0 & w' & Heq & _)]; [|discriminate]. by inversion Heq.
    + intros t. cbn. split; [discriminate|]. intros (r & w0 & w' & Heq & _). discriminate.
  - destruct (response_text response w1) as [[e|body] w2] eqn:Ht.
    + split; [reflexivity|]. split.
      * intros e'. cbn. split.
        -- intros Heq. inversion Heq; subst. right. by eexists _, _, _.
        -- intros [(w' & Heq)|(r & w0 & w' & Heq & Ht')]; [discriminate|].
           inversion Heq; subst r w0. rewrite Ht in Ht'. by inversion Ht'.
      * intros t. cbn. split; [discriminate|]. intros (r & w0 & w' & Heq & Ht').
        inversion Heq; subst r w0. rewrite Ht in Ht'. discriminate.
    + split; [reflexivity|]. split.
      * intros e'. cbn. split; [discriminate|].
        intros [(w' & Heq)|(r & w0 & w' & Heq & Ht')]; [discriminate|].
        inversion Heq; subst r w0. rewrite Ht in Ht'. discriminate.
      * intros t. cbn. split.
        -- intros Heq. inversion Heq; subst. by eexists _, _, _.
        -- intros (r & w0 & w' & Heq & Ht'). inversion Heq; subst r w0.
           rewrite Ht in Ht'. by inversion Ht'.
Qed.
End AgentTools.

(** * The MCP aggregator: servers and the tools tracked under them *)

Module Aggregator.

(** [interface MCPServerConfig] *)
Record MCPServerConfig := mkConfig {
  name : string;
  command : string;
  args : option (list string);
  env : option (list (string * string));
  description : string;
  prefix : string
}.

Inductive Status := starting | ready | error | stopped.

(** What [addTool] keeps for a tool: its description and, for each
    parameter of its input schema, the type and the description. *)
Record ToolInfo := mkToolInfo {
  tool_description : string;
  inputSchema : list (string * (string * string))
}.

(** [interface ConnectedServer]; a process is known by the number of the
    [spawn] that made it. *)
Record ConnectedServer := mkServer {
  server_name : string;
  config : MCPServerConfig;
  process : option nat;
  tools : list (string * ToolInfo);
  status : Status;
  lastError : option string
}.

(** The aggregator: the tool names the MCP server has accepted, in order,
    the [connectedServers] map in insertion order, and the number of
    processes spawned so far. *)
Record State := mkState {
  registered : list string;
  connectedServers : list (string * ConnectedServer);
  spawned : nat
}.

Definition empty : State := mkState [] [] 0.

(** [Map.prototype.set]: an existing key keeps its place. *)
Fixpoint map_set {V} (k : string) (v : V) (m : list (string * V)) : list (string * V) :=
  match m with
  | [] => [(k, v)]
  | e :: r => if String.eqb (fst e) k then (k, v) :: r else e :: map_set k v r
  end.

(** [Map.prototype.get] *)
Fixpoint map_get {V} (k : string) (m : list (string * V)) : option V :=
  match m with
  | [] => None
  | e :: r => if String.eqb (fst e) k then Some (snd e) else map_get k r
  end.

(** [name.split(':')[0]] *)
Fixpoint before_colon (s : string) : string :=
  match s with
  | EmptyString => ""
  | String a r => if Ascii.eqb a ":" then "" else String a (before_colon r)
  end.

(** Change the first entry that [p] picks: what a mutation of the object
    found by [Array.from(values()).find(p)] does to the map. *)
Fixpoint update_first (p : ConnectedServer -> bool) (f : ConnectedServer -> ConnectedServer)
    (m : list (string * ConnectedServer)) : list (string * ConnectedServer) :=
  match m with
  | [] => []
  | e :: r => if p (snd e) then (fst e, f (snd e)) :: r else e :: update_first p f r
  end.

(** Change the entry under a key: a mutation of the object stored there. *)
Fixpoint update_key (k : string) (f : ConnectedServer -> ConnectedServer)
    (m : list (string * ConnectedServer)) : list (string * ConnectedServer) :=
  match m with
  | [] => []
  | e :: r => if String.eqb (fst e) k then (fst e, f (snd e)) :: r else e :: update_key k f r
  end.

Definition track (tool : string) (info : ToolInfo) (s : ConnectedServer) : ConnectedServer :=
  mkServer (server_name s) (config s) (process s) (map_set tool info (tools s))
    (status s) (lastError s).

Definition set_process (p : nat) (s : ConnectedServer) : ConnectedServer :=
  mkServer (server_name s) (config s) (Some p) (tools s) (status s) (lastError s).

Definition set_status (st : Status) (s : ConnectedServer) : ConnectedServer :=
  mkServer (server_name s) (config s) (process s) (tools s) st (lastError s).

Definition set_error (msg : string) (s : ConnectedServer) : ConnectedServer :=
  mkServer (server_name s) (config s) (process s) (tools s) error (Some msg).

(** [totalTools] of the health endpoint and of [whoami]. *)
Definition totalTools (st : State) : nat :=
  fold_right (fun e sum => (sum + List.length (tools (snd e)))%nat) 0%nat (connectedServers st).

Section Servers.
(** [this.server.tool(name, ...)] of the MCP SDK may refuse a name, given
    the names it holds, by throwing; so may [spawn]. *)
Variable tool_refused : list string -> string -> option string.
Variable spawn_throws : MCPServerConfig -> option string.

(** The state afterwards, and the error thrown if any. *)
Definition addTool (tool : string) (info : ToolInfo) (st : State) : State * option string :=
  match tool_refused (registered st) tool with
  | Some msg => (st, Some msg)
  | None =>
      let prefix := before_colon tool in
      (mkState (registered st ++ [tool])%list
         (update_first (fun s => String.eqb (Aggregator.prefix (config s)) prefix)
            (track tool info) (connectedServers st))
         (spawned st),
       None)
  end.

Definition read_file : ToolInfo :=
  mkToolInfo "Read a file from the filesystem"
    [("path", ("string", "Path to the file to read"))].
Definition write_file : ToolInfo :=
  mkToolInfo "Write content to a file"
    [("path", ("string", "Path to the file to write"));
     ("content", ("string", "Content to write to the file"))].
Definition search_repositories : ToolInfo :=
  mkToolInfo "Search GitHub repositories"
    [("query", ("string", "Search query for repositories"))].
Definition web_search : ToolInfo :=
  mkToolInfo "Search the web using Brave Search" [("query", ("string", "Search query"))].

Definition addPlaceholderTools (cfg : MCPServerConfig) (st : State) : State * option string :=
  if String.eqb (name cfg) "filesystem" then
    match addTool (prefix cfg ++ ":read-file") read_file st with
    | (st1, Some msg) => (st1, Some msg)
    | (st1, None) => addTool (prefix cfg ++ ":write-file") write_file st1
    end
  else if String.eqb (name cfg) "github" then
    addTool (prefix cfg ++ ":search-repositories") search_repositories st
  else if String.eqb (name cfg) "brave-search" then
    addTool (prefix cfg ++ ":search") web_search st
  else (st, None).

(** [addServer] up to its return.  The ['error'] and ['exit'] listeners it
    installs on the child process run later and only rewrite [status] and
    [lastError]; they are not part of this function's run. *)
Definition addServer (cfg : MCPServerConfig) (st : State) : State :=
  let connectedServer := mkServer (name cfg) cfg None [] starting None in
  let servers := map_set (name cfg) connectedServer (connectedServers st) in
  match spawn_throws cfg with
  | Some msg =>
      mkState (registered st) (update_key (name cfg) (set_error msg) servers) (spawned st)
  | None =>
      let started :=
        update_key (name cfg) (fun s => set_status ready (set_process (spawned st) s))
          servers in
      match addPlaceholderTools cfg (mkState (registered st) started (S (spawned st))) with
      | (st1, None) => st1
      | (st1, Some msg) =>
          mkState (registered st1)
            (update_key (name cfg) (set_error msg) (connectedServers st1)) (spawned st1)
      end
  end.

(** [config.servers.forEach(addServer)] *)
Definition addServers (cfgs : list MCPServerConfig) (st : State) : State :=
  fold_left (fun s cfg => addServer cfg s) cfgs st.
End Servers.

(** Every tool tracked under a server starts with that server's prefix
    followed by a colon, as far as the part before the first colon goes. *)
Definition tools_under_their_prefix (st : State) : Prop :=
  forall e t, In e (connectedServers st) -> In t (tools (snd e)) ->
              before_colon (fst t) = prefix (config (snd e)).

(** Two entries that differ at most in the tools they track. *)
Definition same_server (s s' : ConnectedServer) : Prop :=
  server_name s' = server_name s /\ config s' = config s /\ process s' = process s /\
  status s' = status s /\ lastError s' = lastError s.

Lemma In_map_set {V} (k : string) (v : V) m e :
  In e (map_set k v m) -> e = (k, v) \/ In e m.
Proof.
  induction m as [|e0 m IH]; cbn [map_set].
  - intros [<-|[]]. by left.
  - destruct (String.eqb (fst e0) k).
    + intros [<-|Hin]; [by left|right; by right].
    + intros [<-|Hin]; [right; by left|]. destruct (IH Hin); [by left|right; by right].
Qed.

Lemma In_update_first p f m e :
  In e (update_first p f m) ->
  In e m \/ exists s, In (fst e, s) m /\ p s = true /\ snd e = f s.
Proof.
  induction m as [|[k0 s0] m IH]; cbn [update_first fst snd]; [by intros []|].
  destruct (p s0) eqn:Hp.
  - intros [<-|Hin]; [|left; by right]. right. exists s0. cbn. auto.
  - intros [<-|Hin]; [left; by left|].
    destruct (IH Hin) as [?|(s & ? & ? & ?)]; [left; by right|].
    right. exists s. auto using in_cons.
Qed.

Lemma In_update_key k f m e :
  In e (update_key k f m) -> In e m \/ exists s, In (fst e, s) m /\ snd e = f s.
Proof.
  induction m as [|[k0 s0] m IH]; cbn [update_key fst snd]; [by intros []|].
  destruct (String.eqb k0 k).
  - intros [<-|Hin]; [|left; by right]. right. exists s0. cbn. auto.
  - intros [<-|Hin]; [left; by left|].
    destruct (IH Hin) as [?|(s & ? & ?)]; [left; by right|].
    right. exists s. auto using in_cons.
Qed.

Lemma map_get_set_eq {V} (k : string) (v : V) m : map_get k (map_set k v m) = Some v.
Proof.
  induction m as [|e0 m IH]; cbn [map_set map_get fst snd].
  - by rewrite String.eqb_refl.
  - destruct (String.eqb (fst e0) k) eqn:Hk; cbn [map_get fst snd].
    + by rewrite String.eqb_refl.
    + by rewrite Hk.
Qed.

Lemma map_get_update_key k f m : map_get k (update_key k f m) = f <$> map_get k m.
Proof.
  induction m as [|e0 m IH]; cbn [update_key map_get]; [done|].
  destruct (String.eqb (fst e0) k) eqn:Hk; cbn [map_get fst snd]; by rewrite Hk.
Qed.

Lemma map_get_update_first k p f m s :
  map_get k m = Some s ->
  exists s', map_get k (update_first p f m) = Some s' /\ (s' = s \/ p s = true /\ s' = f s).
Proof.
  induction m as [|[k0 s0] m IH]; cbn [update_first map_get fst snd]; [discriminate|].
  destruct (String.eqb k0 k) eqn:Hk.
  - intros Hs. inversion Hs; subst s0. destruct (p s) eqn:Hp; cbn [map_get fst snd];
      rewrite Hk; eexists; split; eauto.
  - intros Hs. destruct (p s0); cbn [map_get fst snd]; rewrite Hk; [eauto|].
    by apply IH.
Qed.

Lemma before_colon_cons a r s :
  before_colon (String a r ++ s) =
  if Ascii.eqb a ":" then "" else String a (before_colon (r ++ s)).
Proof. reflexivity. Qed.

Lemma before_colon_app p s : before_colon p <> p -> before_colon (p ++ s) = before_colon p.
Proof.
  induction p as [|a r IH]; [done|].
  rewrite before_colon_cons. cbn [before_colon].
  destruct (Ascii.eqb a ":"); [done|]. intros Hne. f_equal. apply IH. congruence.
Qed.

Lemma before_colon_prefix p s : before_colon p = p -> before_colon (p ++ String ":" s) = p.
Proof.
  induction p as [|a r IH].
  - intros _. reflexivity.
  - rewrite before_colon_cons. cbn [before_colon].
    destruct (Ascii.eqb a ":"); [discriminate|]. intros Heq. f_equal. apply IH. congruence.
Qed.

Lemma length_map_set {V} (k : string) (v : V) m :
  (List.length (map_set k v m) <= S (List.length m))%nat.
Proof.
  induction m as [|e0 m IH]; cbn [map_set List.length]; [lia|].
  destruct (String.eqb (fst e0) k); cbn [List.length]; lia.
Qed.

Definition tool_sum (m : list (string * ConnectedServer)) : nat :=
  fold_right (fun e sum => (sum + List.length (tools (snd e)))%nat) 0%nat m.

Lemma tool_sum_map_set_fresh k s m :
  tools s = [] -> (tool_sum (map_set k s m) <= tool_sum m)%nat.
Proof.
  intros Hs. induction m as [|e0 m IH]; cbn [map_set tool_sum fold_right snd].
  - rewrite Hs. cbn. lia.
  - destruct (String.eqb (fst e0) k); cbn [tool_sum fold_right snd].
    + rewrite Hs. cbn [List.length]. lia.
    + fold (tool_sum (map_set k s m)). fold (tool_sum m). lia.
Qed.

Lemma tool_sum_update_key k f m :
  (forall s, tools (f s) = tools s) -> tool_sum (update_key k f m) = tool_sum m.
Proof.
  intros Hf. induction m as [|e0 m IH]; cbn [update_key tool_sum fold_right]; [done|].
  destruct (String.eqb (fst e0) k); cbn [tool_sum fold_right snd].
  - by rewrite Hf.
  - fold (tool_sum (update_key k f m)). fold (tool_sum m). by rewrite IH.
Qed.

Lemma tool_sum_track p tool info m :
  (tool_sum (update_first p (track tool info) m) <= S (tool_sum m))%nat.
Proof.
  induction m as [|e0 m IH]; cbn [update_first tool_sum fold_right]; [lia|].
  destruct (p (snd e0)); cbn [tool_sum fold_right snd track tools].
  - fold (tool_sum m). pose proof (length_map_set tool info (tools (snd e0))). lia.
  - fold (tool_sum (update_first p (track tool info) m)). fold (tool_sum m). lia.
Qed.

Section Facts.
Variable tool_refused : list string -> string -> option string.
Variable spawn_throws : MCPServerConfig -> option string.

Lemma addTool_keeps_prefixes tool info st :
  tools_under_their_prefix st ->
  tools_under_their_prefix (fst (addTool tool_refused tool info st)).
Proof.
  intros Hinv. unfold addTool. destruct (tool_refused (registered st) tool); [exact Hinv|].
  cbn [fst]. intros e t He Ht. cbn [connectedServers] in He.
  apply In_update_first in He as [He|(s & Hs & Hp & Hsnd)]; [by apply (Hinv e t)|].
  rewrite Hsnd in *. cbn [track tools config] in *.
  apply In_map_set in Ht as [->|Ht].
  - cbn [fst]. apply String.eqb_eq in Hp. by rewrite Hp.
  - exact (Hinv (fst e, s) t Hs Ht).
Qed.

Lemma addPlaceholderTools_keeps_prefixes cfg st :
  tools_under_their_prefix st ->
  tools_under_their_prefix (fst (addPlaceholderTools tool_refused cfg st)).
Proof.
  intros Hinv. unfold addPlaceholderTools.
  destruct (String.eqb (name cfg) "filesystem").
  { pose proof (addTool_keeps_prefixes (prefix cfg ++ ":read-file") read_file st Hinv) as H1.
    destruct (addTool tool_refused (prefix cfg ++ ":read-file") read_file st) as [st1 [msg|]];
      [exact H1|].
    by apply addTool_keeps_prefixes. }
  destruct (String.eqb (name cfg) "github"); [by apply addTool_keeps_prefixes|].
  destruct (String.eqb (name cfg) "brave-search"); [by apply addTool_keeps_prefixes|].
  exact Hinv.
Qed.

Lemma update_key_keeps_prefixes k f reg m n :
  (forall s, tools (f s) = tools s /\ config (f s) = config s) ->
  tools_under_their_prefix (mkState reg m n) ->
  forall reg' n', tools_under_their_prefix (mkState reg' (update_key k f m) n').
Proof.
  intros Hf Hinv reg' n' e t He Ht. cbn [connectedServers] in He.
  apply In_update_key in He as [He|(s & Hs & Hsnd)]; [by apply (Hinv e t)|].
  rewrite Hsnd in *. destruct (Hf s) as [Ht' Hc']. rewrite Ht' in Ht. rewrite Hc'.
  exact (Hinv (fst e, s) t Hs Ht).
Qed.

Lemma addServer_keeps_prefixes cfg st :
  tools_under_their_prefix st ->
  tools_under_their_prefix (addServer tool_refused spawn_throws cfg st).
Proof.
  intros Hinv. unfold addServer. cbv zeta.
  assert (Hset : tools_under_their_prefix
            (mkState (registered st)
               (map_set (name cfg) (mkServer (name cfg) cfg None [] starting None)
                  (connectedServers st)) (spawned st))).
  { intros e t He Ht. cbn [connectedServers] in He.
    apply In_map_set in He as [->|He]; [by destruct Ht|]. by apply (Hinv e t). }
  destruct (spawn_throws cfg) as [msg|].
  { eapply update_key_keeps_prefixes; [|exact Hset]. done. }
  match goal with
  | |- context [addPlaceholderTools _ _ ?s] =>
      assert (Hstart : tools_under_their_prefix s)
        by (eapply update_key_keeps_prefixes; [|exact Hset]; done);
      pose proof (addPlaceholderTools_keeps_prefixes cfg s Hstart) as Hp;
      destruct (addPlaceholderTools tool_refused cfg s) as [st1 [msg|]]
  end; cbn [fst] in Hp; [|exact Hp].
  destruct st1 as [reg1 m1 n1]. eapply update_key_keeps_prefixes; [|exact Hp]. done.
Qed.

(** X21.  However many servers are added, from whatever configuration, and
    whichever registrations or spawns fail on the way: every tool tracked
    under a server has, before its first colon, exactly that server's
    prefix.  Tools are filed by prefix, never by the server that added
    them. *)
Theorem tracked_tools_carry_their_servers_prefix
    (cfgs : list MCPServerConfig) (st : State) :
  tools_under_their_prefix st ->
  tools_under_their_prefix (addServers tool_refused spawn_throws cfgs st).
Proof.
  revert st. induction cfgs as [|cfg cfgs IH]; intros st Hinv; [exact Hinv|].
  cbn [addServers fold_left]. apply IH. by apply addServer_keeps_prefixes.
Qed.
End Facts.

Section MoreFacts.
Variable tool_refused : list string -> string -> option string.
Variable spawn_throws : MCPServerConfig -> option string.

Lemma addTool_leaves_other_prefixes tool info st k s :
  map_get k (connectedServers st) = Some s ->
  prefix (config s) <> before_colon tool ->
  map_get k (connectedServers (fst (addTool tool_refused tool info st))) = Some s.
Proof.
  intros Hs Hne. unfold addTool. destruct (tool_refused (registered st) tool); [exact Hs|].
  cbn [fst connectedServers].
  destruct (map_get_update_first k
              (fun s => String.eqb (prefix (config s)) (before_colon tool))
              (track tool info) _ s Hs) as (s' & Hs' & [->|[Hp _]]); [exact Hs'|].
  by apply String.eqb_eq in Hp.
Qed.

Lemma addTool_same_server tool info st k s :
  map_get k (connectedServers st) = Some s ->
  exists s', map_get k (connectedServers (fst (addTool tool_refused tool info st))) = Some s' /\
             same_server s s'.
Proof.
  intros Hs. unfold addTool. destruct (tool_refused (registered st) tool).
  { exists s. by split. }
  cbn [fst connectedServers].
  destruct (map_get_update_first k
              (fun s => String.eqb (prefix (config s)) (before_colon tool))
              (track tool info) _ s Hs) as (s' & Hs' & [->|[_ ->]]);
    eexists; (split; [exact Hs'|]); done.
Qed.

Lemma addPlaceholderTools_same_server cfg st k s :
  map_get k (connectedServers st) = Some s ->
  exists s', map_get k (connectedServers (fst (addPlaceholderTools tool_refused cfg st)))
             = Some s' /\ same_server s s'.
Proof.
  intros Hs. unfold addPlaceholderTools.
  destruct (String.eqb (name cfg) "filesystem").
  { destruct (addTool_same_server (prefix cfg ++ ":read-file") read_file st k s Hs)
      as (s1 & Hs1 & Hsame1).
    destruct (addTool tool_refused (prefix cfg ++ ":read-file") read_file st)
      as [st1 [msg|]]; cbn [fst] in *; [by eexists|].
    destruct (addTool_same_server (prefix cfg ++ ":write-file") write_file st1 k s1 Hs1)
      as (s2 & Hs2 & Hsame2).
    exists s2. split; [exact Hs2|]. unfold same_server in *. intuition congruence. }
  destruct (String.eqb (name cfg) "github"); [by apply addTool_same_server|].
  destruct (String.eqb (name cfg) "brave-search"); [by apply addTool_same_server|].
  exists s. by split.
Qed.

Lemma addPlaceholderTools_leaves_other_prefixes cfg st k s :
  map_get k (connectedServers st) = Some s ->
  before_colon (prefix cfg) <> prefix cfg ->
  prefix (config s) = prefix cfg ->
  map_get k (connectedServers (fst (addPlaceholderTools tool_refused cfg st))) = Some s.
Proof.
  intros Hs Hcolon Hp.
  assert (Hne : forall suffix, prefix (config s) <> before_colon (prefix cfg ++ suffix)).
  { intros suffix. rewrite before_colon_app by exact Hcolon. congruence. }
  unfold addPlaceholderTools.
  destruct (String.eqb (name cfg) "filesystem").
  { pose proof (addTool_leaves_other_prefixes (prefix cfg ++ ":read-file") read_file st k s
                  Hs (Hne _)) as H1.
    destruct (addTool tool_refused (prefix cfg ++ ":read-file") read_file st)
      as [st1 [msg|]]; cbn [fst] in *; [exact H1|].
    by apply addTool_leaves_other_prefixes. }
  destruct (String.eqb (name cfg) "github"); [by apply addTool_leaves_other_prefixes|].
  destruct (String.eqb (name cfg) "brave-search"); [by apply addTool_leaves_other_prefixes|].
  exact Hs.
Qed.

(** X22.  A server whose prefix contains a colon never gets a tool of its
    own: when [addServer] returns, its entry tracks no tool at all (its tool
    count is 0), whether or not its tools were registered with the MCP
    server. *)
Theorem prefix_with_a_colon_tracks_nothing (cfg : MCPServerConfig) (st : State) :
  before_colon (prefix cfg) <> prefix cfg ->
  exists s : ConnectedServer,
    map_get (name cfg) (connectedServers (addServer tool_refused spawn_throws cfg st))
      = Some s /\
    config s = cfg /\
    tools s = [].
Proof.
  intros Hcolon. unfold addServer. cbv zeta.
  destruct (spawn_throws cfg) as [msg|].
  { cbn [connectedServers]. rewrite map_get_update_key, map_get_set_eq.
    eexists. split; [reflexivity|]. done. }
  match goal with
  | |- context [addPlaceholderTools _ _ ?s] =>
      pose proof (addPlaceholderTools_leaves_other_prefixes cfg s (name cfg)
                    (set_status ready
                       (set_process (spawned st)
                          (mkServer (name cfg) cfg None [] starting None)))) as Hkeep;
      destruct (addPlaceholderTools tool_refused cfg s) as [st1 [msg|]]
  end; cbn [fst connectedServers] in Hkeep;
    rewrite map_get_update_key, map_get_set_eq in Hkeep;
    specialize (Hkeep eq_refl Hcolon eq_refl).
  - cbn [connectedServers]. rewrite map_get_update_key, Hkeep.
    eexists. split; [reflexivity|]. done.
  - eexists. split; [exact Hkeep|]. done.
Qed.

Lemma addTool_count tool info st :
  (totalTools st <= List.length (registered st))%nat ->
  let st' := fst (addTool tool_refused tool info st) in
  (totalTools st' <= List.length (registered st'))%nat.
Proof.
  intros Hle. unfold addTool. destruct (tool_refused (registered st) tool); [exact Hle|].
  cbn [fst]. unfold totalTools in *. cbn [connectedServers registered].
  rewrite length_app. cbn [List.length].
  match goal with
  | |- (fold_right _ _ (update_first ?p ?f ?m) <= _)%nat =>
      pose proof (tool_sum_track p tool info m) as Ht
  end.
  unfold tool_sum in Ht. lia.
Qed.

Lemma addPlaceholderTools_count cfg st :
  (totalTools st <= List.length (registered st))%nat ->
  let st' := fst (addPlaceholderTools tool_refused cfg st) in
  (totalTools st' <= List.length (registered st'))%nat.
Proof.
  intros Hle. unfold addPlaceholderTools.
  destruct (String.eqb (name cfg) "filesystem").
  { pose proof (addTool_count (prefix cfg ++ ":read-file") read_file st Hle) as H1.
    destruct (addTool tool_refused (prefix cfg ++ ":read-file") read_file st)
      as [st1 [msg|]]; cbn [fst] in *; [exact H1|].
    by apply addTool_count. }
  destruct (String.eqb (name cfg) "github"); [by apply addTool_count|].
  destruct (String.eqb (name cfg) "brave-search"); [by apply addTool_count|].
  exact Hle.
Qed.

Lemma addServer_count cfg st :
  (totalTools st <= List.length (registered st))%nat ->
  (totalTools (addServer tool_refused spawn_throws cfg st)
   <= List.length (registered (addServer tool_refused spawn_throws cfg st)))%nat.
Proof.
  intros Hle. unfold addServer. cbv zeta.
  pose proof (tool_sum_map_set_fresh (name cfg) (mkServer (name cfg) cfg None [] starting None)
                (connectedServers st) eq_refl) as Hset.
  destruct (spawn_throws cfg) as [msg|].
  { unfold totalTools in *. cbn [connectedServers registered].
    fold (tool_sum (connectedServers st)) in Hle.
    match goal with
    | |- (fold_right _ _ (update_key ?k ?f ?m) <= _)%nat =>
        pose proof (tool_sum_update_key k f m (fun _ => eq_refl)) as Hk
    end.
    unfold tool_sum in *. lia. }
  match goal with
  | |- context [addPlaceholderTools _ _ ?s] =>
      assert (Hstart : (totalTools s <= List.length (registered s))%nat);
      [|pose proof (addPlaceholderTools_count cfg s Hstart) as Hp;
        destruct (addPlaceholderTools tool_refused cfg s) as [st1 [msg|]]]
  end.
  - unfold totalTools in *. cbn [connectedServers registered].
    fold (tool_sum (connectedServers st)) in Hle.
    match goal with
    | |- (fold_right _ _ (update_key ?k ?f ?m) <= _)%nat =>
        pose proof (tool_sum_update_key k f m (fun _ => eq_refl)) as Hk
    end.
    unfold tool_sum in *. lia.
  - cbn [fst] in Hp. unfold totalTools in *. cbn [connectedServers registered].
    match goal with
    | |- (fold_right _ _ (update_key ?k ?f ?m) <= _)%nat =>
        pose proof (tool_sum_update_key k f m (fun _ => eq_refl)) as Hk
    end.
    unfold tool_sum in *. lia.
  - exact Hp.
Qed.

(** X23.  The [totalTools] figure of the health endpoint never exceeds the
    number of tools the MCP server has accepted, whatever servers are added
    and whatever fails on the way; it can fall short of it (X22). *)
Theorem total_tools_never_exceed_the_registered (cfgs : list MCPServerConfig) :
  let st := addServers tool_refused spawn_throws cfgs empty in
  (totalTools st <= List.length (registered st))%nat.
Proof.
  cbv zeta.
  assert (Hgen : forall st, (totalTools st <= List.length (registered st))%nat ->
            (totalTools (addServers tool_refused spawn_throws cfgs st)
             <= List.length (registered (addServers tool_refused spawn_throws cfgs st)))%nat).
  { induction cfgs as [|cfg cfgs IH]; intros st Hle; [exact Hle|].
    cbn [addServers fold_left]. apply IH. by apply addServer_count. }
  apply Hgen. cbn. lia.
Qed.

(** X24.  When [addServer] returns, the server is in the map under its
    name with its configuration, and it is never left ["starting"].  If
    [spawn] threw, it is in ["error"] with that message, has no process and
    no tool, and nothing was registered.  Otherwise it holds the process
    just spawned and is ["ready"] with no error, or, when a registration was
    refused, in ["error"] with a message. *)
Theorem addServer_ends_ready_or_in_error (cfg : MCPServerConfig) (st : State) :
  let st' := addServer tool_refused spawn_throws cfg st in
  exists s : ConnectedServer,
    map_get (name cfg) (connectedServers st') = Some s /\
    server_name s = name cfg /\
    config s = cfg /\
    status s <> starting /\
    match spawn_throws cfg with
    | Some msg =>
        status s = error /\ lastError s = Some msg /\ process s = None /\
        tools s = [] /\ registered st' = registered st
    | None =>
        process s = Some (spawned st) /\
        ((status s = ready /\ lastError s = None) \/
         (exists msg, status s = error /\ lastError s = Some msg))
    end.
Proof.
  cbv zeta. unfold addServer.
  destruct (spawn_throws cfg) as [msg|].
  { cbn [connectedServers registered]. rewrite map_get_update_key, map_get_set_eq.
    eexists. split; [reflexivity|]. cbn. done. }
  match goal with
  | |- context [addPlaceholderTools _ _ ?s] =>
      pose proof (addPlaceholderTools_same_server cfg s (name cfg)) as Hsame;
      destruct (addPlaceholderTools tool_refused cfg s) as [st1 [msg|]]
  end; cbn [fst connectedServers] in Hsame;
    rewrite map_get_update_key, map_get_set_eq in Hsame;
    destruct (Hsame _ eq_refl) as (s' & Hs' & Hn & Hc & Hp & Hst & Hle); cbn in *.
  - cbn [connectedServers]. rewrite map_get_update_key, Hs'.
    eexists. split; [reflexivity|]. cbn. repeat split; try done. right. by eexists.
  - exists s'. split; [exact Hs'|]. rewrite Hst. repeat split; try done. left. done.
Qed.

(** X25.  Tools go to the oldest server with the prefix, not to the server
    that adds them.  If the first server of the map already has the
    (colon-free) prefix of a new ["github"] server with another name, then,
    spawn and registration succeeding, the new server's search tool is
    tracked under that first server and the new server ends ready with no
    tool. *)
Theorem shared_prefix_files_tools_under_the_first
    (cfg : MCPServerConfig) (st : State) (n0 : string) (s0 : ConnectedServer)
    (rest : list (string * ConnectedServer)) :
  connectedServers st = (n0, s0) :: rest ->
  n0 <> name cfg ->
  prefix (config s0) = prefix cfg ->
  before_colon (prefix cfg) = prefix cfg ->
  name cfg = "github" ->
  spawn_throws cfg = None ->
  tool_refused (registered st) (prefix cfg ++ ":search-repositories") = None ->
  let st' := addServer tool_refused spawn_throws cfg st in
  map_get n0 (connectedServers st') =
    Some (track (prefix cfg ++ ":search-repositories") search_repositories s0) /\
  exists s : ConnectedServer,
    map_get (name cfg) (connectedServers st') = Some s /\
    status s = ready /\
    tools s = [].
Proof.
  intros Hm Hn0 Hp Hcolon Hname Hspawn Hacc. cbv zeta.
  unfold addServer, addPlaceholderTools, addTool. rewrite Hspawn, Hname, Hm.
  cbn [String.eqb Ascii.eqb Bool.eqb map_set update_key fst snd registered connectedServers].
  rewrite <- Hname.
  apply String.eqb_neq in Hn0. rewrite Hn0.
  cbn [update_key fst snd]. rewrite Hn0. rewrite Hacc.
  cbn [update_first snd fst connectedServers].
  change (prefix cfg ++ String ":" "search-repositories")
    with (prefix cfg ++ ":search-repositories").
  rewrite (before_colon_prefix (prefix cfg) "search-repositories" Hcolon).
  rewrite Hp, String.eqb_refl. cbn [map_get fst snd].
  rewrite String.eqb_refl. split; [reflexivity|].
  rewrite Hn0. rewrite map_get_update_key, map_get_set_eq.
  eexists. split; [reflexivity|]. done.
Qed.
End MoreFacts.

End Aggregator.

(** * The SSH tunnel and the client that waits for it *)

Module Tunnel.

(** What [response.json()] gives: a rejection, [null], or another value. *)
Inductive JsonBody := NotJson (e : string) | JsonNull | JsonValue.

(** The health response as [testConnection] reads it. *)
Record HealthResponse := mkHealth {
  ok : bool;
  http_status : Z;
  json : JsonBody
}.

Section Probing.
Context {W : Type}.
(** [fetch(`http://localhost:${localPort}/health`)]: rejected or resolved. *)
Variable fetch_health : Z -> W -> (string + HealthResponse) * W.
Variable localPort : Z.

(** [SSHTunnel.testConnection]: every failure is caught and turned into
    [false], also the [TypeError] of reading [data.status] off [null]. *)
Definition testConnection (w : W) : bool * W :=
  match fetch_health localPort w with
  | (inl _, w1) => (false, w1)
  | (inr response, w1) =>
      if ok response then
        match json response with
        | NotJson _ => (false, w1)
        | JsonNull => (false, w1)
        | JsonValue => (true, w1)
        end
      else (false, w1)
  end.

Record Waited := mkWaited {
  waited : string + unit;      (* thrown, or returned *)
  probes : nat;                (* calls of [testConnection] *)
  after : W
}.

(** [ClaudeMCPClient.waitForTunnel(maxAttempts)], by the iterations left. *)
Fixpoint waitForTunnel (maxAttempts : nat) (w : W) : Waited :=
  match maxAttempts with
  | O => mkWaited (inl "Failed to establish SSH tunnel after maximum attempts") 0 w
  | S n =>
      match testConnection w with
      | (true, w1) => mkWaited (inr tt) 1 w1
      | (false, w1) =>
          let r := waitForTunnel n w1 in
          mkWaited (waited r) (S (probes r)) (after r)
      end
  end.

(** What [n] probes in a row would answer, starting in [w]. *)
Fixpoint probe_results (n : nat) (w : W) : list bool :=
  match n with
  | O => []
  | S m => let '(b, w1) := testConnection w in b :: probe_results m w1
  end.

Fixpoint first_success (l : list bool) : option nat :=
  match l with
  | [] => None
  | true :: _ => Some 0%nat
  | false :: r => S <$> first_success r
  end.

(** X26.  [testConnection] answers [true] exactly when the request to the
    health endpoint resolved with an ok status and its body parsed to a
    JSON value other than [null]; a rejected request, a non-ok status, a
    body that is not JSON and the body [null] all count as a failed
    probe. *)
Theorem testConnection_succeeds_only_on_ok_json (w : W) :
  fst (testConnection w) = true <->
  exists status w1,
    fetch_health localPort w = (inr (mkHealth true status JsonValue), w1).
Proof.
  unfold testConnection.
  destruct (fetch_health localPort w) as [[e|[o st j]] w1]; cbn.
  - split; [discriminate|]. intros (? & ? & ?). discriminate.
  - destruct o, j; cbn; split; try discriminate;
      try (intros (? & ? & Heq); inversion Heq; fail).
    + intros _. by eexists _, _.
    + done.
Qed.

(** X27.  [waitForTunnel(maxAttempts)] probes at most [maxAttempts] times
    and stops at the first probe that succeeds: if the k-th probe (from 0)
    is the first to succeed among the first [maxAttempts], it returns after
    exactly k+1 probes; if none of them succeeds it throws "Failed to
    establish SSH tunnel after maximum attempts" after exactly
    [maxAttempts] probes, so with [maxAttempts] 0 without probing at all. *)
Theorem waitForTunnel_stops_at_the_first_success (maxAttempts : nat) (w : W) :
  let r := waitForTunnel maxAttempts w in
  (probes r <= maxAttempts)%nat /\
  match first_success (probe_results maxAttempts w) with
  | Some k => waited r = inr tt /\ probes r = S k
  | None =>
      waited r = inl "Failed to establish SSH tunnel after maximum attempts" /\
      probes r = maxAttempts
  end.
Proof.
  revert w. induction maxAttempts as [|n IH]; intros w; cbn [waitForTunnel probe_results].
  - cbn. split; [lia|done].
  - destruct (testConnection w) as [[|] w1]; cbn [first_success probes waited].
    + split; [lia|done].
    + destruct (IH w1) as [Hle Hres]. cbv zeta in Hle, Hres.
      split; [lia|].
      destruct (first_success (probe_results n w1)) as [k|]; cbn [fmap option_fmap option_map].
      * destruct Hres as [-> ->]. done.
      * destruct Hres as [-> ->]. done.
Qed.
End Probing.

(** ** Reconnecting *)

(** The child process of the tunnel: [killed] is what [kill()] leaves. *)
Record Child := mkChild { pid : nat; killed : bool }.

Record SSHTunnel := mkTunnel {
  process : option Child;
  reconnectAttempts : nat
}.

Definition maxReconnectAttempts : nat := 10.

(** The handlers of the tunnel as transitions; when the timers fire is left
    to the sequence of events.
    What the tunnel can be told: [start()], [stop()], the ['exit'] event of
    its process with the exit code ([None] for [null]), and the timer that
    [start] sets to reset the count. *)
Inductive Event :=
| Start (child : nat)
| Stop
| Exit (code : option Z)
| ResetTimer.

(** What an ['exit'] leads to. *)
Inductive Reaction := Reconnect | GiveUp | Nothing.

Definition failing (code : option Z) : bool :=
  match code with
  | Some 0 => false
  | _ => true
  end.

Definition on_exit (code : option Z) (t : SSHTunnel) : SSHTunnel * Reaction :=
  if failing code && (reconnectAttempts t <? maxReconnectAttempts)%nat
  then (mkTunnel (process t) (S (reconnectAttempts t)), Reconnect)
  else if (maxReconnectAttempts <=? reconnectAttempts t)%nat
  then (t, GiveUp)
  else (t, Nothing).

Definition on_reset_timer (t : SSHTunnel) : SSHTunnel :=
  match process t with
  | Some child => if negb (killed child) then mkTunnel (process t) 0 else t
  | None => t
  end.

Definition handle (ev : Event) (t : SSHTunnel) : SSHTunnel * Reaction :=
  match ev with
  | Start child => (mkTunnel (Some (mkChild child false)) (reconnectAttempts t), Nothing)
  | Stop => (mkTunnel None (reconnectAttempts t), Nothing)
  | Exit code => on_exit code t
  | ResetTimer => (on_reset_timer t, Nothing)
  end.

(** The tunnel after a sequence of events, and the reactions on the way. *)
Fixpoint handle_all (evs : list Event) (t : SSHTunnel) : SSHTunnel * list Reaction :=
  match evs with
  | [] => (t, [])
  | ev :: rest =>
      let '(t1, r) := handle ev t in
      let '(t2, rs) := handle_all rest t1 in
      (t2, r :: rs)
  end.

Definition fresh : SSHTunnel := mkTunnel None 0.

Definition failing_exit (ev : Event) : bool :=
  match ev with
  | Exit code => failing code
  | _ => false
  end.

Definition failing_exits (evs : list Event) : nat := List.length (List.filter failing_exit evs).

Lemma handle_all_bounds (evs : list Event) (t : SSHTunnel) :
  (reconnectAttempts t <= maxReconnectAttempts)%nat ->
  let '(t', rs) := handle_all evs t in
  (reconnectAttempts t' <= maxReconnectAttempts)%nat /\
  (reconnectAttempts t' <= reconnectAttempts t + failing_exits evs)%nat /\
  (In GiveUp rs -> (maxReconnectAttempts <= reconnectAttempts t + failing_exits evs)%nat) /\
  (List.length (List.filter (fun r => match r with Reconnect => true | _ => false end) rs)
   <= failing_exits evs)%nat.
Proof.
  revert t. induction evs as [|ev evs IH]; intros t Hle; cbn [handle_all].
  - unfold failing_exits. cbn. repeat split; try lia; try (by intros []).
  - assert (Hstep : let '(t1, r) := handle ev t in
              (reconnectAttempts t1 <= maxReconnectAttempts)%nat /\
              (reconnectAttempts t1
               <= reconnectAttempts t + (if failing_exit ev then 1 else 0))%nat /\
              (r = GiveUp -> (maxReconnectAttempts <= reconnectAttempts t)%nat) /\
              (r = Reconnect -> failing_exit ev = true)).
    { destruct ev as [child| |code|]; cbn [handle failing_exit].
      - cbn. repeat split; try lia; try discriminate.
      - cbn. repeat split; try lia; try discriminate.
      - unfold on_exit.
        destruct (failing code) eqn:Hf; cbn [andb];
          destruct (Nat.ltb_spec (reconnectAttempts t) maxReconnectAttempts);
          destruct (Nat.leb_spec maxReconnectAttempts (reconnectAttempts t));
          cbn; repeat split; try lia; try discriminate; try done.
      - unfold on_reset_timer. destruct (process t) as [child|];
          [destruct (negb (killed child))|];
          cbn; repeat split; try lia; try discriminate. }
    destruct (handle ev t) as [t1 r]. destruct Hstep as (H1 & H2 & H3 & H4).
    specialize (IH t1 H1). destruct (handle_all evs t1) as [t2 rs].
    destruct IH as (I1 & I2 & I3 & I4).
    unfold failing_exits in *. cbn [List.filter].
    destruct (failing_exit ev) eqn:Hfe; cbn [List.length].
    + repeat split; try lia.
      * intros [->|Hin]; [specialize (H3 eq_refl); lia|]. specialize (I3 Hin). lia.
      * destruct r; cbn [List.length]; lia.
    + repeat split; try lia.
      * intros [->|Hin]; [specialize (H3 eq_refl); lia|]. specialize (I3 Hin). lia.
      * destruct r; cbn [List.length]; try lia. specialize (H4 eq_refl). discriminate.
Qed.

(** X28.  Whatever sequence of starts, stops, exits and timer resets a
    fresh tunnel goes through, its count of reconnection attempts never
    exceeds 10, it schedules at most one reconnection per failing exit
    (non-zero or [null] code), and it never gives up ([process.exit(1)])
    before at least 10 failing exits have happened. *)
Theorem tunnel_gives_up_only_after_ten_failed_exits (evs : list Event) :
  let '(t, reactions) := handle_all evs fresh in
  (reconnectAttempts t <= 10)%nat /\
  (List.length
     (List.filter (fun r => match r with Reconnect => true | _ => false end) reactions)
   <= failing_exits evs)%nat /\
  (In GiveUp reactions -> (10 <= failing_exits evs)%nat).
Proof.
  pose proof (handle_all_bounds evs fresh) as Hb.
  destruct (handle_all evs fresh) as [t rs].
  destruct Hb as (H1 & _ & H3 & H4); [cbn; unfold maxReconnectAttempts; lia|].
  unfold maxReconnectAttempts in *. cbn [fresh reconnectAttempts] in H3.
  repeat split; try lia. intros Hin. specialize (H3 Hin). lia.
Qed.

End Tunnel.

(** ** A platform and a world to run the handlers on

    A small platform instance (a positional codec for the bundle, a
    query-only URL parser) and a provider that honours an authorization code
    once.  The theorems above hold for every platform and every world; on
    this one they can be evaluated. *)
Module Sample.

(** Fields are written one after the other, each as its length in unary,
    a ["0"], and its characters. *)
Fixpoint tally (n : nat) (rest : string) : string :=
  match n with
  | O => String "0" rest
  | S m => String "1" (tally m rest)
  end.

Fixpoint untally (s : string) : option (nat * string) :=
  match s with
  | EmptyString => None
  | String a r =>
      if Ascii.eqb a "0" then Some (O, r)
      else if Ascii.eqb a "1" then (fun p => (S (fst p), snd p)) <$> untally r
      else None
  end.

Fixpoint take_chars (n : nat) (s : string) : option (string * string) :=
  match n with
  | O => Some ("", s)
  | S m =>
      match s with
      | EmptyString => None
      | String a r => (fun p => (String a (fst p), snd p)) <$> take_chars m r
      end
  end.

Definition put (s rest : string) : string := tally (String.length s) (s ++ rest).

Definition get (s : string) : option (string * string) :=
  p ← untally s; take_chars (fst p) (snd p).

Definition put_opt (o : option string) (rest : string) : string :=
  match o with
  | None => String "0" rest
  | Some s => String "1" (put s rest)
  end.

Definition get_opt (s : string) : option (option string * string) :=
  match s with
  | EmptyString => None
  | String a r =>
      if Ascii.eqb a "0" then Some (None, r)
      else if Ascii.eqb a "1" then (fun p => (Some (fst p), snd p)) <$> get r
      else None
  end.

Definition put_list (l : list string) (rest : string) : string :=
  tally (List.length l) (fold_right put rest l).

Fixpoint get_many (n : nat) (s : string) : option (list string * string) :=
  match n with
  | O => Some ([], s)
  | S m => p ← get s; q ← get_many m (snd p); Some (fst p :: fst q, snd q)
  end.

Definition get_list (s : string) : option (list string * string) :=
  p ← untally s; get_many (fst p) (snd p).

Lemma untally_tally n rest : untally (tally n rest) = Some (n, rest).
Proof. induction n as [|n IH]; simpl; [done|]. by rewrite IH. Qed.

Lemma take_chars_app s rest : take_chars (String.length s) (s ++ rest) = Some (s, rest).
Proof. induction s as [|a s IH]; simpl; [done|]. by rewrite IH. Qed.

Lemma get_put s rest : get (put s rest) = Some (s, rest).
Proof. unfold get, put. rewrite untally_tally. simpl. apply take_chars_app. Qed.

Lemma get_opt_put_opt o rest : get_opt (put_opt o rest) = Some (o, rest).
Proof. destruct o as [s|]; simpl; [|done]. by rewrite get_put. Qed.

Lemma get_many_put l rest : get_many (List.length l) (fold_right put rest l) = Some (l, rest).
Proof.
  induction l as [|s l IH]; simpl; [done|].
  rewrite get_put. simpl. by rewrite IH.
Qed.

Lemma get_list_put_list l rest : get_list (put_list l rest) = Some (l, rest).
Proof. unfold get_list, put_list. rewrite untally_tally. simpl. apply get_many_put. Qed.

Definition stringify (b : Auth0AuthRequest) : string :=
  let r := mcpAuthRequest b in
  String "b"
    (put (responseType r) (put (clientId r) (put (redirectUri r) (put_list (scope r)
    (put (state r) (put_opt (downstreamCodeChallenge r)
    (put_opt (downstreamCodeChallengeMethod r)
    (put (codeVerifier b) (put (codeChallenge b) (put (nonce b)
    (put (transactionState b) (put (consentToken b) "")))))))))))).

Definition parse_fields (s : string) : option Auth0AuthRequest :=
  f1 ← get s; f2 ← get (snd f1); f3 ← get (snd f2); f4 ← get_list (snd f3);
  f5 ← get (snd f4); f6 ← get_opt (snd f5); f7 ← get_opt (snd f6);
  g1 ← get (snd f7); g2 ← get (snd g1); g3 ← get (snd g2); g4 ← get (snd g3);
  g5 ← get (snd g4);
  if String.eqb (snd g5) "" then
    Some (mkAuth0AuthRequest
            (mkAuthRequest (fst f1) (fst f2) (fst f3) (fst f4) (fst f5) (fst f6) (fst f7))
            (fst g1) (fst g2) (fst g3) (fst g4) (fst g5))
  else None.

Definition parse (s : string) : option Auth0AuthRequest :=
  match s with
  | String a r => if Ascii.eqb a "b" then parse_fields r else None
  | EmptyString => None
  end.

Lemma parse_stringify b : parse (stringify b) = Some b.
Proof.
  destruct b as [[? ? ? ? ? ? ?] ? ? ? ? ?].
  unfold parse, stringify, parse_fields. cbn [Ascii.eqb Bool.eqb mcpAuthRequest
    responseType clientId redirectUri scope state downstreamCodeChallenge
    downstreamCodeChallengeMethod codeVerifier codeChallenge nonce transactionState
    consentToken].
  repeat (first [rewrite get_put | rewrite get_list_put_list | rewrite get_opt_put_opt];
          cbn [mbind option_bind fst snd]).
  reflexivity.
Qed.

Lemma stringify_nonempty b : stringify b <> "".
Proof. discriminate. Qed.

(** The part of [s] before the first [sep], and the part after it if any. *)
Fixpoint cut (sep : ascii) (s : string) : string * option string :=
  match s with
  | EmptyString => ("", None)
  | String a r =>
      if Ascii.eqb a sep then ("", Some r)
      else let '(x, y) := cut sep r in (String a x, y)
  end.

Fixpoint pieces (fuel : nat) (sep : ascii) (s : string) : list string :=
  match fuel with
  | O => [s]
  | S n =>
      match cut sep s with
      | (x, None) => [x]
      | (x, Some r) => x :: pieces n sep r
      end
  end.

Definition pair_of (p : string) : string * string :=
  let '(k, v) := cut "=" p in (k, default "" v).

Definition parse_url (s : string) : option URL :=
  match cut ":" s with
  | (_, None) => None
  | _ =>
      match cut "?" s with
      | (b, None) => Some (mkURL b [])
      | (b, Some q) =>
          Some (mkURL b (if String.eqb q "" then []
                         else List.map pair_of (pieces (String.length q) "&" q)))
      end
  end.

Fixpoint join_pairs (l : list (string * string)) : string :=
  match l with
  | [] => ""
  | [(k, v)] => k ++ "=" ++ v
  | (k, v) :: r => k ++ "=" ++ v ++ "&" ++ join_pairs r
  end.

Definition href (u : URL) : string :=
  match searchParams u with
  | [] => url_base u
  | l => url_base u ++ "?" ++ join_pairs l
  end.

(** The origin of [base] (up to the third slash) followed by [path]. *)
Fixpoint origin (slashes : nat) (s : string) : string :=
  match s with
  | EmptyString => ""
  | String a r =>
      if Ascii.eqb a "/" then
        match slashes with
        | O => ""
        | S n => String a (origin n r)
        end
      else String a (origin slashes r)
  end.

Definition resolve_href (path base : string) : string := origin 2 base ++ path.

Definition S256 (verifier : string) : string := "S256:" ++ verifier.

#[export] Instance platform : Platform :=
  {| btoa_JSON_stringify := stringify;
     JSON_parse_atob := parse;
     JSON_roundtrip := parse_stringify;
     btoa_nonempty := stringify_nonempty;
     calculatePKCECodeChallenge := S256;
     URL_parse := parse_url;
     URL_href := href;
     URL_resolve_href := resolve_href |}.

(** The world: whether the provider has already redeemed the code, the
    nonce it puts into the ID tokens it issues, and how many random states
    have been drawn. *)
Record World := mkWorld {
  code_redeemed : bool;
  issued_nonce : string;
  states_drawn : nat
}.

Definition the_claims (w : World) : JWTPayload :=
  {| sub := Some "auth0|alice"; name := Some "Alice"; email := Some "alice@example.com";
     iss := Some "https://tenant.example/"; aud := Some "broker";
     nonce_claim := Some (issued_nonce w) |}.

Definition token_body (w : World) (access refresh : string) : TokenEndpointBody :=
  {| body_access_token := access;
     body_expires_in := Some 86400;
     body_refresh_token := if String.eqb refresh "" then None else Some refresh;
     body_id_token := Some (mkIdToken "eyJ.alice" (the_claims w) true true true) |}.

Definition oracle (a : action) (w : World) : (string + answer a) * World :=
  match a as a0 return (string + answer a0) * World with
  | SetCookie _ _ _ => (inr tt, w)
  | NewResponse st b loc => (inr (mkResponse st b loc []), w)
  | ParseAuthRequest r =>
      (inr {| responseType := "code";
              clientId := default "" (query r !! "client_id");
              redirectUri := default "" (query r !! "redirect_uri");
              scope := split_space (default "" (query r !! "scope"));
              state := default "" (query r !! "state");
              downstreamCodeChallenge := None;
              downstreamCodeChallengeMethod := None |}, w)
  | LookupClient id =>
      (inr (if String.eqb id "c1"
            then Some (ClientInfo.mk "c1" (Some "Client One") None None)
            else None), w)
  | CompleteAuthorization o =>
      (inr (redirectUri (request o) ++ "?code=downstream-code"), w)
  | GenerateRandomCodeVerifier => (inr "verifier-1", w)
  | GenerateRandomState =>
      (inr match states_drawn w with
           | O => "T"
           | 1%nat => "K"
           | _ => "Z"
           end,
       mkWorld (code_redeemed w) (issued_nonce w) (S (states_drawn w)))
  | GenerateRandomNonce => (inr "nonce-1", w)
  | DiscoveryRequest i =>
      (inr (mkAS i (Some (i ++ "authorize")) (Some (i ++ "oauth/token"))), w)
  | ValidateAuthResponse _ _ u expected =>
      match parse_url u with
      | Some p =>
          match url_get "state" p, url_get "code" p with
          | Some s, Some cd =>
              if String.eqb s expected then (inr (mkCallbackParams cd), w)
              else (inl "unexpected state", w)
          | _, _ => (inl "missing parameter", w)
          end
      | None => (inl "invalid url", w)
      end
  | AuthorizationCodeGrantRequest _ _ _ p _ v =>
      if code_redeemed w || negb (String.eqb (code p) "ABC") || negb (String.eqb v "verifier-1")
      then (inr (ErrorResponse "invalid_grant"), w)
      else (inr (TokenResponse (token_body w "at-1" "rt-1")),
            mkWorld true (issued_nonce w) (states_drawn w))
  | ProcessAuthorizationCodeResponse _ _ r n q =>
      (processAuthorizationCodeResponse r n q, w)
  | RefreshTokenGrantRequest _ _ _ rt =>
      if String.eqb rt "rt-1"
      then (inr (TokenResponse (token_body w "at-2" "")), w)
      else if String.eqb rt "rt-rotating"
      then (inr (TokenResponse (token_body w "at-3" "rt-next")), w)
      else (inr (ErrorResponse "invalid_grant"), w)
  | ProcessRefreshTokenResponse _ _ r =>
      match r with
      | TokenResponse b =>
          (inr (mkTokenEndpointResponse (body_access_token b) (body_expires_in b)
                  (body_refresh_token b)
                  ((fun t => (jwt t, payload t)) <$> body_id_token b)), w)
      | ErrorResponse e => (inl e, w)
      end
  end.

Definition w0 : World := mkWorld false "nonce-1" 0.

Definition the_env : Env :=
  {| AUTH0_DOMAIN := "tenant.example";
     AUTH0_CLIENT_ID := "broker";
     AUTH0_CLIENT_SECRET := "secret";
     AUTH0_AUDIENCE := "urn:todos";
     AUTH0_SCOPE := "openid profile";
     NODE_ENV := "production" |}.

(** The downstream authorization request of the end-to-end scenario. *)
Definition authorize_context : Context :=
  {| env := the_env;
     req := {| url := "https://broker.example/authorize";
               query := {[ "client_id" := "c1";
                           "redirect_uri" := "https://client.example/cb";
                           "scope" := "openid profile";
                           "state" := "xyz" ]};
               formData := None;
               cookies := ∅ |} |}.

(** The bundle [authorize] builds for it in [w0]. *)
Definition the_bundle : Auth0AuthRequest :=
  {| mcpAuthRequest :=
       {| responseType := "code"; clientId := "c1";
          redirectUri := "https://client.example/cb";
          scope := ["openid"; "profile"]; state := "xyz";
          downstreamCodeChallenge := None; downstreamCodeChallengeMethod := None |};
     codeVerifier := "verifier-1";
     codeChallenge := S256 "verifier-1";
     nonce := "nonce-1";
     transactionState := "T";
     consentToken := "K" |}.

Definition the_jar : gmap string string := {[ "auth0_req_T" := stringify the_bundle ]}.

Definition consent_context (token action : string) : Context :=
  {| env := the_env;
     req := {| url := "https://broker.example/authorize/consent";
               query := ∅;
               formData := Some {[ "transaction_state" := "T";
                                   "consent_token" := token;
                                   "consent_action" := action ]};
               cookies := the_jar |} |}.

Definition callback_context : Context :=
  {| env := the_env;
     req := {| url := "https://broker.example/callback?state=T&code=ABC";
               query := {[ "state" := "T"; "code" := "ABC" ]};
               formData := None;
               cookies := the_jar |} |}.
End Sample.

(** ** The theorems at work on the sample world *)

Import Sample.

(** The consent page [authorize] serves for the sample request. *)
Definition sample_screen : ConsentScreen :=
  {| clientLogo := "";
     screen_clientName := "Client One";
     screen_clientUri := "#";
     screen_redirectUri := "https://client.example/cb";
     requestedScopes := ["openid"; "profile"];
     hidden_transaction_state := "T";
     hidden_consent_token := "K" |}.

Definition sample_page : Response :=
  {| status := 200;
     body := HtmlBody sample_screen;
     location := None;
     set_cookie :=
       [mkSetCookie "auth0_req_T" (stringify the_bundle)
          (mkCookieOptions true (Some 3600) (Some "/") (Some SameSiteNone) true)] |}.

(** A provider that binds its ID tokens to the nonce of another flow. *)
Definition w_other_nonce : World := mkWorld false "nonce-of-another-flow" 0.

Definition sample_props (refresh : option string) : UserProps :=
  {| claims := the_claims w0;
     tokenSet := {| accessToken := "at-1"; accessTokenTTL := Some 86400;
                    idToken := Some "eyJ.alice"; refreshToken := refresh |} |}.

Example sample_authorize_serves_the_page :
  result (run oracle (authorize authorize_context) [] w0) = inr sample_page.
Proof. vm_compute. reflexivity. Qed.

Example sample_callback_completes :
  result (run oracle (callback callback_context) [] w0) =
    inr (Response_redirect "https://client.example/cb?code=downstream-code").
Proof. vm_compute. reflexivity. Qed.

(** C1, the claim as stated fails.  The sample callback is valid and is
    processed: the downstream grant is completed and the user agent is sent
    to the client.  The identical request, delivered once more to the world
    the first delivery left behind, is not answered 400: the bundle for
    ["T"] resolves again, its code verifier goes to the token endpoint a
    second time, and what ends the run is the provider's [invalid_grant],
    thrown by the ID-token validation. *)
Lemma replayed_callback_resolves_the_bundle_again :
  let o1 := run oracle (callback callback_context) [] w0 in
  let o2 := run oracle (callback callback_context) [] (world o1) in
  result o1 = inr (Response_redirect "https://client.example/cb?code=downstream-code") /\
  callback_transaction callback_context = Some "T" /\
  stored_bundle callback_context "T" = Some the_bundle /\
  result o2 = inl "invalid_grant" /\
  code_grant_answers (trace o2) = [ErrorResponse "invalid_grant"] /\
  ~ (exists msg hs, result o2 = inr (mkResponse 400 (TextBody msg) None hs)).
Proof.
  cbv zeta. repeat split; try (vm_compute; reflexivity).
  intros (msg & hs & Hr). vm_compute in Hr. discriminate.
Qed.

Lemma callback_needs_the_transaction_cookie_witness :
  callback_transaction callback_context = Some "T" /\
  stored_bundle callback_context "T" = Some the_bundle /\
  let o := run oracle (callback callback_context) [] w0 in
  headers o = [clearing "T"] /\
  result (run oracle
            (callback (with_cookies callback_context
                         (jar_apply (cookies (req callback_context)) (headers o))))
            [] (world o)) =
    inr (mkResponse 400 (TextBody "Invalid transaction state or session expired") None []).
Proof.
  assert (HT : callback_transaction callback_context = Some "T") by (vm_compute; reflexivity).
  assert (Hb : stored_bundle callback_context "T" = Some the_bundle)
    by (vm_compute; reflexivity).
  split; [exact HT|]. split; [exact Hb|].
  destruct (callback_needs_the_transaction_cookie oracle callback_context w0) as [_ Hlive].
  destruct (Hlive "T" the_bundle HT Hb) as (_ & Hh & Hnext).
  cbv zeta. split; [exact Hh|]. apply Hnext.
Defined.

Lemma consent_with_wrong_token_is_forbidden_witness :
  submitted_transaction (consent_context "forged" "approve") = Some "T" /\
  stored_bundle (consent_context "forged" "approve") "T" = Some the_bundle /\
  submitted_token (consent_context "forged" "approve") <> Some (consentToken the_bundle) /\
  result (run oracle (confirmConsent (consent_context "forged" "approve")) [] w0) =
    inr (mkResponse 403 (TextBody "Invalid consent token") None []).
Proof.
  assert (HT : submitted_transaction (consent_context "forged" "approve") = Some "T")
    by (vm_compute; reflexivity).
  assert (Hb : stored_bundle (consent_context "forged" "approve") "T" = Some the_bundle)
    by (vm_compute; reflexivity).
  assert (Hk : submitted_token (consent_context "forged" "approve")
               <> Some (consentToken the_bundle))
    by (vm_compute; discriminate).
  split; [exact HT|]. split; [exact Hb|]. split; [exact Hk|].
  exact (proj1 (consent_with_wrong_token_is_forbidden oracle _ w0 "T" the_bundle HT Hb Hk)).
Defined.

Lemma callback_rejects_id_token_with_another_nonce_witness :
  let o := run oracle (callback callback_context) [] w_other_nonce in
  let resp := TokenResponse (token_body w_other_nonce "at-1" "rt-1") in
  In resp (code_grant_answers (trace o)) /\
  id_token_nonce resp <> Some (nonce the_bundle) /\
  (exists e, result o = inl e) /\
  no_call is_completeAuthorization (trace o) = true.
Proof.
  cbv zeta.
  assert (HT : callback_transaction callback_context = Some "T") by (vm_compute; reflexivity).
  assert (Hb : stored_bundle callback_context "T" = Some the_bundle)
    by (vm_compute; reflexivity).
  assert (Hin : In (TokenResponse (token_body w_other_nonce "at-1" "rt-1"))
                  (code_grant_answers
                     (trace (run oracle (callback callback_context) [] w_other_nonce))))
    by (vm_compute; left; reflexivity).
  assert (Hn : id_token_nonce (TokenResponse (token_body w_other_nonce "at-1" "rt-1"))
               <> Some (nonce the_bundle))
    by (vm_compute; discriminate).
  split; [exact Hin|]. split; [exact Hn|].
  exact (proj2 (callback_rejects_id_token_with_another_nonce oracle callback_context
                  w_other_nonce "T" the_bundle HT Hb _ Hin) Hn).
Defined.

(** A downstream authorization request that names no redirect URI, and
    the bundle [authorize] builds for it in [w0]. *)
Definition authorize_context_without_redirect : Context :=
  mkContext the_env
    (mkRequest "https://broker.example/authorize?client_id=c1"
       {[ "client_id" := "c1" ]} None ∅).

Definition bundle_without_redirect : Auth0AuthRequest :=
  {| mcpAuthRequest :=
       {| responseType := "code"; clientId := "c1"; redirectUri := "";
          scope := [""]; state := "";
          downstreamCodeChallenge := None; downstreamCodeChallengeMethod := None |};
     codeVerifier := "verifier-1";
     codeChallenge := S256 "verifier-1";
     nonce := "nonce-1";
     transactionState := "T";
     consentToken := "K" |}.

(** A consent submission with the given cookie jar and form fields. *)
Definition consent_on (jar fields : gmap string string) : Context :=
  mkContext the_env
    (mkRequest "https://broker.example/authorize/consent" ∅ (Some fields) jar).

(** C4, the claim as stated fails.  First: [authorize] serves a consent
    page for a request that names no redirect URI; the denial of that page,
    with the cookie the page set and the token it showed, is not answered
    with a redirect: [new URL] throws, and no header evicts the cookie.
    Second: the sample denial is answered with the evicting header, yet a
    callback that still carries the same cookie finds the bundle of ["T"]
    and completes the downstream grant: nothing on the server remembers
    that the transaction was denied. *)
Lemma deny_does_not_always_redirect_or_invalidate :
  let page := run oracle (authorize authorize_context_without_redirect) [] w0 in
  let c := consent_on (jar_apply ∅ (headers page))
             {[ "transaction_state" := "T"; "consent_token" := "K";
                "consent_action" := "deny" ]} in
  let o := run oracle (confirmConsent c) [] (world page) in
  let denied := run oracle (confirmConsent (consent_context "K" "deny")) [] w0 in
  let later := run oracle (callback callback_context) [] (world denied) in
  (exists scr hs, result page = inr (mkResponse 200 (HtmlBody scr) None hs) /\
                  hidden_transaction_state scr = "T" /\
                  hidden_consent_token scr = "K") /\
  submitted_transaction c = Some "T" /\
  stored_bundle c "T" = Some bundle_without_redirect /\
  submitted_token c = Some (consentToken bundle_without_redirect) /\
  submitted_action c = Some "deny" /\
  result o = inl "TypeError: Invalid URL" /\
  headers o = [] /\
  ~ (exists resp, result o = inr resp) /\
  headers denied = [clearing "T"] /\
  cookies (req callback_context) = cookies (req (consent_context "K" "deny")) /\
  stored_bundle callback_context "T" = Some the_bundle /\
  result later = inr (Response_redirect "https://client.example/cb?code=downstream-code").
Proof.
  cbv zeta. split.
  { eexists _, _. vm_compute. repeat split; reflexivity. }
  repeat split; try (vm_compute; reflexivity).
  intros (resp & Hr). vm_compute in Hr. discriminate.
Qed.

Lemma deny_redirects_downstream_when_the_redirect_uri_parses_witness :
  let c := consent_context "K" "deny" in
  submitted_transaction c = Some "T" /\
  stored_bundle c "T" = Some the_bundle /\
  submitted_token c = Some (consentToken the_bundle) /\
  submitted_action c = Some "deny" /\
  URL_parse (redirectUri (mcpAuthRequest the_bundle)) =
    Some (mkURL "https://client.example/cb" []) /\
  exists (target : URL) (resp : Response),
    result (run oracle (confirmConsent c) [] w0) = inr resp /\
    location resp = Some (URL_href target) /\
    url_get "error" target = Some "access_denied" /\
    url_get "state" target = Some "xyz" /\
    jar_apply (cookies (req c)) (set_cookie resp) !! cookieName_of "T" = None.
Proof.
  cbv zeta.
  assert (HT : submitted_transaction (consent_context "K" "deny") = Some "T")
    by (vm_compute; reflexivity).
  assert (Hb : stored_bundle (consent_context "K" "deny") "T" = Some the_bundle)
    by (vm_compute; reflexivity).
  assert (Hk : submitted_token (consent_context "K" "deny") = Some (consentToken the_bundle))
    by (vm_compute; reflexivity).
  assert (Ha : submitted_action (consent_context "K" "deny") = Some "deny")
    by (vm_compute; reflexivity).
  assert (Hu : URL_parse (redirectUri (mcpAuthRequest the_bundle)) =
               Some (mkURL "https://client.example/cb" []))
    by (vm_compute; reflexivity).
  split; [exact HT|]. split; [exact Hb|]. split; [exact Hk|]. split; [exact Ha|].
  split; [exact Hu|].
  destruct (deny_redirects_downstream_when_the_redirect_uri_parses oracle _ w0 "T"
              the_bundle HT Hb Hk Ha)
    as (_ & _ & Hparsed & _).
  destruct (Hparsed _ Hu)
    as (target & resp & Hr & _ & Hloc & _ & Herr & Hst & _ & _ & _ & _ & Hjar & _).
  exists target, resp.
  split; [exact Hr|]. split; [exact Hloc|]. split; [exact Herr|].
  split; [apply Hst; discriminate|]. exact Hjar.
Defined.

Lemma authorization_code_grant_keeps_upstream_lifetime_witness :
  let options := mkTokenExchangeOptions "authorization_code" (sample_props (Some "rt-1")) in
  grantType options = "authorization_code" /\
  result (run oracle (tokenExchangeCallback the_env options) [] w0) =
    inr (Some (mkTokenExchangeResult (Some 86400) (sample_props (Some "rt-1")))).
Proof.
  cbv zeta. split; [reflexivity|].
  exact (f_equal result
           (authorization_code_grant_keeps_upstream_lifetime oracle the_env
              (mkTokenExchangeOptions "authorization_code" (sample_props (Some "rt-1")))
              [] w0 eq_refl)).
Defined.

Lemma refresh_without_upstream_token_throws_witness :
  let options := mkTokenExchangeOptions "refresh_token" (sample_props None) in
  grantType options = "refresh_token" /\
  refreshToken (tokenSet (options_props options)) = None /\
  result (run oracle (tokenExchangeCallback the_env options) [] w0) =
    inl "No Auth0 refresh token found" /\
  trace (run oracle (tokenExchangeCallback the_env options) [] w0) = [].
Proof.
  cbv zeta. split; [reflexivity|]. split; [reflexivity|].
  destruct (refresh_without_upstream_token_throws oracle the_env
              (mkTokenExchangeOptions "refresh_token" (sample_props None)) [] w0
              eq_refl (or_introl eq_refl))
    as (Hr & Ht & _).
  split; [exact Hr|exact Ht].
Defined.


Lemma approved_consent_builds_authorization_url_witness :
  let c := consent_context "K" "approve" in
  result (run oracle (authorize authorize_context) [] w0) = inr sample_page /\
  cookies (req c) = jar_apply ∅ (set_cookie sample_page) /\
  submitted_transaction c = Some "T" /\
  submitted_token c = Some "K" /\
  submitted_action c = Some "approve" /\
  exists (b : Auth0AuthRequest) (target : URL),
    stored_bundle c "T" = Some b /\
    result (run oracle (confirmConsent c) [] w0) =
      inr (mkResponse 302 NoBody (Some (URL_href target)) []) /\
    url_get "code_challenge" target = Some (calculatePKCECodeChallenge (codeVerifier b)) /\
    url_get "nonce" target = Some (nonce b) /\
    url_get "state" target = Some "T".
Proof.
  cbv zeta.
  assert (H1 : result (run oracle (authorize authorize_context) [] w0) = inr sample_page)
    by (vm_compute; reflexivity).
  assert (H2 : cookies (req (consent_context "K" "approve")) =
               jar_apply ∅ (set_cookie sample_page))
    by (vm_compute; reflexivity).
  assert (H3 : submitted_transaction (consent_context "K" "approve") = Some "T")
    by (vm_compute; reflexivity).
  assert (H4 : submitted_token (consent_context "K" "approve") = Some "K")
    by (vm_compute; reflexivity).
  assert (H5 : submitted_action (consent_context "K" "approve") = Some "approve")
    by (vm_compute; reflexivity).
  split; [exact H1|]. split; [exact H2|]. split; [exact H3|]. split; [exact H4|].
  split; [exact H5|].
  destruct (approved_consent_builds_authorization_url oracle authorize_context
              (consent_context "K" "approve") w0 w0 w0 sample_page sample_screen ∅
              (mkAS "https://tenant.example/" (Some "https://tenant.example/authorize")
                 (Some "https://tenant.example/oauth/token"))
              (mkURL "https://tenant.example/authorize" [])
              H1 eq_refl H2 H3 H4 H5
              ltac:(vm_compute; reflexivity) ltac:(vm_compute; reflexivity))
    as (b & target & Hb & HTb & Hr & _ & _ & _ & _ & _ & Hcc & _ & Hn & Hs).
  exists b, target.
  split; [exact Hb|]. split; [exact Hr|]. split; [exact Hcc|]. split; [exact Hn|].
  rewrite Hs, HTb. reflexivity.
Defined.

(** An authorization request that names a client nobody registered. *)
Definition unknown_client_context : Context :=
  mkContext the_env
    (mkRequest "https://broker.example/authorize?client_id=nobody"
       {[ "client_id" := "nobody" ]} None ∅).

Lemma authorize_without_known_client_creates_no_session_witness :
  let r := mkAuthRequest "code" "nobody" "" [""] "" None None in
  oracle (ParseAuthRequest (req unknown_client_context)) w0 = (inr r, w0) /\
  oracle (LookupClient (clientId r)) w0 = (inr None, w0) /\
  exists msg : string,
    result (run oracle (authorize unknown_client_context) [] w0) =
      inr (mkResponse 400 (TextBody msg) None []) /\
    headers (run oracle (authorize unknown_client_context) [] w0) = [].
Proof.
  cbv zeta.
  assert (Hp : oracle (ParseAuthRequest (req unknown_client_context)) w0 =
               (inr (mkAuthRequest "code" "nobody" "" [""] "" None None), w0))
    by (vm_compute; reflexivity).
  assert (Hl : oracle (LookupClient "nobody") w0 = (inr None, w0)) by reflexivity.
  split; [exact Hp|]. split; [exact Hl|].
  destruct (authorize_without_known_client_creates_no_session oracle
              unknown_client_context w0 w0 _ Hp (or_intror (ex_intro _ w0 Hl)))
    as (msg & Hr & _ & Hh & _).
  exists msg. split; [exact Hr|exact Hh].
Defined.

(** C10, the claim as stated fails.  First: a submission without any
    [consent_action] field, for the consent page [authorize] served to a
    request that names no redirect URI, is not answered with the
    [access_denied] redirect: [new URL] throws, and no header evicts the
    cookie.  Second: an unrecognised action on the sample transaction is
    answered with the denial redirect and the evicting header, yet the same
    cookie sent again with ["approve"] finds the bundle of ["T"] and is
    redirected to the identity provider. *)
Lemma other_action_does_not_always_redirect_or_invalidate :
  let page := run oracle (authorize authorize_context_without_redirect) [] w0 in
  let c := consent_on (jar_apply ∅ (headers page))
             {[ "transaction_state" := "T"; "consent_token" := "K" ]} in
  let o := run oracle (confirmConsent c) [] (world page) in
  let denied := run oracle (confirmConsent (consent_context "K" "maybe")) [] w0 in
  let later := run oracle (confirmConsent (consent_context "K" "approve")) [] (world denied) in
  let upstream :=
    authorization_url (mkURL "https://tenant.example/authorize" [])
      (consent_context "K" "approve") the_bundle "T" in
  submitted_transaction c = Some "T" /\
  stored_bundle c "T" = Some bundle_without_redirect /\
  submitted_token c = Some (consentToken bundle_without_redirect) /\
  submitted_action c = None /\
  result o = inl "TypeError: Invalid URL" /\
  headers o = [] /\
  ~ (exists resp, result o = inr resp) /\
  (exists target,
     result denied = inr (mkResponse 302 NoBody (Some (URL_href target)) [clearing "T"]) /\
     url_get "error" target = Some "access_denied") /\
  cookies (req (consent_context "K" "approve")) = cookies (req (consent_context "K" "maybe")) /\
  stored_bundle (consent_context "K" "approve") "T" = Some the_bundle /\
  result later = inr (mkResponse 302 NoBody (Some (URL_href upstream)) []) /\
  url_get "state" upstream = Some "T".
Proof.
  cbv zeta.
  repeat split; try (vm_compute; reflexivity).
  - intros (resp & Hr). vm_compute in Hr. discriminate.
  - exists (denial_url (mkURL "https://client.example/cb" []) "xyz").
    split; vm_compute; reflexivity.
Qed.

Lemma only_approve_leads_upstream_witness :
  let c := consent_context "K" "maybe" in
  submitted_transaction c = Some "T" /\
  stored_bundle c "T" = Some the_bundle /\
  submitted_token c = Some (consentToken the_bundle) /\
  submitted_action c <> Some "approve" /\
  exists target : URL,
    result (run oracle (confirmConsent c) [] w0) =
      inr (mkResponse 302 NoBody (Some (URL_href target)) [clearing "T"]) /\
    url_get "error" target = Some "access_denied".
Proof.
  cbv zeta.
  assert (HT : submitted_transaction (consent_context "K" "maybe") = Some "T")
    by (vm_compute; reflexivity).
  assert (Hb : stored_bundle (consent_context "K" "maybe") "T" = Some the_bundle)
    by (vm_compute; reflexivity).
  assert (Hk : submitted_token (consent_context "K" "maybe") = Some (consentToken the_bundle))
    by (vm_compute; reflexivity).
  assert (Ha : submitted_action (consent_context "K" "maybe") <> Some "approve")
    by (vm_compute; discriminate).
  split; [exact HT|]. split; [exact Hb|]. split; [exact Hk|]. split; [exact Ha|].
  destruct (only_approve_leads_upstream oracle _ w0 "T" the_bundle HT Hb Hk) as [Hdeny _].
  destruct (Hdeny Ha) as (_ & _ & Hparsed & _).
  destruct (Hparsed (mkURL "https://client.example/cb" []) ltac:(vm_compute; reflexivity))
    as (target & Hr & _ & Herr & _).
  exists target. split; [exact Hr|exact Herr].
Defined.

(** ** The further theorems at work *)

(** A world whose discovery endpoint is unreachable. *)
Definition offline_oracle (a : action) (w : World) : (string + answer a) * World :=
  match a as a0 return (string + answer a0) * World with
  | DiscoveryRequest _ => (inl "fetch failed", w)
  | a0 => oracle a0 w
  end.

(** A provider whose refresh responses carry no ID token. *)
Definition oracle_without_id_token (a : action) (w : World) : (string + answer a) * World :=
  match a as a0 return (string + answer a0) * World with
  | ProcessRefreshTokenResponse _ _ _ =>
      (inr (mkTokenEndpointResponse "at-2" (Some 86400) None None), w)
  | a0 => oracle a0 w
  end.


(** A consent form without any field. *)
Definition empty_form_context : Context :=
  mkContext the_env
    (mkRequest "https://broker.example/authorize/consent" ∅ (Some ∅) the_jar).

Lemma authorize_page_matches_its_cookie_witness :
  result (run oracle (authorize authorize_context) [] w0) = inr sample_page /\
  body sample_page = HtmlBody sample_screen /\
  exists b : Auth0AuthRequest,
    set_cookie sample_page =
      [mkSetCookie (cookieName_of (transactionState b)) (btoa_JSON_stringify b)
         (transaction_cookie_options (env authorize_context))] /\
    hidden_consent_token sample_screen = consentToken b /\
    codeChallenge b = calculatePKCECodeChallenge (codeVerifier b).
Proof.
  assert (H1 : result (run oracle (authorize authorize_context) [] w0) = inr sample_page)
    by (vm_compute; reflexivity).
  split; [exact H1|]. split; [reflexivity|].
  destruct (authorize_page_matches_its_cookie oracle authorize_context w0 sample_page
              sample_screen H1 eq_refl)
    as (b & _ & Hset & _ & Htok & _ & _ & Hcc & _).
  exists b. split; [exact Hset|]. split; [exact Htok|exact Hcc].
Defined.

Lemma consent_without_transaction_is_a_bad_request_witness :
  formData (req empty_form_context) = Some ∅ /\
  truthy ((∅ : gmap string string) !! "transaction_state") = None /\
  result (run oracle (confirmConsent empty_form_context) [] w0) =
    inr (mkResponse 400 (TextBody "Invalid transaction state") None []).
Proof.
  split; [reflexivity|]. split; [reflexivity|].
  destruct (consent_without_transaction_is_a_bad_request oracle empty_form_context w0 ∅
              eq_refl) as [Hno _].
  rewrite (Hno eq_refl). reflexivity.
Defined.


Lemma approval_with_failed_discovery_keeps_the_transaction_witness :
  let c := consent_context "K" "approve" in
  submitted_action c = Some "approve" /\
  offline_oracle (DiscoveryRequest (issuer_of (env c))) w0 = (inl "fetch failed", w0) /\
  result (run offline_oracle (confirmConsent c) [] w0) = inl "fetch failed" /\
  headers (run offline_oracle (confirmConsent c) [] w0) = [].
Proof.
  cbv zeta.
  assert (HT : submitted_transaction (consent_context "K" "approve") = Some "T")
    by (vm_compute; reflexivity).
  assert (Hb : stored_bundle (consent_context "K" "approve") "T" = Some the_bundle)
    by (vm_compute; reflexivity).
  assert (Hk : submitted_token (consent_context "K" "approve")
               = Some (consentToken the_bundle)) by (vm_compute; reflexivity).
  assert (Ha : submitted_action (consent_context "K" "approve") = Some "approve")
    by (vm_compute; reflexivity).
  assert (Hd : offline_oracle (DiscoveryRequest (issuer_of (env (consent_context "K" "approve"))))
                 w0 = (inl "fetch failed", w0)) by reflexivity.
  split; [exact Ha|]. split; [exact Hd|].
  destruct (approval_with_failed_discovery_keeps_the_transaction offline_oracle _ w0 w0 "T"
              the_bundle "fetch failed" HT Hb Hk Ha Hd) as (Hr & Hh & _).
  split; [exact Hr|exact Hh].
Defined.

Lemma callback_calls_are_bound_to_the_bundle_witness :
  callback_transaction callback_context = Some "T" /\
  stored_bundle callback_context "T" = Some the_bundle /\
  List.length (trace (run oracle (callback callback_context) [] w0)) = 6%nat /\
  Forall (callback_call_bound callback_context "T" the_bundle)
    (map event_action (trace (run oracle (callback callback_context) [] w0))).
Proof.
  assert (HT : callback_transaction callback_context = Some "T") by (vm_compute; reflexivity).
  assert (Hb : stored_bundle callback_context "T" = Some the_bundle)
    by (vm_compute; reflexivity).
  split; [exact HT|]. split; [exact Hb|]. split; [vm_compute; reflexivity|].
  exact (callback_calls_are_bound_to_the_bundle oracle callback_context w0 "T" the_bundle
           HT Hb).
Defined.



Lemma token_exchange_is_silent_unless_refreshing_witness :
  let options := mkTokenExchangeOptions "client_credentials" (sample_props (Some "rt-1")) in
  grantType options <> "refresh_token" /\
  result (run oracle (tokenExchangeCallback the_env options) [] w0) = inr None /\
  trace (run oracle (tokenExchangeCallback the_env options) [] w0) = [].
Proof.
  cbv zeta.
  assert (Hg : grantType (mkTokenExchangeOptions "client_credentials"
                            (sample_props (Some "rt-1"))) <> "refresh_token")
    by discriminate.
  split; [exact Hg|].
  destruct (token_exchange_is_silent_unless_refreshing oracle the_env
              (mkTokenExchangeOptions "client_credentials" (sample_props (Some "rt-1")))
              [] w0 Hg) as (Ht & _ & _ & Hnone).
  split; [apply Hnone; discriminate|exact Ht].
Defined.

(** The bag the sample refresh returns. *)
Definition refreshed_props : UserProps :=
  {| claims := the_claims w0;
     tokenSet := {| accessToken := "at-2"; accessTokenTTL := Some 86400;
                    idToken := Some "eyJ.alice"; refreshToken := Some "rt-1" |} |}.

Definition refresh_options : TokenExchangeCallbackOptions :=
  mkTokenExchangeOptions "refresh_token" (sample_props (Some "rt-1")).

Example sample_refresh_returns :
  result (run oracle (tokenExchangeCallback the_env refresh_options) [] w0) =
    inr (Some (mkTokenExchangeResult (Some 86400) refreshed_props)).
Proof. vm_compute. reflexivity. Qed.

Lemma token_exchange_lifetime_matches_the_returned_bag_witness :
  result (run oracle (tokenExchangeCallback the_env refresh_options) [] w0) =
    inr (Some (mkTokenExchangeResult (Some 86400) refreshed_props)) /\
  Some 86400 = accessTokenTTL (tokenSet refreshed_props).
Proof.
  assert (Hr : result (run oracle (tokenExchangeCallback the_env refresh_options) [] w0) =
               inr (Some (mkTokenExchangeResult (Some 86400) refreshed_props)))
    by (vm_compute; reflexivity).
  split; [exact Hr|].
  exact (token_exchange_lifetime_matches_the_returned_bag oracle the_env refresh_options
           [] w0 _ Hr).
Defined.

Lemma refreshed_bag_can_be_refreshed_again_witness :
  grantType refresh_options = "refresh_token" /\
  result (run oracle (tokenExchangeCallback the_env refresh_options) [] w0) =
    inr (Some (mkTokenExchangeResult (Some 86400) refreshed_props)) /\
  exists rt, refreshToken (tokenSet refreshed_props) = Some rt /\ rt <> "".
Proof.
  assert (Hr : result (run oracle (tokenExchangeCallback the_env refresh_options) [] w0) =
               inr (Some (mkTokenExchangeResult (Some 86400) refreshed_props)))
    by (vm_compute; reflexivity).
  split; [reflexivity|]. split; [exact Hr|].
  exact (proj1 (refreshed_bag_can_be_refreshed_again oracle the_env refresh_options [] w0
                  _ eq_refl Hr)).
Defined.

Lemma refresh_calls_are_bound_to_the_stored_token_witness :
  grantType refresh_options = "refresh_token" /\
  refreshToken (tokenSet (options_props refresh_options)) = Some "rt-1" /\
  let tr := trace (run oracle (tokenExchangeCallback the_env refresh_options) [] w0) in
  let calls := map event_action tr in
  List.length calls = 3%nat /\
  calls = refresh_calls the_env "rt-1" (discovery_answers tr) (refresh_grant_answers tr) /\
  Forall (refresh_call_bound the_env "rt-1") calls.
Proof.
  split; [reflexivity|]. split; [reflexivity|]. cbv zeta.
  split; [vm_compute; reflexivity|].
  destruct (refresh_calls_are_bound_to_the_stored_token oracle the_env refresh_options
              [] w0 "rt-1" eq_refl eq_refl ltac:(discriminate))
    as (Hcalls & Hbound & _).
  split; [exact Hcalls|exact Hbound].
Defined.

Lemma refresh_without_id_token_throws_witness :
  let o := run oracle_without_id_token (tokenExchangeCallback the_env refresh_options) [] w0 in
  let r := mkTokenEndpointResponse "at-2" (Some 86400) None None in
  In r (refresh_answers (trace o)) /\
  getValidatedIdTokenClaims r = None /\
  result o = inl "Received invalid id_token from Auth0".
Proof.
  cbv zeta.
  assert (Hin : In (mkTokenEndpointResponse "at-2" (Some 86400) None None)
                  (refresh_answers
                     (trace (run oracle_without_id_token
                               (tokenExchangeCallback the_env refresh_options) [] w0))))
    by (vm_compute; left; reflexivity).
  split; [exact Hin|]. split; [reflexivity|].
  exact (refresh_without_id_token_throws oracle_without_id_token the_env refresh_options
           [] w0 _ eq_refl Hin eq_refl).
Defined.

(** The MCP SDK refuses a name it already holds; [spawn] does not throw. *)
Definition refuse_duplicates (held : list string) (tool : string) : option string :=
  if existsb (String.eqb tool) held
  then Some ("Tool " ++ tool ++ " is already registered")
  else None.

Definition spawn_succeeds (cfg : Aggregator.MCPServerConfig) : option string := None.

(** The three servers of the default configuration file. *)
Definition default_servers : list Aggregator.MCPServerConfig :=
  [Aggregator.mkConfig "filesystem" "npx"
     (Some ["@modelcontextprotocol/server-filesystem"; "/tmp"; "/Users"]) None
     "File system operations - read, write, and manage files" "fs";
   Aggregator.mkConfig "github" "npx" (Some ["@modelcontextprotocol/server-github"])
     (Some [("GITHUB_PERSONAL_ACCESS_TOKEN", "your-token-here")])
     "GitHub operations - repositories, issues, pull requests" "github";
   Aggregator.mkConfig "brave-search" "npx"
     (Some ["@modelcontextprotocol/server-brave-search"])
     (Some [("BRAVE_API_KEY", "your-api-key-here")])
     "Web search using Brave Search API" "web"].

Definition default_aggregator : Aggregator.State :=
  Aggregator.addServers refuse_duplicates spawn_succeeds default_servers Aggregator.empty.

Example default_aggregator_tools :
  Aggregator.registered default_aggregator =
    ["fs:read-file"; "fs:write-file"; "github:search-repositories"; "web:search"] /\
  Aggregator.totalTools default_aggregator = 4%nat /\
  map (fun e => (fst e, Aggregator.status (snd e), map fst (Aggregator.tools (snd e))))
    (Aggregator.connectedServers default_aggregator) =
    [("filesystem", Aggregator.ready, ["fs:read-file"; "fs:write-file"]);
     ("github", Aggregator.ready, ["github:search-repositories"]);
     ("brave-search", Aggregator.ready, ["web:search"])].
Proof. vm_compute. repeat split; reflexivity. Qed.

Lemma tracked_tools_carry_their_servers_prefix_witness :
  Aggregator.tools_under_their_prefix Aggregator.empty /\
  Aggregator.tools_under_their_prefix default_aggregator.
Proof.
  assert (H0 : Aggregator.tools_under_their_prefix Aggregator.empty)
    by (intros e t []).
  split; [exact H0|].
  exact (Aggregator.tracked_tools_carry_their_servers_prefix refuse_duplicates spawn_succeeds
           default_servers Aggregator.empty H0).
Defined.

(** A file server filed under a prefix with a colon in it. *)
Definition colon_server : Aggregator.MCPServerConfig :=
  Aggregator.mkConfig "filesystem" "npx" None None "files" "local:fs".

Lemma prefix_with_a_colon_tracks_nothing_witness :
  Aggregator.before_colon (Aggregator.prefix colon_server) <> Aggregator.prefix colon_server /\
  Aggregator.registered
    (Aggregator.addServer refuse_duplicates spawn_succeeds colon_server Aggregator.empty) =
    ["local:fs:read-file"; "local:fs:write-file"] /\
  exists s,
    Aggregator.map_get "filesystem"
      (Aggregator.connectedServers
         (Aggregator.addServer refuse_duplicates spawn_succeeds colon_server Aggregator.empty))
      = Some s /\
    Aggregator.tools s = [].
Proof.
  assert (Hc : Aggregator.before_colon (Aggregator.prefix colon_server)
               <> Aggregator.prefix colon_server) by (vm_compute; discriminate).
  split; [exact Hc|]. split; [vm_compute; reflexivity|].
  destruct (Aggregator.prefix_with_a_colon_tracks_nothing refuse_duplicates spawn_succeeds
              colon_server Aggregator.empty Hc) as (s & Hs & _ & Ht).
  exists s. split; [exact Hs|exact Ht].
Defined.

(** A second GitHub server that reuses the prefix of the file server. *)
Definition second_server : Aggregator.MCPServerConfig :=
  Aggregator.mkConfig "github" "npx" None None "GitHub" "fs".

Definition file_server_only : Aggregator.State :=
  Aggregator.addServer refuse_duplicates spawn_succeeds
    (Aggregator.mkConfig "filesystem" "npx" None None "files" "fs") Aggregator.empty.

Lemma shared_prefix_files_tools_under_the_first_witness :
  exists (s0 : Aggregator.ConnectedServer) (s : Aggregator.ConnectedServer),
    Aggregator.connectedServers file_server_only = [("filesystem", s0)] /\
    let st' := Aggregator.addServer refuse_duplicates spawn_succeeds second_server
                 file_server_only in
    map fst (Aggregator.tools s0) = ["fs:read-file"; "fs:write-file"] /\
    Aggregator.map_get "filesystem" (Aggregator.connectedServers st') =
      Some (Aggregator.track "fs:search-repositories" Aggregator.search_repositories s0) /\
    Aggregator.map_get "github" (Aggregator.connectedServers st') = Some s /\
    Aggregator.tools s = [].
Proof.
  assert (Hm : exists s0, Aggregator.connectedServers file_server_only = [("filesystem", s0)]
                          /\ map fst (Aggregator.tools s0) = ["fs:read-file"; "fs:write-file"]
                          /\ Aggregator.prefix (Aggregator.config s0) = "fs").
  { eexists. vm_compute. repeat split; reflexivity. }
  destruct Hm as (s0 & Hm & Htools & Hp).
  destruct (Aggregator.shared_prefix_files_tools_under_the_first refuse_duplicates
              spawn_succeeds second_server file_server_only "filesystem" s0 [] Hm
              ltac:(discriminate) Hp eq_refl eq_refl eq_refl
              ltac:(vm_compute; reflexivity))
    as (H1 & s & Hs & _ & Ht).
  exists s0, s. cbv zeta. split; [exact Hm|]. split; [exact Htools|].
  split; [exact H1|]. split; [exact Hs|exact Ht].
Defined.

(** A health endpoint that comes up at the third probe: the world counts
    the probes made so far. *)
Definition slow_health (port : Z) (made : nat) : (string + Tunnel.HealthResponse) * nat :=
  (match made with
   | O => inl "ECONNREFUSED"
   | 1%nat => inr (Tunnel.mkHealth true 200 Tunnel.JsonNull)
   | _ => inr (Tunnel.mkHealth true 200 Tunnel.JsonValue)
   end, S made).

Example waiting_for_a_slow_tunnel :
  Tunnel.probe_results slow_health 8080 10 0%nat =
    [false; false; true; true; true; true; true; true; true; true] /\
  Tunnel.waitForTunnel slow_health 8080 10 0%nat = Tunnel.mkWaited (inr tt) 3 3%nat /\
  Tunnel.waited (Tunnel.waitForTunnel slow_health 8080 2 0%nat) =
    inl "Failed to establish SSH tunnel after maximum attempts".
Proof. vm_compute. repeat split; reflexivity. Qed.

(** Eleven failing exits in a row, with no reset in between, end the
    process; a reset after the tenth keeps it going. *)
Example eleven_failures_give_up :
  snd (Tunnel.handle_all (Tunnel.Start 0 :: repeat (Tunnel.Exit (Some 255)) 11) Tunnel.fresh)
    = Tunnel.Nothing :: repeat Tunnel.Reconnect 10 ++ [Tunnel.GiveUp] /\
  snd (Tunnel.handle_all
         (Tunnel.Start 0 :: repeat (Tunnel.Exit (Some 255)) 10
            ++ [Tunnel.ResetTimer; Tunnel.Exit None])
         Tunnel.fresh)
    = Tunnel.Nothing :: repeat Tunnel.Reconnect 10 ++ [Tunnel.Nothing; Tunnel.Reconnect].
Proof. vm_compute. split; reflexivity. Qed.

(** A configuration with two of the four required values missing. *)
Example two_values_missing :
  validateAuth0Config (Auth0Config.mk "tenant.example" "" "secret" "" "") =
    inl "Missing required Auth0 configuration: clientId, audience".
Proof. vm_compute. reflexivity. Qed.
